(** * VideoByte bidder adapter (modules/videobyteBidAdapter.js)

    A shallow embedding of the adapter's three operations,
    [isBidRequestValid] (through [validateVideo]), [buildRequests]
    (through [buildRequestData]) and [interpretResponse], and the
    properties its specification states about them.

    JavaScript data is embedded as an untyped tree of values; a property
    read on [undefined] or [null] raises a [TypeError], which the embedding
    keeps as the [Throw] outcome of a small state-and-exception monad.  The
    state holds the bid request object the host handed over (the adapter
    writes to it in its test mode) and the console the [utils.log*] calls
    write to. *)

From Stdlib Require Import ZArith List String Ascii Bool Lia.
From Stdlib Require Import DecimalString DecimalPos.
Import ListNotations.
Local Open Scope string_scope.
Local Open Scope Z_scope.
Set Warnings "-register-all".

(** ** JavaScript values *)

(** Numbers of the embedding: [NaN], the integers and the two infinities.
    [Int z] stands for a number a double holds exactly: the safe integers
    ([Number.MIN_SAFE_INTEGER] to [Number.MAX_SAFE_INTEGER]) and, beyond
    them, the doubles [parseInt] rounds to.  Fractions are outside the
    embedding; the adapter only passes such numbers through. *)
Inductive number : Type :=
| NaN
| Int (z : Z)
| Inf (negative : bool).

(** An array carries its elements and, as every JavaScript object may, named
    properties of its own ([extra]); the first binding of a key is the one an
    association list holds for it.  A string is the sequence of its code
    units, one character for each, all below 256: strings with other
    characters are outside the embedding.  Values are data: no property holds
    a function. *)
Inductive value : Type :=
| VUndefined
| VNull
| VBool (b : bool)
| VNum (n : number)
| VStr (s : string)
| VArr (elems : list value) (extra : list (string * value))
| VObj (props : list (string * value)).

Definition num (z : Z) : value := VNum (Int z).
Definition arr (l : list value) : value := VArr l [].

Definition nullish (v : value) : bool :=
  match v with VUndefined | VNull => true | _ => false end.

Definition is_undefined (v : value) : bool :=
  match v with VUndefined => true | _ => false end.

(** [typeof v === 'object' && v !== null]: what a property can be assigned on. *)
Definition is_object (v : value) : bool :=
  match v with VArr _ _ | VObj _ => true | _ => false end.

(** [Array.isArray]. *)
Definition isArray (v : value) : bool :=
  match v with VArr _ _ => true | _ => false end.

(** ToBoolean. *)
Definition truthy (v : value) : bool :=
  match v with
  | VUndefined | VNull => false
  | VBool b => b
  | VNum NaN => false
  | VNum (Int z) => negb (z =? 0)
  | VNum (Inf _) => true
  | VStr s => negb (s =? "")%string
  | VArr _ _ | VObj _ => true
  end.

(** [v === 'lit'] for a string literal. *)
Definition is_str (v : value) (lit : string) : bool :=
  match v with VStr s => (s =? lit)%string | _ => false end.

(** [v === n] for an integer literal. *)
Definition is_num (v : value) (n : Z) : bool :=
  match v with VNum (Int z) => z =? n | _ => false end.

(** ** Property tables *)

Fixpoint assoc (k : string) (ps : list (string * value)) : option value :=
  match ps with
  | [] => None
  | (k', v) :: rest => if (k' =? k)%string then Some v else assoc k rest
  end.

(** Assignment keeps the position of a key that exists and appends a new one,
    as property creation order does. *)
Fixpoint assoc_set (k : string) (x : value) (ps : list (string * value))
  : list (string * value) :=
  match ps with
  | [] => [(k, x)]
  | (k', v) :: rest =>
      if (k' =? k)%string then (k', x) :: rest else (k', v) :: assoc_set k x rest
  end.

Definition or_undefined (o : option value) : value :=
  match o with Some v => v | None => VUndefined end.

(** Canonical array indices: ["0"], ["1"], ["10"], ... and no other string. *)
Definition digit_of (c : ascii) : option nat :=
  let n := nat_of_ascii c in
  if ((48 <=? n) && (n <=? 57))%nat then Some (n - 48)%nat else None.

Fixpoint index_digits (acc : nat) (s : string) : option nat :=
  match s with
  | EmptyString => Some acc
  | String c rest =>
      match digit_of c with
      | Some d => index_digits (10 * acc + d)%nat rest
      | None => None
      end
  end.

Definition index_of_key (k : string) : option nat :=
  match k with
  | EmptyString => None
  | String c rest =>
      match digit_of c with
      | Some O => match rest with EmptyString => Some O | _ => None end
      | Some d => index_digits d rest
      | None => None
      end
  end.

Fixpoint char_at (i : nat) (s : string) : option ascii :=
  match s, i with
  | EmptyString, _ => None
  | String c _, O => Some c
  | String _ rest, S j => char_at j rest
  end.

(** [v[k]] on a value that is neither [undefined] nor [null].  Keys range
    over data properties: the members the built-in prototypes add
    ([toString], [map], ...) are none of the names the adapter reads. *)
Definition prop (v : value) (k : string) : value :=
  match v with
  | VObj ps => or_undefined (assoc k ps)
  | VArr l ex =>
      if (k =? "length")%string then num (Z.of_nat (List.length l))
      else match index_of_key k with
           | Some i => nth i l VUndefined
           | None => or_undefined (assoc k ex)
           end
  | VStr s =>
      if (k =? "length")%string then num (Z.of_nat (String.length s))
      else match index_of_key k with
           | Some i =>
               match char_at i s with
               | Some c => VStr (String c EmptyString)
               | None => VUndefined
               end
           | None => VUndefined
           end
  | _ => VUndefined
  end.

Notation "v @ k" := (prop v k) (at level 25, left associativity).

(** [Object.prototype.hasOwnProperty.call(v, k)]. *)
Definition has_own (v : value) (k : string) : bool :=
  match v with
  | VObj ps => match assoc k ps with Some _ => true | None => false end
  | VArr l ex =>
      if (k =? "length")%string then true
      else match index_of_key k with
           | Some i => (i <? List.length l)%nat
           | None => match assoc k ex with Some _ => true | None => false end
           end
  | VStr s =>
      if (k =? "length")%string then true
      else match index_of_key k with
           | Some i => (i <? String.length s)%nat
           | None => false
           end
  | _ => false
  end.

(** [v.k = x] on an object or an array, for a name [k] that is neither
    [length] nor an index (the adapter assigns [playerSize], [conext] and the
    OpenRTB field names).  Other values are returned as they are: the callers
    below decide what an assignment on them does. *)
Definition set_prop (v : value) (k : string) (x : value) : value :=
  match v with
  | VObj ps => VObj (assoc_set k x ps)
  | VArr l ex => VArr l (assoc_set k x ex)
  | _ => v
  end.

(** ** Effects: the bid request, the console, TypeError *)

Inductive level : Type := Message | Error.

Record state : Type := mkState {
  bidReq : value;                     (* the object [bidRequest] refers to *)
  console : list (level * string)     (* what utils.logMessage / logError wrote, latest first *)
}.

Inductive result (A : Type) : Type :=
| Ok (a : A)
| Throw.                              (* an uncaught TypeError *)
Arguments Ok {A} a.
Arguments Throw {A}.

Definition M (A : Type) : Type := state -> result A * state.

Definition ret {A} (a : A) : M A := fun st => (Ok a, st).
Definition throw {A} : M A := fun st => (Throw, st).
Definition bind {A B} (m : M A) (f : A -> M B) : M B :=
  fun st =>
    match m st with
    | (Ok a, st') => f a st'
    | (Throw, st') => (Throw, st')
    end.

Notation "x <- m ;; k" := (bind m (fun x => k))
  (at level 61, m at next level, right associativity).
Notation "m ;;; k" := (bind m (fun _ => k))
  (at level 61, right associativity).

Definition get_bid : M value := fun st => (Ok (bidReq st), st).
Definition put_bid (b : value) : M unit :=
  fun st => (Ok tt, mkState b (console st)).
Definition log (l : level) (msg : string) : M unit :=
  fun st => (Ok tt, mkState (bidReq st) ((l, msg) :: console st)).

(** [v.k] as an expression: a TypeError on [undefined] and [null]. *)
Definition getp (v : value) (k : string) : M value :=
  if nullish v then throw else ret (v @ k).

(** [bidRequest.k]. *)
Definition bid_prop (k : string) : M value :=
  b <- get_bid ;; getp b k.

(** ** validateVideo (isBidRequestValid) *)

(** [bidRequest.params.video && bidRequest.params.video.e2etest], the test
    of [buildRequests] and [buildRequestData]. *)
Definition video_e2etest : M value :=
  p <- bid_prop "params" ;;
  v <- getp p "video" ;;
  if truthy v then
    p <- bid_prop "params" ;;
    v <- getp p "video" ;;
    getp v "e2etest"
  else ret v.

(** [bidRequest.params && bidRequest.params.video &&
    bidRequest.params.video.e2etest], the test of [validateVideo]. *)
Definition params_video_e2etest : M value :=
  p <- bid_prop "params" ;;
  if truthy p then video_e2etest else ret p.

Definition validateVideo : M bool :=
  e2e <- params_video_e2etest ;;
  if truthy e2e then ret true
  else
    mt <- bid_prop "mediaTypes" ;;
    mediaTypesVideo <- getp mt "video" ;;
    if is_undefined mediaTypesVideo then ret false
    else
      p <- bid_prop "params" ;;
      publisherId <- getp p "publisherId" ;;
      if negb (truthy publisherId) then
        log Error "failed validation: publisher id not declared" ;;; ret false
      else
        context <- getp mediaTypesVideo "context" ;;
        if negb (truthy context) then
          log Error "failed validation: context id not declared" ;;; ret false
        else
          context <- getp mediaTypesVideo "context" ;;
          if negb (is_str context "instream") then
            log Error "failed validation: only context instream is supported " ;;;
            ret false
          else
            playerSize <- getp mediaTypesVideo "playerSize" ;;
            if is_undefined playerSize then
              log Error "failed validation: player size not declared" ;;; ret false
            else
              playerSize <- getp mediaTypesVideo "playerSize" ;;
              if negb (isArray playerSize) then
                log Error "failed validation: player size not declared" ;;; ret false
              else ret true.

Definition isBidRequestValid : M bool := validateVideo.

(** ** interpretResponse *)

Definition DEFAULT_BID_TTL : Z := 30.
Definition DEFAULT_CURRENCY : string := "USD".
Definition DEFAULT_NET_REVENUE : bool := true.

(** The condition of the [if]: every [&&] returns its left operand when that
    is falsy and evaluates its right operand otherwise. *)
Definition one_seat_one_bid (response : value) : M value :=
  if truthy response then
    seatbid <- getp response "seatbid" ;;
    if truthy seatbid then
      seatbid <- getp response "seatbid" ;;
      n <- getp seatbid "length" ;;
      if is_num n 1 then
        seatbid <- getp response "seatbid" ;;
        seat <- getp seatbid "0" ;;
        bids <- getp seat "bid" ;;
        if truthy bids then
          seatbid <- getp response "seatbid" ;;
          seat <- getp seatbid "0" ;;
          bids <- getp seat "bid" ;;
          n <- getp bids "length" ;;
          ret (VBool (is_num n 1))
        else ret bids
      else ret (VBool false)
    else ret seatbid
  else ret response.

(** The second parameter, the request the response answers, is not read. *)
Definition interpretResponse (serverResponse bidRequest : value) : M (list value) :=
  let bidResponses : list value := [] in
  response <- getp (if truthy serverResponse then serverResponse else VObj []) "body" ;;
  c <- one_seat_one_bid response ;;
  if truthy c then
    seatbid <- getp response "seatbid" ;;
    seat <- getp seatbid "0" ;;
    bids <- getp seat "bid" ;;
    bid <- getp bids "0" ;;
    id <- getp response "id" ;;
    price <- getp bid "price" ;;
    w <- getp bid "w" ;;
    h <- getp bid "h" ;;
    adm <- getp bid "adm" ;;
    crid <- getp bid "crid" ;;
    adomain <- getp bid "adomain" ;;
    let bidResponse :=
      VObj [("requestId", id); ("cpm", price); ("width", w); ("height", h);
            ("ad", adm); ("ttl", num DEFAULT_BID_TTL); ("creativeId", crid);
            ("netRevenue", VBool DEFAULT_NET_REVENUE);
            ("currency", VStr DEFAULT_CURRENCY); ("mediaType", VStr "video");
            ("meta", VObj [("adomain", adomain)])] in
    adm <- getp bid "adm" ;;
    bidResponse <- (if truthy adm then
                      adm <- getp bid "adm" ;; ret (set_prop bidResponse "vastXml" adm)
                    else ret bidResponse) ;;
    ret (bidResponses ++ [bidResponse])%list
  else
    log Error "invalid server response received" ;;; ret bidResponses.

(** ** Strings and numbers: ToString, parseInt, JSON.stringify *)

(** The values ToString (and ToPrimitive, which [+] applies to an operand)
    returns a string for.  The values of the embedding are data: a property
    [toString] an object or an array has of its own is not callable, the
    conversion finds no method that returns a primitive, and it is a
    TypeError.  Without one, an object prints through
    [Object.prototype.toString]; an array through [Array.prototype.toString],
    which joins the elements, converting each one that is neither [undefined]
    nor [null], unless the array has a property [join] of its own (not
    callable: it then prints as an object does). *)
Fixpoint printable (v : value) : bool :=
  match v with
  | VObj ps => match assoc "toString" ps with Some _ => false | None => true end
  | VArr l ex =>
      match assoc "toString" ex with
      | Some _ => false
      | None =>
          match assoc "join" ex with
          | Some _ => true
          | None => forallb (fun x => nullish x || printable x) l
          end
      end
  | _ => true
  end.

(** ToString, on the values it returns on ([printable]).  An array joins its
    elements with commas, [undefined] and [null] elements as empty strings;
    an object prints as ["[object Object]"].  An integer is printed digit by
    digit, as ToString does for the safe integers; it prints larger doubles
    rounded to 17 digits or with an exponent, which the embedding does not
    follow ([safe_numbers] below). *)
Fixpoint to_string (v : value) : string :=
  match v with
  | VUndefined => "undefined"
  | VNull => "null"
  | VBool true => "true"
  | VBool false => "false"
  | VNum NaN => "NaN"
  | VNum (Int z) => NilZero.string_of_int (Z.to_int z)
  | VNum (Inf false) => "Infinity"
  | VNum (Inf true) => "-Infinity"
  | VStr s => s
  | VArr l ex =>
      match assoc "join" ex with
      | Some _ => "[object Array]"
      | None =>
          String.concat "," (map (fun x => if nullish x then "" else to_string x) l)
      end
  | VObj _ => "[object Object]"
  end.

(** The integers a double holds exactly and ToString prints digit by digit,
    [Number.MIN_SAFE_INTEGER] to [Number.MAX_SAFE_INTEGER]. *)
Definition safe_integer (z : Z) : bool := Z.abs z <=? 9007199254740991.

(** The values whose numbers, as far as ToString prints them, are safe
    integers: on these [to_string] is ToString. *)
Fixpoint safe_numbers (v : value) : bool :=
  match v with
  | VNum (Int z) => safe_integer z
  | VArr l _ => forallb safe_numbers l
  | _ => true
  end.

(** Strings of ASCII characters. *)
Fixpoint ascii_string (s : string) : bool :=
  match s with
  | EmptyString => true
  | String c rest => (nat_of_ascii c <? 128)%nat && ascii_string rest
  end.

(** The values whose strings are ASCII and whose numbers are safe integers,
    as far as ToString reads them. *)
Fixpoint plain_value (v : value) : bool :=
  match v with
  | VNum (Int z) => safe_integer z
  | VStr s => ascii_string s
  | VArr l _ => forallb plain_value l
  | _ => true
  end.

(** StrWhiteSpaceChar, as far as the strings of the embedding hold it: tab,
    line feed, vertical tab, form feed, carriage return, space and the
    no-break space. *)
Definition is_space (c : ascii) : bool :=
  let n := nat_of_ascii c in
  ((n =? 32) || ((9 <=? n) && (n <=? 13)) || (n =? 160))%nat.

Fixpoint skip_spaces (s : string) : string :=
  match s with
  | String c rest => if is_space c then skip_spaces rest else s
  | EmptyString => s
  end.

(** The longest prefix of decimal digits, [None] when it is empty. *)
Fixpoint parse_digits (acc : option Z) (s : string) : option Z :=
  match s with
  | EmptyString => acc
  | String c rest =>
      match digit_of c with
      | Some d =>
          parse_digits
            (Some (10 * (match acc with Some a => a | None => 0 end) + Z.of_nat d)) rest
      | None => acc
      end
  end.

(** The double nearest to a natural number beyond the safe integers, ties to
    the even significand: 53 bits are kept. *)
Definition round_to_double (a : Z) : Z :=
  let e := Z.log2 a - 52 in
  let q := Z.shiftr a e in
  let r := a - Z.shiftl q e in
  let half := Z.shiftl 1 (e - 1) in
  Z.shiftl (if (half <? r) || ((r =? half) && Z.odd q) then q + 1 else q) e.

(** The number value of the digits read: the integer itself when it is safe,
    and the double nearest to it otherwise, infinite from [2^1024] on. *)
Definition number_of_digits (negative : bool) (a : Z) : number :=
  if a <=? 9007199254740991 then Int (if negative then - a else a)
  else
    let d := round_to_double a in
    if d <? Z.shiftl 1 1024 then Int (if negative then - d else d)
    else Inf negative.

(** [parseInt(s, 10)] on a string: the digits are read exactly and the
    result is rounded once, as engines do (the standard lets an
    implementation read the digits after the twentieth as zeros). *)
Definition parse_int (s : string) : number :=
  let s := skip_spaces s in
  let (neg, s) :=
    match s with
    | String "-" rest => (true, rest)
    | String "+" rest => (false, rest)
    | _ => (false, s)
    end in
  match parse_digits None s with
  | Some z => number_of_digits neg z
  | None => NaN
  end.

(** [parseInt(v, 10)] on a value ToString returns on: the argument is
    converted with ToString first. *)
Definition parseInt (v : value) : number := parse_int (to_string v).

(** The document [JSON.stringify] writes, as the tree its text denotes. *)
Inductive json : Type :=
| JNull
| JBool (b : bool)
| JNum (z : Z)
| JStr (s : string)
| JArr (items : list json)
| JObj (members : list (string * json)).

(** [None] is [JSON.stringify]'s [undefined]: a property with such a value
    is left out of its object, an array element is written [null]; [NaN] and
    the infinities are written [null]; the named properties of an array are
    not written. *)
Fixpoint JSON_stringify (v : value) : option json :=
  match v with
  | VUndefined => None
  | VNull => Some JNull
  | VBool b => Some (JBool b)
  | VNum NaN => Some JNull
  | VNum (Int z) => Some (JNum z)
  | VNum (Inf _) => Some JNull
  | VStr s => Some (JStr s)
  | VArr l _ =>
      Some (JArr (map (fun x => match JSON_stringify x with
                                | Some j => j
                                | None => JNull
                                end) l))
  | VObj ps =>
      Some (JObj (flat_map (fun p => match p with
                                     | (k, x) => match JSON_stringify x with
                                                 | Some j => [(k, j)]
                                                 | None => []
                                                 end
                                     end) ps))
  end.

Fixpoint jassoc (k : string) (ms : list (string * json)) : option json :=
  match ms with
  | [] => None
  | (k', j) :: rest => if (k' =? k)%string then Some j else jassoc k rest
  end.

Inductive step : Type :=
| Key (k : string)
| Idx (i : nat).

(** The member of a document a path leads to, [None] when the path leaves it. *)
Fixpoint jpath (j : json) (p : list step) : option json :=
  match p with
  | [] => Some j
  | Key k :: rest =>
      match j with
      | JObj ms => match jassoc k ms with Some j' => jpath j' rest | None => None end
      | _ => None
      end
  | Idx i :: rest =>
      match j with
      | JArr l => match nth_error l i with Some j' => jpath j' rest | None => None end
      | _ => None
      end
  end.

(** ** buildRequestData and buildRequests *)

Definition ENDPOINT_URL : string := "https://x.videobyte.com/ortb".

Definition VIDEO_ORTB_PARAMS : list string :=
  ["mimes"; "minduration"; "maxduration"; "placement"; "protocols";
   "startdelay"; "skip"; "skipafter"; "minbitrate"; "maxbitrate";
   "delivery"; "playbackmethod"; "api"; "linearity"].

(** What the adapter reads of the page: [window.location.hostname],
    [window.location.href] and [document.location.protocol]. *)
Record page : Type := mkPage {
  hostname : string;
  href : string;
  protocol : string
}.

Definition isSecure (env : page) : bool := (protocol env =? "https:")%string.

(** The host's floor function, when [utils.isFn(bidRequest.getFloor)]: a
    function of the bid request it is called on and of the floor request,
    taken to neither throw nor write to the bid request. *)
Definition floor_fn : Type := value -> value -> value.

(** Modelled from the spec: [utils.deepSetValue] (src/utils.js is not among
    the sources).  The value is written at the end of the path; an
    intermediate object that is absent is created, one that exists is kept
    with the keys it has. *)
Fixpoint deepSetValue (obj : value) (path : list string) (x : value) : value :=
  match path with
  | [] => obj
  | [k] => set_prop obj k x
  | k :: rest =>
      let child := if is_object (obj @ k) then obj @ k else VObj [] in
      set_prop obj k (deepSetValue child rest x)
  end.

(** ToString as the code runs it, in [parseInt(x, 10)] and in
    ['/' + publisherId]: a TypeError on the values it finds no string for. *)
Definition ToString (v : value) : M string :=
  if printable v then ret (to_string v) else throw.

(** [parseInt(v, 10)]. *)
Definition parseInt10 (v : value) : M number :=
  s <- ToString v ;; ret (parse_int s).

(** The local constants [params] and [mediaTypes] refer to the objects the
    destructuring [const {params, mediaTypes} = bidRequest] found: reading
    them does not throw, and a write through one is seen through the other
    name of the same object. *)
Definition params_var : M value := b <- get_bid ;; ret (b @ "params").
Definition mediaTypes_var : M value := b <- get_bid ;; ret (b @ "mediaTypes").

(** [mediaTypes.video.field = x].  The adapter is a module, hence strict
    code: the assignment is a TypeError unless [mediaTypes.video] is an
    object. *)
Definition assign_video (field : string) (x : value) : M unit :=
  mediaTypes <- mediaTypes_var ;;
  video <- getp mediaTypes "video" ;;
  if is_object video then
    b <- get_bid ;;
    put_bid (set_prop b "mediaTypes"
               (set_prop mediaTypes "video" (set_prop video field x)))
  else throw.

(** [v.hasOwnProperty(k)]: the method is [Object.prototype]'s unless [v] has
    a property of that name of its own, and calling a datum is a TypeError. *)
Definition hasOwnProperty (v : value) (k : string) : M bool :=
  if nullish v then throw
  else if has_own v "hasOwnProperty" then throw
  else ret (has_own v k).

Definition copy_param (param : string) (video : value) : M value :=
  mediaTypes <- mediaTypes_var ;;
  mv <- getp mediaTypes "video" ;;
  has <- hasOwnProperty mv param ;;
  if has then
    mediaTypes <- mediaTypes_var ;;
    mv <- getp mediaTypes "video" ;;
    x <- getp mv param ;;
    ret (set_prop video param x)
  else ret video.

Fixpoint forEach {A : Type} (l : list string) (f : string -> A -> M A) (a : A) : M A :=
  match l with
  | [] => ret a
  | x :: rest => a' <- f x a ;; forEach rest f a'
  end.

(** [mediaTypes.video.playerSize[0][i]]. *)
Definition playerSize_0 (i : string) : M value :=
  mediaTypes <- mediaTypes_var ;;
  mv <- getp mediaTypes "video" ;;
  playerSize <- getp mv "playerSize" ;;
  first <- getp playerSize "0" ;;
  getp first i.

(** The steps of [buildRequestData], in the order of the source. *)

(** Test mode: the player size and a property [conext] (the source's
    spelling) are written to the bid request's own [mediaTypes.video]. *)
Definition TEST_PLAYER_SIZE : value := arr [arr [num 640; num 480]].

Definition test_mode_override : M unit :=
  e2e <- video_e2etest ;;
  if truthy e2e then
    assign_video "playerSize" TEST_PLAYER_SIZE ;;;
    assign_video "conext" (VStr "instream")
  else ret tt.

(** The [video] object: the size, the OpenRTB parameters the ad unit has,
    and the placement rules. *)
Definition build_video : M value :=
  w <- playerSize_0 "0" ;;
  w <- parseInt10 w ;;
  h <- playerSize_0 "1" ;;
  h <- parseInt10 h ;;
  let video := VObj [("w", VNum w); ("h", VNum h)] in
  video <- forEach VIDEO_ORTB_PARAMS copy_param video ;;
  let video :=
    set_prop video "placement"
      (if truthy (video @ "placement") then video @ "placement" else num 2) in
  params <- params_var ;;
  context <- getp params "context" ;;
  ret (if is_str context "instream" then
         set_prop
           (set_prop video "startdelay"
              (if truthy (video @ "startdelay") then video @ "startdelay" else num 0))
           "placement" (num 1)
       else video).

(** The bid floor: [bidRequest.params], or what [getFloor] returns. *)
Definition get_floor_data (getFloor : option floor_fn) : M value :=
  p <- bid_prop "params" ;;
  cur <- getp p "cur" ;;
  let bidFloorRequest :=
    VObj [("currency", if truthy cur then cur else VStr "USD");
          ("mediaType", VStr "video"); ("size", VStr "*")] in
  floorData <- bid_prop "params" ;;
  match getFloor with
  | Some f => b <- get_bid ;; ret (f b bidFloorRequest)
  | None => ret floorData
  end.

(** The [openrtbRequest] literal. *)
Definition build_openrtbRequest (env : page) (video floorData : value) : M value :=
  bidId <- bid_prop "bidId" ;;
  bidfloor <- getp floorData "floor" ;;
  bidfloorcur <- getp floorData "currency" ;;
  refererInfo <- bid_prop "refererInfo" ;;
  ref <- (if truthy refererInfo then
            refererInfo <- bid_prop "refererInfo" ;;
            referer <- getp refererInfo "referer" ;;
            ret (if truthy referer then referer else VNull)
          else ret VNull) ;;
  ret (VObj [("id", bidId);
             ("imp", arr [VObj [("id", VStr "1"); ("video", video);
                                ("secure", num (if isSecure env then 1 else 0));
                                ("bidfloor", bidfloor);
                                ("bidfloorcur", bidfloorcur)]]);
             ("site", VObj [("domain", VStr (hostname env));
                            ("page", VStr (href env));
                            ("ref", ref)])]).

(** The supply chain, GDPR and CCPA extensions. *)
Definition add_schain (openrtbRequest : value) : M value :=
  schain <- bid_prop "schain" ;;
  if truthy schain then
    schain <- bid_prop "schain" ;;
    ret (deepSetValue openrtbRequest ["source"; "ext"; "schain"] schain)
  else ret openrtbRequest.

Definition add_gdpr (openrtbRequest : value) : M value :=
  gdprConsent <- bid_prop "gdprConsent" ;;
  if truthy gdprConsent then
    gdprConsent <- bid_prop "gdprConsent" ;;
    consentString <- getp gdprConsent "consentString" ;;
    let o := deepSetValue openrtbRequest ["user"; "ext"; "consent"] consentString in
    gdprConsent <- bid_prop "gdprConsent" ;;
    gdprApplies <- getp gdprConsent "gdprApplies" ;;
    ret (deepSetValue o ["regs"; "ext"; "gdpr"]
           (num (if truthy gdprApplies then 1 else 0)))
  else ret openrtbRequest.

Definition add_usp (openrtbRequest : value) : M value :=
  uspConsent <- bid_prop "uspConsent" ;;
  if truthy uspConsent then
    uspConsent <- bid_prop "uspConsent" ;;
    ret (deepSetValue openrtbRequest ["regs"; "ext"; "us_privacy"] uspConsent)
  else ret openrtbRequest.

Definition buildRequestData (env : page) (getFloor : option floor_fn) : M value :=
  b <- get_bid ;;
  (if nullish b then throw else ret tt) ;;;
  test_mode_override ;;;
  video <- build_video ;;
  floorData <- get_floor_data getFloor ;;
  openrtbRequest <- build_openrtbRequest env video floorData ;;
  openrtbRequest <- add_schain openrtbRequest ;;
  openrtbRequest <- add_gdpr openrtbRequest ;;
  add_usp openrtbRequest.

(** The request descriptor [{method, url, data}]. *)
Record descriptor : Type := mkDescriptor {
  method : string;
  url : string;
  data : option json
}.

(** The function [buildRequests] maps over its argument.  The members of
    the descriptor are evaluated in order: the URL, whose [+] converts the
    publisher id, before the body. *)
Definition buildRequest (env : page) (getFloor : option floor_fn) : M descriptor :=
  b <- get_bid ;;
  (if nullish b then throw else ret tt) ;;;
  params <- params_var ;;
  publisherId <- getp params "publisherId" ;;
  e2e <- video_e2etest ;;
  publisherId <- (if truthy e2e then
                    log Message "E2E test mode enabled" ;;; ret (VStr "e2etest")
                  else ret publisherId) ;;
  publisherId <- ToString publisherId ;;
  body <- buildRequestData env getFloor ;;
  ret (mkDescriptor "POST" (ENDPOINT_URL ++ "/" ++ publisherId)
         (JSON_stringify body)).

(** A bid request as the host hands it over: the object, and its floor
    function when it has one. *)
Record bid_request : Type := mkBidRequest {
  request : value;
  floor : option floor_fn                (* [getFloor], when it is a function *)
}.

(** [bidRequests.map(...)]: the requests are built in order, each on its own
    object (objects the host shares between two bid requests are not
    modelled); an exception ends the call, what was written before it
    stays. *)
Fixpoint map_bidRequests (env : page) (brs : list bid_request)
    (con : list (level * string))
  : result (list descriptor) * (list value * list (level * string)) :=
  match brs with
  | [] => (Ok [], ([], con))
  | br :: rest =>
      match buildRequest env (floor br) (mkState (request br) con) with
      | (Ok d, st) =>
          match map_bidRequests env rest (console st) with
          | (Ok ds, (bs, con')) => (Ok (d :: ds), (bidReq st :: bs, con'))
          | (Throw, (bs, con')) => (Throw, (bidReq st :: bs, con'))
          end
      | (Throw, st) => (Throw, (bidReq st :: map request rest, console st))
      end
  end.

(** [None] stands for a falsy argument, on which [buildRequests] returns
    [undefined]. *)
Definition buildRequests (env : page) (bidRequests : option (list bid_request))
    (con : list (level * string))
  : result (option (list descriptor)) * (list value * list (level * string)) :=
  match bidRequests with
  | None => (Ok None, ([], con))
  | Some brs =>
      match map_bidRequests env brs con with
      | (Ok ds, out) => (Ok (Some ds), out)
      | (Throw, out) => (Throw, out)
      end
  end.


(** ** The operations in closed form *)

(** What each operation returns, and the bid request it leaves, as functions
    of what it reads.  The lemmas further down prove that the monadic code
    above computes them. *)

(** The test-mode flag as the guards read it. *)
Definition e2etest (r : value) : value := r @ "params" @ "video" @ "e2etest".

(** What [utils.logError(msg)] leaves behind. *)
Definition logged (l : level) (msg : string) (st : state) : state :=
  mkState (bidReq st) ((l, msg) :: console st).

(** [(serverResponse || {}).body]. *)
Definition body_of (serverResponse : value) : value :=
  (if truthy serverResponse then serverResponse else VObj []) @ "body".

(** [response.seatbid[0].bid[0]], the bid [interpretResponse] reads. *)
Definition accepted_bid (serverResponse : value) : value :=
  body_of serverResponse @ "seatbid" @ "0" @ "bid" @ "0".

(** The bid object [interpretResponse] hands to the host for the bid [b] of
    the response body [response]. *)
Definition normalized_bid (response b : value) : value :=
  let bidResponse :=
    VObj [("requestId", response @ "id"); ("cpm", b @ "price");
          ("width", b @ "w"); ("height", b @ "h"); ("ad", b @ "adm");
          ("ttl", num DEFAULT_BID_TTL); ("creativeId", b @ "crid");
          ("netRevenue", VBool DEFAULT_NET_REVENUE);
          ("currency", VStr DEFAULT_CURRENCY); ("mediaType", VStr "video");
          ("meta", VObj [("adomain", b @ "adomain")])] in
  if truthy (b @ "adm") then set_prop bidResponse "vastXml" (b @ "adm")
  else bidResponse.

(** Names that are neither [length] nor an array index. *)
Definition plain (k : string) : bool :=
  negb (k =? "length")%string
  && match index_of_key k with None => true | Some _ => false end.

(** The bid request after the two writes of the test mode. *)
Definition override (r : value) : value :=
  let mediaTypes := r @ "mediaTypes" in
  let video := mediaTypes @ "video" in
  set_prop r "mediaTypes"
    (set_prop mediaTypes "video"
       (set_prop (set_prop video "playerSize" TEST_PLAYER_SIZE)
          "conext" (VStr "instream"))).

(** The bid request as [buildRequestData] leaves it. *)
Definition after_build (r : value) : value :=
  if truthy (e2etest r) && is_object (r @ "mediaTypes" @ "video")
  then override r else r.

(** The [forEach] over [VIDEO_ORTB_PARAMS], as a fold. *)
Definition copy_all (mv : value) (l : list string) (video : value) : value :=
  fold_left (fun v k => if has_own mv k then set_prop v k (mv @ k) else v) l video.

(** [video.placement = video.placement || 2]. *)
Definition default_placement (video : value) : value :=
  set_prop video "placement"
    (if truthy (video @ "placement") then video @ "placement" else num 2).

(** The body of [if (params.context === 'instream')]. *)
Definition instream_placement (video : value) : value :=
  set_prop
    (set_prop video "startdelay"
       (if truthy (video @ "startdelay") then video @ "startdelay" else num 0))
    "placement" (num 1).

(** The object the parameters are copied into: [w] and [h] of the first
    player size. *)
Definition video_size (r : value) : value :=
  let first := r @ "mediaTypes" @ "video" @ "playerSize" @ "0" in
  VObj [("w", VNum (parseInt (first @ "0"))); ("h", VNum (parseInt (first @ "1")))].

(** The object after the copy of the OpenRTB parameters. *)
Definition video_copied (r : value) : value :=
  copy_all (r @ "mediaTypes" @ "video") VIDEO_ORTB_PARAMS (video_size r).

(** The [video] object built from the bid request [r] as it is after the
    test-mode override. *)
Definition video_object (r : value) : value :=
  let video := default_placement (video_copied r) in
  if is_str (r @ "params" @ "context") "instream"
  then instream_placement video else video.

(** [floorData]: what [getFloor] returns for the floor request, or [params]. *)
Definition floor_data (getFloor : option floor_fn) (r : value) : value :=
  match getFloor with
  | Some f =>
      f r (VObj [("currency",
                  if truthy (r @ "params" @ "cur") then r @ "params" @ "cur"
                  else VStr "USD");
                 ("mediaType", VStr "video"); ("size", VStr "*")])
  | None => r @ "params"
  end.

(** [bidRequest.refererInfo ? bidRequest.refererInfo.referer || null : null]. *)
Definition referer_of (r : value) : value :=
  if truthy (r @ "refererInfo") then
    if truthy (r @ "refererInfo" @ "referer") then r @ "refererInfo" @ "referer"
    else VNull
  else VNull.

(** The [openrtbRequest] literal, before the extensions. *)
Definition openrtb_literal (env : page) (r video floorData : value) : value :=
  VObj [("id", r @ "bidId");
        ("imp", arr [VObj [("id", VStr "1"); ("video", video);
                           ("secure", num (if isSecure env then 1 else 0));
                           ("bidfloor", floorData @ "floor");
                           ("bidfloorcur", floorData @ "currency")]]);
        ("site", VObj [("domain", VStr (hostname env));
                       ("page", VStr (href env));
                       ("ref", referer_of r)])].

(** The three extension steps. *)
Definition with_schain (r o : value) : value :=
  if truthy (r @ "schain")
  then deepSetValue o ["source"; "ext"; "schain"] (r @ "schain") else o.

Definition with_gdpr (r o : value) : value :=
  if truthy (r @ "gdprConsent") then
    deepSetValue
      (deepSetValue o ["user"; "ext"; "consent"] (r @ "gdprConsent" @ "consentString"))
      ["regs"; "ext"; "gdpr"]
      (num (if truthy (r @ "gdprConsent" @ "gdprApplies") then 1 else 0))
  else o.

Definition with_usp (r o : value) : value :=
  if truthy (r @ "uspConsent")
  then deepSetValue o ["regs"; "ext"; "us_privacy"] (r @ "uspConsent") else o.

(** The OpenRTB request built from the bid request [r] as it is after the
    test-mode override. *)
Definition wire_request (env : page) (getFloor : option floor_fn) (r : value) : value :=
  with_usp r
    (with_gdpr r
       (with_schain r
          (openrtb_literal env r (video_object r) (floor_data getFloor r)))).

(** ToString of the publisher id that ends the URL. *)
Definition publisher_of (r : value) : value :=
  if truthy (e2etest r) then VStr "e2etest" else r @ "params" @ "publisherId".

(** The two entries of the first player size are values [parseInt] can
    convert to strings. *)
Definition sizes_printable (r : value) : bool :=
  let first := r @ "mediaTypes" @ "video" @ "playerSize" @ "0" in
  printable (first @ "0") && printable (first @ "1").

(** The bid requests on which [buildRequestData] returns: [params] is
    there; in test mode [mediaTypes.video] is an object; the first player
    size (after the override) is there and [parseInt] can convert its two
    entries; [mediaTypes.video] has no property [hasOwnProperty] of its own;
    the floor source is there. *)
Definition body_buildable (getFloor : option floor_fn) (r : value) : bool :=
  negb (nullish (r @ "params"))
  && (negb (truthy (e2etest r)) || is_object (r @ "mediaTypes" @ "video"))
  && negb (nullish (after_build r @ "mediaTypes" @ "video" @ "playerSize" @ "0"))
  && sizes_printable (after_build r)
  && negb (has_own (after_build r @ "mediaTypes" @ "video") "hasOwnProperty")
  && negb (nullish (floor_data getFloor (after_build r))).

(** The bid requests on which the function [buildRequests] maps returns:
    those on which [buildRequestData] does and whose publisher id the URL's
    [+] can convert to a string. *)
Definition buildable (getFloor : option floor_fn) (r : value) : bool :=
  printable (publisher_of r) && body_buildable getFloor r.

(** ** Paths through values and through the wire body *)

(** Plain objects, the values [JSON.stringify] writes as objects. *)
Definition is_record (v : value) : bool :=
  match v with VObj _ => true | _ => false end.

(** What [JSON.stringify] writes for a member and for an element. *)
Definition stringify_member (p : string * value) : list (string * json) :=
  match p with
  | (k, x) => match JSON_stringify x with Some j => [(k, j)] | None => [] end
  end.

Definition stringify_element (x : value) : json :=
  match JSON_stringify x with Some j => j | None => JNull end.

(** A path through a value that [JSON.stringify] writes as it is: object
    members by key, array elements by index. *)
Fixpoint vpath (v : value) (p : list step) : option value :=
  match p with
  | [] => Some v
  | Key k :: rest =>
      match v with
      | VObj ps => match assoc k ps with Some x => vpath x rest | None => None end
      | _ => None
      end
  | Idx i :: rest =>
      match v with
      | VArr l _ => match nth_error l i with Some x => vpath x rest | None => None end
      | _ => None
      end
  end.

(** [jpath] on what [JSON.stringify] returned. *)
Definition opath (o : option json) (p : list step) : option json :=
  match o with Some j => jpath j p | None => None end.

(** The member of the wire body a path leads to. *)
Definition body_path (d : descriptor) (p : list step) : option json :=
  match data d with Some j => jpath j p | None => None end.

(** Paths of the wire body. *)
Definition PLACEMENT : list step := [Key "imp"; Idx 0; Key "video"; Key "placement"].
Definition STARTDELAY : list step := [Key "imp"; Idx 0; Key "video"; Key "startdelay"].
Definition WIDTH : list step := [Key "imp"; Idx 0; Key "video"; Key "w"].
Definition HEIGHT : list step := [Key "imp"; Idx 0; Key "video"; Key "h"].

(** The extension paths of the wire body. *)
Definition SCHAIN : list step := [Key "source"; Key "ext"; Key "schain"].
Definition CONSENT : list step := [Key "user"; Key "ext"; Key "consent"].
Definition GDPR : list step := [Key "regs"; Key "ext"; Key "gdpr"].
Definition US_PRIVACY : list step := [Key "regs"; Key "ext"; Key "us_privacy"].

(** ** The shape of a response *)

(** The guard of [interpretResponse] read without its exceptions: the body
    is there, [seatbid] is there with [length === 1], and [seatbid[0].bid] is
    there with [length === 1]. *)
Definition one_seat_one_bid_guard (serverResponse : value) : bool :=
  let response := body_of serverResponse in
  let seatbid := response @ "seatbid" in
  let bids := seatbid @ "0" @ "bid" in
  truthy response && truthy seatbid && is_num (seatbid @ "length") 1
  && truthy bids && is_num (bids @ "length") 1.

(** [seatbid] and [seatbid[0].bid] are arrays, not the strings and objects
    that have a [length] too. *)
Definition lists_are_arrays (serverResponse : value) : bool :=
  isArray (body_of serverResponse @ "seatbid")
  && isArray (body_of serverResponse @ "seatbid" @ "0" @ "bid").

(** The bid of a response whose body exists and has exactly one seat with
    exactly one bid. *)
Definition single_bid (serverResponse : value) : option value :=
  if truthy (body_of serverResponse) then
    match body_of serverResponse @ "seatbid" with
    | VArr [seat] _ =>
        match seat @ "bid" with
        | VArr [b] _ => Some b
        | _ => None
        end
    | _ => None
    end
  else None.

(** The mapping from the body [response] and its bid [b] to the bid object
    [nb] handed to the host. *)
Definition maps_bid (nb response b : value) : Prop :=
  nb @ "requestId" = response @ "id"
  /\ nb @ "cpm" = b @ "price"
  /\ nb @ "width" = b @ "w"
  /\ nb @ "height" = b @ "h"
  /\ nb @ "ad" = b @ "adm"
  /\ nb @ "ttl" = num 30
  /\ nb @ "creativeId" = b @ "crid"
  /\ nb @ "netRevenue" = VBool true
  /\ nb @ "currency" = VStr "USD"
  /\ nb @ "mediaType" = VStr "video"
  /\ nb @ "meta" @ "adomain" = b @ "adomain"
  /\ (truthy (b @ "adm") = true -> nb @ "vastXml" = b @ "adm")
  /\ (truthy (b @ "adm") = false -> has_own nb "vastXml" = false).

(** ** Decimal numerals *)

(** The integer a decimal numeral denotes, most significant digit first. *)
Fixpoint uint_value (d : Decimal.uint) (acc : Z) : Z :=
  match d with
  | Decimal.Nil => acc
  | Decimal.D0 d => uint_value d (10 * acc)
  | Decimal.D1 d => uint_value d (10 * acc + 1)
  | Decimal.D2 d => uint_value d (10 * acc + 2)
  | Decimal.D3 d => uint_value d (10 * acc + 3)
  | Decimal.D4 d => uint_value d (10 * acc + 4)
  | Decimal.D5 d => uint_value d (10 * acc + 5)
  | Decimal.D6 d => uint_value d (10 * acc + 6)
  | Decimal.D7 d => uint_value d (10 * acc + 7)
  | Decimal.D8 d => uint_value d (10 * acc + 8)
  | Decimal.D9 d => uint_value d (10 * acc + 9)
  end.

(** The digits read so far. *)
Definition acc_value (acc : option Z) : Z :=
  match acc with Some a => a | None => 0 end.

(** ** Bid requests and responses to run the operations on *)

(** A page and bid requests to run the builder on. *)
Definition example_page : page :=
  mkPage "publisher.example" "https://publisher.example/watch" "https:".

(** An instream [mediaTypes.video] with a given player size. *)
Definition instream_video (playerSize : value) : value :=
  VObj [("context", VStr "instream"); ("playerSize", playerSize);
        ("mimes", arr [VStr "video/mp4"])].

(** [params.context] and [mediaTypes.video.context] both ["instream"]. *)
Definition instream_request (playerSize : value) : value :=
  VObj [("bidId", VStr "b1");
        ("params", VObj [("publisherId", VStr "pub"); ("context", VStr "instream")]);
        ("mediaTypes", VObj [("video", instream_video playerSize)])].

(** [mediaTypes.video.context] is ["instream"]; [params] has no [context]. *)
Definition plain_request (playerSize : value) : value :=
  VObj [("bidId", VStr "b1");
        ("params", VObj [("publisherId", VStr "pub")]);
        ("mediaTypes", VObj [("video", instream_video playerSize)])].

(** The test-mode flag on a request that has a [mediaTypes.video]. *)
Definition test_request (playerSize : value) : value :=
  VObj [("bidId", VStr "b1");
        ("params", VObj [("publisherId", VStr "pub");
                         ("video", VObj [("e2etest", VBool true)])]);
        ("mediaTypes", VObj [("video", instream_video playerSize)])].

(** The test-mode flag on a request with no [mediaTypes.video]. *)
Definition test_request_without_video : value :=
  VObj [("bidId", VStr "b1");
        ("params", VObj [("publisherId", VStr "pub");
                         ("video", VObj [("e2etest", VBool true)])]);
        ("mediaTypes", VObj [])].

(** A bid request with consent data. *)
Definition consent_request (gdprConsent uspConsent : value) : value :=
  VObj [("bidId", VStr "b1");
        ("params", VObj [("publisherId", VStr "pub")]);
        ("mediaTypes",
         VObj [("video", instream_video (arr [arr [num 640; num 480]]))]);
        ("gdprConsent", gdprConsent);
        ("uspConsent", uspConsent)].

(** An outstream request with a publisher id. *)
Definition outstream_request : value :=
  VObj [("bidId", VStr "b1");
        ("params", VObj [("publisherId", VStr "pub")]);
        ("mediaTypes",
         VObj [("video", VObj [("context", VStr "outstream");
                               ("playerSize", arr [arr [num 640; num 480]])])])].

(** An outstream request with no [params]. *)
Definition outstream_request_without_params : value :=
  VObj [("bidId", VStr "b1");
        ("mediaTypes",
         VObj [("video", VObj [("context", VStr "outstream");
                               ("playerSize", arr [arr [num 640; num 480]])])])].

(** The bid request of a banner-only ad unit. *)
Definition request_without_video : value :=
  VObj [("bidId", VStr "b1");
        ("params", VObj [("publisherId", VStr "pub")]);
        ("mediaTypes", VObj [("banner", VObj [("sizes", arr [arr [num 300; num 250]])])])].

(** A bid request with no [mediaTypes] at all. *)
Definition request_without_mediaTypes : value :=
  VObj [("bidId", VStr "b1"); ("params", VObj [("publisherId", VStr "pub")])].

(** A bid of the endpoint. *)
Definition vast_bid : value :=
  VObj [("id", VStr "bid-7"); ("price", num 3); ("w", num 640); ("h", num 480);
        ("adm", VStr "<VAST/>"); ("crid", VStr "c1");
        ("adomain", arr [VStr "x.com"])].

(** A response whose body has a given [seatbid]. *)
Definition response_with (seatbid : value) : value :=
  VObj [("body", VObj [("id", VStr "auction-1"); ("seatbid", seatbid)])].

(** An ad unit that sets OpenRTB video parameters of its own, and a
    property the adapter does not forward ([context]), for a given
    [params.context]. *)
Definition tuned_request (context : value) : value :=
  VObj [("bidId", VStr "b1");
        ("params", VObj [("publisherId", VStr "pub"); ("context", context)]);
        ("mediaTypes",
         VObj [("video", VObj [("context", VStr "instream");
                               ("playerSize", arr [arr [num 640; num 480]]);
                               ("mimes", arr [VStr "video/mp4"]);
                               ("placement", num 3); ("startdelay", num 5);
                               ("skip", num 1)])])].

(** ** Batches of bid requests *)

(** The descriptor [buildRequests] returns for one bid request of its
    argument. *)
Definition descriptor_of (env : page) (br : bid_request) : descriptor :=
  mkDescriptor "POST"
    (ENDPOINT_URL ++ "/" ++ to_string (publisher_of (request br)))
    (JSON_stringify (wire_request env (floor br) (after_build (request br)))).

Definition builds (br : bid_request) : bool := buildable (floor br) (request br).

(** What the function [buildRequests] maps gives on a bid request taken
    alone: its descriptor, or nothing when it throws. *)
Definition built_alone (env : page) (br : bid_request) : option descriptor :=
  match fst (buildRequest env (floor br) (mkState (request br) [])) with
  | Ok d => Some d
  | Throw => None
  end.

(** The list of what every member holds, when every member holds something. *)
Fixpoint all_some {A : Type} (l : list (option A)) : option (list A) :=
  match l with
  | [] => Some []
  | Some a :: rest =>
      match all_some rest with Some l' => Some (a :: l') | None => None end
  | None :: _ => None
  end.

Definition test_mode (br : bid_request) : bool := truthy (e2etest (request br)).

(** What [utils.logMessage('E2E test mode enabled')] writes. *)
Definition TEST_MODE_LINE : level * string := (Message, "E2E test mode enabled").

(** ** The members of a record *)

(** The keys of an object, in creation order. *)
Definition keys (v : value) : list string :=
  match v with VObj ps => map fst ps | _ => [] end.

(** The path of a member of [imp[0].video] in the wire body. *)
Definition VIDEO_FIELD (k : string) : list step :=
  [Key "imp"; Idx 0; Key "video"; Key k].

(** ** Reading the embedding: basic facts *)

Lemma truthy_not_nullish (v : value) : truthy v = true -> nullish v = false.
Proof. destruct v; simpl; congruence. Qed.

Lemma prop_nullish (v : value) (k : string) : nullish v = true -> v @ k = VUndefined.
Proof. destruct v; simpl; congruence. Qed.

Lemma prop_not_nullish (v : value) (k : string) :
  nullish (v @ k) = false -> nullish v = false.
Proof.
  destruct (nullish v) eqn:E; [|reflexivity].
  rewrite (prop_nullish v k E). simpl. congruence.
Qed.

(** A falsy value has no data property: [a && a.b] is falsy exactly when
    [a.b], read without the guard, is. *)
Lemma prop_falsy (v : value) (k : string) :
  nullish v = false -> truthy v = false -> v @ k = VUndefined \/ k = "length".
Proof.
  destruct v as [| |b|[|z|neg]|s|l ex|ps]; simpl; try congruence; auto.
  intros _ H. destruct s as [|c s]; [|simpl in H; congruence].
  unfold prop. destruct (k =? "length")%string eqn:E.
  - right. now apply String.eqb_eq.
  - left. destruct (index_of_key k) as [[|i]|]; reflexivity.
Qed.

Lemma getp_ok (v : value) (k : string) (st : state) :
  nullish v = false -> getp v k st = (Ok (v @ k), st).
Proof. unfold getp. now intros ->. Qed.

Lemma getp_throw (v : value) (k : string) (st : state) :
  nullish v = true -> getp v k st = (Throw, st).
Proof. unfold getp. now intros ->. Qed.

(** Symbolic execution: a property read whose subject is known to be, or
    not to be, [undefined] or [null] is replaced by its outcome. *)
Ltac run :=
  cbv beta iota;
  repeat (match goal with
          | H : nullish ?v = false |- context [getp ?v ?k ?s] =>
              rewrite (getp_ok v k s H)
          | H : nullish ?v = true |- context [getp ?v ?k ?s] =>
              rewrite (getp_throw v k s H)
          end; cbv beta iota).

Lemma video_e2etest_eq (st : state) :
  video_e2etest st =
    if nullish (bidReq st @ "params") then (Throw, st)
    else if truthy (bidReq st @ "params" @ "video")
         then (Ok (e2etest (bidReq st)), st)
         else (Ok (bidReq st @ "params" @ "video"), st).
Proof.
  unfold video_e2etest, bid_prop, bind, get_bid, e2etest.
  destruct (nullish (bidReq st)) eqn:Hr.
  - rewrite (prop_nullish _ "params" Hr). rewrite getp_throw by exact Hr. reflexivity.
  - rewrite (getp_ok _ _ _ Hr).
    destruct (nullish (bidReq st @ "params")) eqn:Hp.
    + rewrite getp_throw by exact Hp. reflexivity.
    + rewrite (getp_ok _ _ _ Hp).
      destruct (truthy (bidReq st @ "params" @ "video")) eqn:Hv; [|reflexivity].
      rewrite (getp_ok _ _ _ Hr), (getp_ok _ _ _ Hp).
      rewrite getp_ok by (now apply truthy_not_nullish). reflexivity.
Qed.

(** Whenever a guard returns, its value is truthy exactly when
    [params.video.e2etest] is. *)
Lemma video_e2etest_truthy (st : state) (g : value) (st' : state) :
  video_e2etest st = (Ok g, st') ->
  st' = st /\ truthy g = truthy (e2etest (bidReq st)).
Proof.
  rewrite video_e2etest_eq.
  destruct (nullish (bidReq st @ "params")); [congruence|].
  destruct (truthy (bidReq st @ "params" @ "video")) eqn:Hv; intros [= <- <-]; split; auto.
  rewrite Hv. unfold e2etest.
  destruct (nullish (bidReq st @ "params" @ "video")) eqn:Hn.
  - now rewrite (prop_nullish _ _ Hn).
  - destruct (prop_falsy _ "e2etest" Hn Hv) as [-> | H]; [reflexivity | discriminate H].
Qed.

Lemma params_video_e2etest_eq (st : state) :
  params_video_e2etest st =
    if nullish (bidReq st) then (Throw, st)
    else if truthy (bidReq st @ "params") then video_e2etest st
         else (Ok (bidReq st @ "params"), st).
Proof.
  unfold params_video_e2etest, bid_prop, bind, get_bid.
  destruct (nullish (bidReq st)) eqn:Hr.
  - now rewrite getp_throw.
  - rewrite (getp_ok _ _ _ Hr). now destruct (truthy (bidReq st @ "params")).
Qed.

Lemma params_video_e2etest_ok (st : state) :
  nullish (bidReq st) = false ->
  exists g, params_video_e2etest st = (Ok g, st)
            /\ truthy g = truthy (e2etest (bidReq st)).
Proof.
  intros Hr. rewrite params_video_e2etest_eq, Hr.
  destruct (truthy (bidReq st @ "params")) eqn:Hp.
  - rewrite video_e2etest_eq, (truthy_not_nullish _ Hp).
    destruct (video_e2etest st) as [[g|] st'] eqn:E.
    + destruct (video_e2etest_truthy _ _ _ E) as [-> Hg].
      rewrite video_e2etest_eq, (truthy_not_nullish _ Hp) in E.
      rewrite E. now exists g.
    + rewrite video_e2etest_eq, (truthy_not_nullish _ Hp) in E.
      destruct (truthy (bidReq st @ "params" @ "video")); discriminate E.
  - exists (bidReq st @ "params"). split; [reflexivity|].
    rewrite Hp. unfold e2etest.
    destruct (nullish (bidReq st @ "params")) eqn:Hn.
    + now rewrite (prop_nullish _ "video" Hn).
    + destruct (prop_falsy _ "video" Hn Hp) as [-> | H]; [reflexivity | discriminate H].
Qed.

(** The validator as a decision table over the fields it reads. *)
Lemma validateVideo_eq (st : state) :
  validateVideo st =
    let r := bidReq st in
    let mv := r @ "mediaTypes" @ "video" in
    if nullish r then (Throw, st)
    else if truthy (e2etest r) then (Ok true, st)
    else if nullish (r @ "mediaTypes") then (Throw, st)
    else if is_undefined mv then (Ok false, st)
    else if nullish (r @ "params") then (Throw, st)
    else if negb (truthy (r @ "params" @ "publisherId")) then
      (Ok false, logged Error "failed validation: publisher id not declared" st)
    else if nullish mv then (Throw, st)
    else if negb (truthy (mv @ "context")) then
      (Ok false, logged Error "failed validation: context id not declared" st)
    else if negb (is_str (mv @ "context") "instream") then
      (Ok false, logged Error "failed validation: only context instream is supported " st)
    else if is_undefined (mv @ "playerSize") then
      (Ok false, logged Error "failed validation: player size not declared" st)
    else if negb (isArray (mv @ "playerSize")) then
      (Ok false, logged Error "failed validation: player size not declared" st)
    else (Ok true, st).
Proof.
  cbv zeta. unfold validateVideo. unfold bind at 1.
  destruct (nullish (bidReq st)) eqn:Hr.
  { now rewrite params_video_e2etest_eq, Hr. }
  destruct (params_video_e2etest_ok st Hr) as (g & -> & ->).
  destruct (truthy (e2etest (bidReq st))); [reflexivity|].
  unfold bid_prop, bind, get_bid. run.
  destruct (nullish (bidReq st @ "mediaTypes")) eqn:Hm; run; [reflexivity|].
  destruct (is_undefined (bidReq st @ "mediaTypes" @ "video")); [reflexivity|]. run.
  destruct (nullish (bidReq st @ "params")) eqn:Hp; run; [reflexivity|].
  destruct (truthy (bidReq st @ "params" @ "publisherId")); [|reflexivity].
  cbn [negb]. run.
  destruct (nullish (bidReq st @ "mediaTypes" @ "video")) eqn:Hv; run; [reflexivity|].
  destruct (truthy (bidReq st @ "mediaTypes" @ "video" @ "context")); [|reflexivity].
  cbn [negb]. run.
  destruct (is_str (bidReq st @ "mediaTypes" @ "video" @ "context") "instream");
    [|reflexivity].
  cbn [negb]. run.
  destruct (is_undefined (bidReq st @ "mediaTypes" @ "video" @ "playerSize"));
    [reflexivity|].
  run. now destruct (isArray (bidReq st @ "mediaTypes" @ "video" @ "playerSize")).
Qed.

(** ** The response interpreter as a decision table *)

Lemma one_seat_one_bid_eq (response : value) (st : state) :
  one_seat_one_bid response st =
    let seatbid := response @ "seatbid" in
    let bids := seatbid @ "0" @ "bid" in
    if negb (truthy response) then (Ok response, st)
    else if negb (truthy seatbid) then (Ok seatbid, st)
    else if negb (is_num (seatbid @ "length") 1) then (Ok (VBool false), st)
    else if nullish (seatbid @ "0") then (Throw, st)
    else if negb (truthy bids) then (Ok bids, st)
    else (Ok (VBool (is_num (bids @ "length") 1)), st).
Proof.
  cbv zeta. unfold one_seat_one_bid.
  destruct (truthy response) eqn:Hr; [|reflexivity].
  apply truthy_not_nullish in Hr. unfold bind. run.
  destruct (truthy (response @ "seatbid")) eqn:Hs; [|reflexivity].
  apply truthy_not_nullish in Hs. cbn [negb]. run.
  destruct (is_num (response @ "seatbid" @ "length") 1); [|reflexivity].
  cbn [negb]. run.
  destruct (nullish (response @ "seatbid" @ "0")) eqn:H0; run; [reflexivity|].
  destruct (truthy (response @ "seatbid" @ "0" @ "bid")) eqn:Hb; [|reflexivity].
  apply truthy_not_nullish in Hb. cbn [negb]. run. reflexivity.
Qed.

Lemma interpretResponse_eq (serverResponse bidRequest : value) (st : state) :
  interpretResponse serverResponse bidRequest st =
    let response := body_of serverResponse in
    let seatbid := response @ "seatbid" in
    let bids := seatbid @ "0" @ "bid" in
    let rejected :=
      (Ok [], logged Error "invalid server response received" st) in
    if truthy response && truthy seatbid && is_num (seatbid @ "length") 1 then
      if nullish (seatbid @ "0") then (Throw, st)
      else if truthy bids && is_num (bids @ "length") 1 then
        if nullish (bids @ "0") then (Throw, st)
        else (Ok [normalized_bid response (bids @ "0")], st)
      else rejected
    else rejected.
Proof.
  cbv zeta. unfold interpretResponse, body_of.
  set (sr := if truthy serverResponse then serverResponse else VObj []).
  assert (Hsr : nullish sr = false).
  { subst sr. destruct (truthy serverResponse) eqn:E; [|reflexivity].
    now apply truthy_not_nullish. }
  unfold bind at 1. run. unfold bind at 1. rewrite one_seat_one_bid_eq. cbv zeta.
  set (response := sr @ "body").
  destruct (truthy response) eqn:Hr; cbn [negb andb]; [|now rewrite Hr].
  destruct (truthy (response @ "seatbid")) eqn:Hs; cbn [negb andb]; [|now rewrite Hs].
  destruct (is_num (response @ "seatbid" @ "length") 1); cbn [negb andb];
    [|reflexivity].
  destruct (nullish (response @ "seatbid" @ "0")) eqn:H0; [reflexivity|].
  destruct (truthy (response @ "seatbid" @ "0" @ "bid")) eqn:Hb; cbn [negb andb];
    [|now rewrite Hb].
  destruct (is_num (response @ "seatbid" @ "0" @ "bid" @ "length") 1);
    cbn [truthy]; [|reflexivity].
  apply truthy_not_nullish in Hr, Hs, Hb. unfold bind. run.
  destruct (nullish (response @ "seatbid" @ "0" @ "bid" @ "0")) eqn:Hb0; run;
    [reflexivity|].
  unfold normalized_bid.
  now destruct (truthy (response @ "seatbid" @ "0" @ "bid" @ "0" @ "adm")); run.
Qed.

(** ** Reading and writing properties *)

Lemma assoc_set_same (k : string) (x : value) (ps : list (string * value)) :
  assoc k (assoc_set k x ps) = Some x.
Proof.
  induction ps as [|[k' v] ps IH]; simpl.
  - now rewrite String.eqb_refl.
  - destruct (k' =? k)%string eqn:E; simpl; now rewrite E.
Qed.

Lemma assoc_set_other (k k' : string) (x : value) (ps : list (string * value)) :
  (k =? k')%string = false -> assoc k' (assoc_set k x ps) = assoc k' ps.
Proof.
  intros Hk. induction ps as [|[k0 v] ps IH]; simpl.
  - now rewrite Hk.
  - destruct (k0 =? k)%string eqn:E; simpl.
    + apply String.eqb_eq in E. subst k0. now rewrite Hk.
    + now rewrite IH.
Qed.

Lemma assoc_set_twice (k : string) (x y : value) (ps : list (string * value)) :
  assoc_set k y (assoc_set k x ps) = assoc_set k y ps.
Proof.
  induction ps as [|[k' v] ps IH]; simpl.
  - now rewrite String.eqb_refl.
  - destruct (k' =? k)%string eqn:E; simpl; rewrite E; [reflexivity|now rewrite IH].
Qed.

Lemma prop_set_same (o : value) (k : string) (x : value) :
  is_object o = true -> plain k = true -> set_prop o k x @ k = x.
Proof.
  unfold plain. intros Ho Hk. apply andb_prop in Hk as [Hl Hi].
  apply negb_true_iff in Hl.
  destruct o; try discriminate Ho; simpl.
  - rewrite Hl. destruct (index_of_key k); [discriminate Hi|].
    now rewrite assoc_set_same.
  - now rewrite assoc_set_same.
Qed.

Lemma prop_set_other (o : value) (k k' : string) (x : value) :
  (k =? k')%string = false -> set_prop o k x @ k' = o @ k'.
Proof.
  intros Hk. destruct o; try reflexivity; simpl.
  - destruct (k' =? "length")%string; [reflexivity|].
    destruct (index_of_key k'); [reflexivity|]. now rewrite assoc_set_other.
  - now rewrite assoc_set_other.
Qed.

Lemma has_own_set_same (o : value) (k : string) (x : value) :
  is_object o = true -> plain k = true -> has_own (set_prop o k x) k = true.
Proof.
  unfold plain. intros Ho Hk. apply andb_prop in Hk as [Hl Hi].
  apply negb_true_iff in Hl.
  destruct o; try discriminate Ho; simpl.
  - rewrite Hl. destruct (index_of_key k); [discriminate Hi|].
    now rewrite assoc_set_same.
  - now rewrite assoc_set_same.
Qed.

Lemma has_own_set_other (o : value) (k k' : string) (x : value) :
  (k =? k')%string = false -> has_own (set_prop o k x) k' = has_own o k'.
Proof.
  intros Hk. destruct o; try reflexivity; simpl.
  - destruct (k' =? "length")%string; [reflexivity|].
    destruct (index_of_key k'); [reflexivity|]. now rewrite assoc_set_other.
  - now rewrite assoc_set_other.
Qed.

Lemma is_object_set_prop (o : value) (k : string) (x : value) :
  is_object (set_prop o k x) = is_object o.
Proof. now destruct o. Qed.

Lemma nullish_set_prop (o : value) (k : string) (x : value) :
  nullish (set_prop o k x) = nullish o.
Proof. now destruct o. Qed.

Lemma set_prop_twice (o : value) (k : string) (x y : value) :
  set_prop (set_prop o k x) k y = set_prop o k y.
Proof. destruct o; simpl; try reflexivity; now rewrite assoc_set_twice. Qed.

Lemma is_object_not_nullish (v : value) : is_object v = true -> nullish v = false.
Proof. now destruct v. Qed.

(** Only an object or an array has a property under a plain name. *)
Lemma plain_prop_is_object (v : value) (k : string) :
  plain k = true -> nullish (v @ k) = false -> is_object v = true.
Proof.
  unfold plain. intros Hk Hv. apply andb_prop in Hk as [Hl Hi].
  apply negb_true_iff in Hl.
  destruct v; try reflexivity; simpl in Hv; try discriminate Hv.
  rewrite Hl in Hv. destruct (index_of_key k); [discriminate Hi|discriminate Hv].
Qed.

Lemma state_eta (st : state) : mkState (bidReq st) (console st) = st.
Proof. now destruct st. Qed.

(** ** The test-mode override *)

Lemma assign_video_eq (field : string) (x : value) (st : state) :
  assign_video field x st =
    let r := bidReq st in
    if is_object (r @ "mediaTypes" @ "video") then
      (Ok tt, mkState (set_prop r "mediaTypes"
                         (set_prop (r @ "mediaTypes") "video"
                            (set_prop (r @ "mediaTypes" @ "video") field x)))
                (console st))
    else (Throw, st).
Proof.
  cbv zeta. unfold assign_video, mediaTypes_var, bind, get_bid, ret. cbv beta iota.
  destruct (nullish (bidReq st @ "mediaTypes")) eqn:Hm; run.
  - now rewrite (prop_nullish _ "video" Hm).
  - now destruct (is_object (bidReq st @ "mediaTypes" @ "video")).
Qed.

Lemma test_mode_override_eq (st : state) :
  test_mode_override st =
    let r := bidReq st in
    if nullish (r @ "params") then (Throw, st)
    else if truthy (e2etest r) then
      if is_object (r @ "mediaTypes" @ "video")
      then (Ok tt, mkState (override r) (console st))
      else (Throw, st)
    else (Ok tt, st).
Proof.
  cbv zeta. unfold test_mode_override. unfold bind at 1.
  destruct (video_e2etest st) as [[g|] st'] eqn:E.
  - destruct (video_e2etest_truthy _ _ _ E) as [-> ->].
    rewrite video_e2etest_eq in E.
    destruct (nullish (bidReq st @ "params")); [discriminate E|].
    destruct (truthy (e2etest (bidReq st))); [|reflexivity].
    unfold bind. rewrite assign_video_eq. cbv zeta.
    destruct (is_object (bidReq st @ "mediaTypes" @ "video")) eqn:Hv; [|reflexivity].
    rewrite assign_video_eq. cbv zeta. cbn [bidReq console].
    assert (Hm : is_object (bidReq st @ "mediaTypes") = true).
    { apply (plain_prop_is_object _ "video"); [reflexivity|].
      now apply is_object_not_nullish. }
    assert (Hr : is_object (bidReq st) = true).
    { apply (plain_prop_is_object _ "mediaTypes"); [reflexivity|].
      now apply is_object_not_nullish. }
    rewrite (prop_set_same _ "mediaTypes") by (assumption || reflexivity).
    rewrite (prop_set_same _ "video") by (assumption || reflexivity).
    rewrite is_object_set_prop, Hv.
    unfold override. now rewrite !set_prop_twice.
  - rewrite video_e2etest_eq in E.
    destruct (nullish (bidReq st @ "params")).
    + now injection E as <-.
    + destruct (truthy (bidReq st @ "params" @ "video")); discriminate E.
Qed.

(** ** The request builder in closed form *)

Lemma playerSize_0_eq (i : string) (st : state) :
  playerSize_0 i st =
    let first := bidReq st @ "mediaTypes" @ "video" @ "playerSize" @ "0" in
    if nullish first then (Throw, st) else (Ok (first @ i), st).
Proof.
  cbv zeta. unfold playerSize_0, mediaTypes_var, bind, get_bid, ret. cbv beta iota.
  destruct (nullish (bidReq st @ "mediaTypes")) eqn:H1; run.
  { now rewrite !(prop_nullish _ _ H1). }
  destruct (nullish (bidReq st @ "mediaTypes" @ "video")) eqn:H2; run.
  { now rewrite !(prop_nullish _ _ H2). }
  destruct (nullish (bidReq st @ "mediaTypes" @ "video" @ "playerSize")) eqn:H3; run.
  { now rewrite !(prop_nullish _ _ H3). }
  now destruct (nullish (bidReq st @ "mediaTypes" @ "video" @ "playerSize" @ "0"))
    eqn:H4; run.
Qed.

Lemma copy_param_eq (param : string) (video : value) (st : state) :
  nullish (bidReq st @ "mediaTypes" @ "video") = false ->
  copy_param param video st =
    let mv := bidReq st @ "mediaTypes" @ "video" in
    if has_own mv "hasOwnProperty" then (Throw, st)
    else (Ok (if has_own mv param then set_prop video param (mv @ param) else video), st).
Proof.
  intros Hv. pose proof (prop_not_nullish _ _ Hv) as Hm.
  cbv zeta. unfold copy_param, hasOwnProperty, mediaTypes_var, bind, get_bid, ret.
  cbv beta iota. run. rewrite Hv.
  destruct (has_own (bidReq st @ "mediaTypes" @ "video") "hasOwnProperty");
    [reflexivity|].
  cbv beta iota.
  now destruct (has_own (bidReq st @ "mediaTypes" @ "video") param); run.
Qed.

Lemma forEach_copy_param (l : list string) (video : value) (st : state) :
  nullish (bidReq st @ "mediaTypes" @ "video") = false ->
  has_own (bidReq st @ "mediaTypes" @ "video") "hasOwnProperty" = false ->
  forEach l copy_param video st
  = (Ok (copy_all (bidReq st @ "mediaTypes" @ "video") l video), st).
Proof.
  intros Hv Hs. revert video.
  induction l as [|k l IH]; intros video; [reflexivity|].
  cbn [forEach]. unfold bind. rewrite (copy_param_eq _ _ _ Hv). cbv zeta.
  rewrite Hs. cbv beta iota. now rewrite IH.
Qed.

Lemma parseInt10_eq (v : value) (st : state) :
  parseInt10 v st = if printable v then (Ok (parseInt v), st) else (Throw, st).
Proof. unfold parseInt10, ToString, bind, parseInt. now destruct (printable v). Qed.

Lemma build_video_eq (st : state) :
  build_video st =
    let r := bidReq st in
    let mv := r @ "mediaTypes" @ "video" in
    if nullish (mv @ "playerSize" @ "0") then (Throw, st)
    else if negb (sizes_printable r) then (Throw, st)
    else if has_own mv "hasOwnProperty" then (Throw, st)
    else if nullish (r @ "params") then (Throw, st)
    else (Ok (video_object r), st).
Proof.
  cbv zeta. unfold build_video. unfold bind at 1. rewrite playerSize_0_eq. cbv zeta.
  destruct (nullish (bidReq st @ "mediaTypes" @ "video" @ "playerSize" @ "0"))
    eqn:H0; [reflexivity|].
  unfold sizes_printable. cbv zeta.
  unfold bind at 1. rewrite parseInt10_eq.
  destruct (printable (bidReq st @ "mediaTypes" @ "video" @ "playerSize" @ "0" @ "0"));
    cbn [andb negb]; [|reflexivity].
  unfold bind at 1. rewrite playerSize_0_eq. cbv zeta. rewrite H0.
  unfold bind at 1. rewrite parseInt10_eq.
  destruct (printable (bidReq st @ "mediaTypes" @ "video" @ "playerSize" @ "0" @ "1"));
    cbn [andb negb]; [|reflexivity].
  pose proof (prop_not_nullish _ _ (prop_not_nullish _ _ H0)) as Hv.
  unfold bind at 1.
  destruct (has_own (bidReq st @ "mediaTypes" @ "video") "hasOwnProperty") eqn:Hs.
  - cbn [VIDEO_ORTB_PARAMS forEach]. unfold bind at 1.
    rewrite (copy_param_eq _ _ _ Hv). cbv zeta. now rewrite Hs.
  - rewrite (forEach_copy_param _ _ _ Hv Hs).
    unfold params_var, bind, get_bid, ret. cbv beta iota.
    destruct (nullish (bidReq st @ "params")) eqn:Hp; run; [reflexivity|].
    unfold video_object, video_copied, video_size, default_placement,
      instream_placement. cbv zeta.
    reflexivity.
Qed.

Lemma get_floor_data_eq (getFloor : option floor_fn) (st : state) :
  get_floor_data getFloor st =
    if nullish (bidReq st @ "params") then (Throw, st)
    else (Ok (floor_data getFloor (bidReq st)), st).
Proof.
  unfold get_floor_data, bid_prop, bind, get_bid, ret. cbv beta iota.
  destruct (nullish (bidReq st)) eqn:Hr; run.
  { now rewrite (prop_nullish _ _ Hr). }
  destruct (nullish (bidReq st @ "params")) eqn:Hp; run; [reflexivity|].
  now destruct getFloor.
Qed.

Lemma build_openrtbRequest_eq (env : page) (video floorData : value) (st : state) :
  nullish (bidReq st) = false ->
  build_openrtbRequest env video floorData st =
    if nullish floorData then (Throw, st)
    else (Ok (openrtb_literal env (bidReq st) video floorData), st).
Proof.
  intros Hr. unfold build_openrtbRequest, bid_prop, bind, get_bid, ret. run.
  destruct (nullish floorData) eqn:Hf; run; [reflexivity|].
  unfold openrtb_literal, referer_of.
  destruct (truthy (bidReq st @ "refererInfo")) eqn:Hi; [|reflexivity].
  apply truthy_not_nullish in Hi. now run.
Qed.

Lemma add_schain_eq (o : value) (st : state) :
  nullish (bidReq st) = false ->
  add_schain o st = (Ok (with_schain (bidReq st) o), st).
Proof.
  intros Hr. unfold add_schain, with_schain, bid_prop, bind, get_bid, ret. run.
  now destruct (truthy (bidReq st @ "schain")); run.
Qed.

Lemma add_gdpr_eq (o : value) (st : state) :
  nullish (bidReq st) = false ->
  add_gdpr o st = (Ok (with_gdpr (bidReq st) o), st).
Proof.
  intros Hr. unfold add_gdpr, with_gdpr, bid_prop, bind, get_bid, ret. run.
  destruct (truthy (bidReq st @ "gdprConsent")) eqn:Hg; [|reflexivity].
  apply truthy_not_nullish in Hg. now run.
Qed.

Lemma add_usp_eq (o : value) (st : state) :
  nullish (bidReq st) = false ->
  add_usp o st = (Ok (with_usp (bidReq st) o), st).
Proof.
  intros Hr. unfold add_usp, with_usp, bid_prop, bind, get_bid, ret. run.
  now destruct (truthy (bidReq st @ "uspConsent")); run.
Qed.

Lemma build_tail_eq (env : page) (getFloor : option floor_fn) (st : state) :
  nullish (bidReq st @ "params") = false ->
  (video <- build_video ;;
   floorData <- get_floor_data getFloor ;;
   openrtbRequest <- build_openrtbRequest env video floorData ;;
   openrtbRequest <- add_schain openrtbRequest ;;
   openrtbRequest <- add_gdpr openrtbRequest ;;
   add_usp openrtbRequest) st
  = let r := bidReq st in
    if negb (nullish (r @ "mediaTypes" @ "video" @ "playerSize" @ "0"))
       && sizes_printable r
       && negb (has_own (r @ "mediaTypes" @ "video") "hasOwnProperty")
       && negb (nullish (floor_data getFloor r))
    then (Ok (wire_request env getFloor r), st) else (Throw, st).
Proof.
  intros Hp. pose proof (prop_not_nullish _ _ Hp) as Hr. cbv zeta.
  unfold bind at 1. rewrite build_video_eq. cbv zeta. rewrite Hp.
  destruct (nullish (bidReq st @ "mediaTypes" @ "video" @ "playerSize" @ "0"));
    [reflexivity|].
  destruct (sizes_printable (bidReq st)); [|reflexivity].
  destruct (has_own (bidReq st @ "mediaTypes" @ "video") "hasOwnProperty");
    [reflexivity|].
  cbn [negb andb]. cbv beta iota.
  unfold bind at 1. rewrite get_floor_data_eq, Hp.
  unfold bind at 1. rewrite (build_openrtbRequest_eq _ _ _ _ Hr).
  destruct (nullish (floor_data getFloor (bidReq st))); [reflexivity|].
  cbn [negb]. unfold bind. rewrite (add_schain_eq _ _ Hr), (add_gdpr_eq _ _ Hr).
  now rewrite (add_usp_eq _ _ Hr).
Qed.

Lemma e2etest_nullish (r : value) : nullish (r @ "params") = true -> e2etest r = VUndefined.
Proof.
  intros H. unfold e2etest. now rewrite (prop_nullish _ "video" H).
Qed.

Lemma override_params (r : value) (k : string) :
  ("mediaTypes" =? k)%string = false -> override r @ k = r @ k.
Proof. intros H. unfold override. cbv zeta. now rewrite prop_set_other. Qed.

(** [buildRequestData]: the outcome and the bid request it leaves. *)
Lemma buildRequestData_eq (env : page) (getFloor : option floor_fn) (st : state) :
  buildRequestData env getFloor st =
    let r := bidReq st in
    (if body_buildable getFloor r
     then Ok (wire_request env getFloor (after_build r)) else Throw,
     mkState (after_build r) (console st)).
Proof.
  cbv zeta. unfold buildRequestData, body_buildable, after_build.
  unfold bind at 1. unfold get_bid. cbv beta iota. unfold bind at 1.
  destruct (nullish (bidReq st)) eqn:Hr.
  { unfold throw. rewrite (prop_nullish _ "params" Hr).
    rewrite e2etest_nullish by (now rewrite (prop_nullish _ "params" Hr)).
    cbn [truthy nullish negb andb]. now rewrite state_eta. }
  unfold ret at 1. cbv beta iota. unfold bind at 1.
  rewrite test_mode_override_eq. cbv zeta.
  destruct (nullish (bidReq st @ "params")) eqn:Hp.
  { rewrite (e2etest_nullish _ Hp). cbn [truthy negb andb]. now rewrite state_eta. }
  cbn [negb andb].
  destruct (truthy (e2etest (bidReq st))) eqn:He; cbn [negb orb andb].
  - destruct (is_object (bidReq st @ "mediaTypes" @ "video")) eqn:Hv.
    + rewrite build_tail_eq
        by (cbn [bidReq]; now rewrite override_params).
      cbv zeta. cbn [bidReq console andb].
      now destruct (negb _ && sizes_printable _ && negb _ && negb _).
    + cbn [andb]. now rewrite state_eta.
  - rewrite (build_tail_eq _ _ _ Hp). cbv zeta.
    destruct (negb _ && sizes_printable _ && negb _ && negb _); now rewrite state_eta.
Qed.

(** The URL and the body, outside test mode. *)
Lemma build_url_and_body (env : page) (getFloor : option floor_fn) (r : value)
    (con : list (level * string)) :
  truthy (e2etest r) = false ->
  (publisherId <- ToString (r @ "params" @ "publisherId") ;;
   body <- buildRequestData env getFloor ;;
   ret (mkDescriptor "POST" (ENDPOINT_URL ++ "/" ++ publisherId)
          (JSON_stringify body))) (mkState r con)
  = (if printable (r @ "params" @ "publisherId") && body_buildable getFloor r
     then Ok (mkDescriptor "POST"
                (ENDPOINT_URL ++ "/" ++ to_string (r @ "params" @ "publisherId"))
                (JSON_stringify (wire_request env getFloor (after_build r))))
     else Throw,
     mkState (after_build r) con).
Proof.
  intros He. unfold bind at 1. unfold ToString.
  assert (Ha : after_build r = r) by (unfold after_build; now rewrite He).
  destruct (printable (r @ "params" @ "publisherId")); cbn [andb].
  - unfold ret at 1. cbv beta iota. unfold bind.
    rewrite buildRequestData_eq. cbv zeta. cbn [bidReq console].
    now destruct (body_buildable getFloor r).
  - unfold throw. now rewrite Ha.
Qed.

(** The function [buildRequests] maps over its argument: the outcome, the bid
    request it leaves, and the console. *)
Lemma buildRequest_eq (env : page) (getFloor : option floor_fn) (st : state) :
  buildRequest env getFloor st =
    let r := bidReq st in
    (if buildable getFloor r
     then Ok (mkDescriptor "POST" (ENDPOINT_URL ++ "/" ++ to_string (publisher_of r))
                (JSON_stringify (wire_request env getFloor (after_build r))))
     else Throw,
     mkState (after_build r)
       (if negb (nullish (r @ "params")) && truthy (e2etest r)
        then (Message, "E2E test mode enabled") :: console st else console st)).
Proof.
  cbv zeta. unfold buildRequest.
  unfold bind at 1. unfold get_bid. cbv beta iota. unfold bind at 1.
  destruct (nullish (bidReq st)) eqn:Hr.
  { unfold throw, buildable, body_buildable, after_build.
    rewrite (prop_nullish _ "params" Hr).
    rewrite e2etest_nullish by (now rewrite (prop_nullish _ "params" Hr)).
    cbn [truthy nullish negb andb]. rewrite andb_false_r. now rewrite state_eta. }
  unfold ret at 1. cbv beta iota.
  unfold params_var. unfold bind at 1. unfold bind at 1. unfold get_bid, ret at 1.
  cbv beta iota. unfold bind at 1.
  destruct (nullish (bidReq st @ "params")) eqn:Hp; run.
  { unfold buildable, body_buildable, after_build. rewrite Hp, (e2etest_nullish _ Hp).
    cbn [truthy negb andb]. rewrite andb_false_r. now rewrite state_eta. }
  unfold bind at 1. rewrite video_e2etest_eq, Hp. cbn [negb andb].
  assert (Hg : truthy (if truthy (bidReq st @ "params" @ "video")
                       then e2etest (bidReq st)
                       else bidReq st @ "params" @ "video")
               = truthy (e2etest (bidReq st))).
  { destruct (truthy (bidReq st @ "params" @ "video")) eqn:Hv; [reflexivity|].
    rewrite Hv. unfold e2etest.
    destruct (nullish (bidReq st @ "params" @ "video")) eqn:Hn.
    - now rewrite (prop_nullish _ _ Hn).
    - destruct (prop_falsy _ "e2etest" Hn Hv) as [-> | H];
        [reflexivity | discriminate H]. }
  unfold buildable, publisher_of.
  destruct (truthy (bidReq st @ "params" @ "video")) eqn:Hv; cbv beta iota;
    cbv beta iota in Hg; unfold bind at 1.
  - destruct (truthy (e2etest (bidReq st))) eqn:He.
    + unfold bind at 1. unfold log, ret at 1. cbv beta iota.
      unfold bind at 1. unfold ToString. cbn [printable andb].
      unfold ret at 1. cbv beta iota. cbn [to_string].
      unfold bind. rewrite buildRequestData_eq. cbv zeta. cbn [bidReq console].
      now destruct (body_buildable getFloor (bidReq st)).
    + unfold ret at 1. cbv beta iota.
      pose proof (build_url_and_body env getFloor (bidReq st) (console st) He) as H.
      rewrite state_eta in H. exact H.
  - rewrite Hv in Hg |- *. rewrite <- Hg.
    unfold ret at 1. cbv beta iota.
    pose proof (build_url_and_body env getFloor (bidReq st) (console st) (eq_sym Hg))
      as H.
    rewrite state_eta in H. exact H.
Qed.

(** ** The validator *)

Lemma validateVideo_keeps_bid (st : state) :
  bidReq (snd (validateVideo st)) = bidReq st.
Proof.
  rewrite validateVideo_eq. cbv zeta.
  repeat match goal with
         | |- context [if ?c then _ else _] => destruct c
         end; reflexivity.
Qed.

(** The requests the validator accepts. *)
Lemma validateVideo_true (st : state) :
  fst (validateVideo st) = Ok true ->
  let r := bidReq st in
  truthy (e2etest r) = true
  \/ (nullish (r @ "params") = false
      /\ truthy (r @ "params" @ "publisherId") = true
      /\ is_str (r @ "mediaTypes" @ "video" @ "context") "instream" = true
      /\ isArray (r @ "mediaTypes" @ "video" @ "playerSize") = true).
Proof.
  rewrite validateVideo_eq. cbv zeta.
  destruct (nullish (bidReq st)); [discriminate|].
  destruct (truthy (e2etest (bidReq st))); [now left|].
  destruct (nullish (bidReq st @ "mediaTypes")); [discriminate|].
  destruct (is_undefined (bidReq st @ "mediaTypes" @ "video")); [discriminate|].
  destruct (nullish (bidReq st @ "params")); [discriminate|].
  destruct (truthy (bidReq st @ "params" @ "publisherId")); [|discriminate].
  cbn [negb].
  destruct (nullish (bidReq st @ "mediaTypes" @ "video")); [discriminate|].
  destruct (truthy (bidReq st @ "mediaTypes" @ "video" @ "context")); [|discriminate].
  cbn [negb].
  destruct (is_str (bidReq st @ "mediaTypes" @ "video" @ "context") "instream");
    [|discriminate].
  cbn [negb].
  destruct (is_undefined (bidReq st @ "mediaTypes" @ "video" @ "playerSize"));
    [discriminate|].
  destruct (isArray (bidReq st @ "mediaTypes" @ "video" @ "playerSize"));
    [|discriminate].
  intros _. right. repeat split; reflexivity.
Qed.

(** C5 (as amended).  A bid request without the test-mode flag, whose
    [params] is there, and whose [mediaTypes.video.context] is present (not
    [undefined]) but is not the string ["instream"] (["outstream"]
    included), is rejected: [isBidRequestValid] returns [false], and leaves
    the request as it was. *)
Theorem validateVideo_rejects_other_context (st : state) :
  let r := bidReq st in
  truthy (e2etest r) = false ->
  nullish (r @ "params") = false ->
  is_undefined (r @ "mediaTypes" @ "video" @ "context") = false ->
  is_str (r @ "mediaTypes" @ "video" @ "context") "instream" = false ->
  fst (isBidRequestValid st) = Ok false
  /\ bidReq (snd (isBidRequestValid st)) = bidReq st.
Proof.
  cbv zeta. intros He Hp Hc Hi. unfold isBidRequestValid.
  split; [|apply validateVideo_keeps_bid].
  assert (Hv : nullish (bidReq st @ "mediaTypes" @ "video") = false).
  { destruct (nullish (bidReq st @ "mediaTypes" @ "video")) eqn:E; [|reflexivity].
    now rewrite (prop_nullish _ "context" E) in Hc. }
  pose proof (prop_not_nullish _ _ Hv) as Hm.
  pose proof (prop_not_nullish _ _ Hm) as Hr.
  rewrite validateVideo_eq. cbv zeta. rewrite Hr, He, Hm, Hp, Hv, Hi.
  destruct (bidReq st @ "mediaTypes" @ "video"); try discriminate Hv;
    destruct (truthy (bidReq st @ "params" @ "publisherId"));
    try reflexivity; cbn [negb];
    match goal with
    | |- context [truthy ?c] => now destruct (truthy c)
    end.
Qed.

(** C5, witness. *)
Lemma validateVideo_rejects_other_context_witness :
  fst (isBidRequestValid (mkState outstream_request [])) = Ok false
  /\ bidReq (snd (isBidRequestValid (mkState outstream_request [])))
     = outstream_request.
Proof.
  apply (validateVideo_rejects_other_context (mkState outstream_request []));
    reflexivity.
Defined.

(** C5, counterexample.  A bid request with no [params], no test-mode flag
    and the context ["outstream"]: the validator reads
    [bidRequest.params.publisherId] before the context and throws. *)
Lemma validateVideo_throws_without_params :
  let r := outstream_request_without_params in
  truthy (e2etest r) = false
  /\ r @ "mediaTypes" @ "video" @ "context" = VStr "outstream"
  /\ fst (isBidRequestValid (mkState r [])) = Throw.
Proof. repeat split. Qed.

(** Without the test-mode flag, a bid request with no [mediaTypes] makes
    the validator throw: [bidRequest.mediaTypes.video] is read unguarded. *)
Lemma validateVideo_without_mediaTypes (st : state) :
  let r := bidReq st in
  nullish r = false ->
  truthy (e2etest r) = false ->
  nullish (r @ "mediaTypes") = true ->
  validateVideo st = (Throw, st).
Proof.
  cbv zeta. intros Hr He Hm. rewrite validateVideo_eq. cbv zeta.
  now rewrite Hr, He, Hm.
Qed.

(** C6 (as amended).  Without the test-mode flag, when [mediaTypes] is
    there and [mediaTypes.video] is absent, [isBidRequestValid] returns
    [false]; it does not throw, writes nothing to the console and leaves the
    request as it was. *)
Theorem validateVideo_without_video (st : state) :
  let r := bidReq st in
  truthy (e2etest r) = false ->
  nullish (r @ "mediaTypes") = false ->
  r @ "mediaTypes" @ "video" = VUndefined ->
  isBidRequestValid st = (Ok false, st).
Proof.
  cbv zeta. intros He Hm Hv. unfold isBidRequestValid.
  pose proof (prop_not_nullish _ _ Hm) as Hr.
  rewrite validateVideo_eq. cbv zeta. now rewrite Hr, He, Hm, Hv.
Qed.

(** C6, witness. *)
Lemma validateVideo_without_video_witness :
  isBidRequestValid (mkState request_without_video [])
  = (Ok false, mkState request_without_video []).
Proof.
  apply (validateVideo_without_video (mkState request_without_video []));
    reflexivity.
Defined.

(** C6, counterexample.  A bid request with no [mediaTypes] at all and no
    test-mode flag: the validator throws where the claim has it return
    [false]. *)
Lemma validateVideo_throws_without_mediaTypes :
  let r := request_without_mediaTypes in
  truthy (e2etest r) = false
  /\ r @ "mediaTypes" = VUndefined
  /\ fst (isBidRequestValid (mkState r [])) = Throw.
Proof. repeat split. Qed.

(** ** The wire body: paths through the JSON document *)

Lemma JSON_stringify_obj (ps : list (string * value)) :
  JSON_stringify (VObj ps) = Some (JObj (flat_map stringify_member ps)).
Proof. reflexivity. Qed.

Lemma JSON_stringify_arr (l : list value) (ex : list (string * value)) :
  JSON_stringify (VArr l ex) = Some (JArr (map stringify_element l)).
Proof. reflexivity. Qed.

Lemma truthy_stringify (v : value) :
  truthy v = true -> exists j, JSON_stringify v = Some j.
Proof.
  destruct v as [| |b|[|z|neg]|s|l ex|ps]; simpl; try discriminate; intros _; eauto.
Qed.

Lemma stringify_number (n : number) : exists j, JSON_stringify (VNum n) = Some j.
Proof. destruct n; simpl; eauto. Qed.

(** The first binding of a key is written when its value is. *)
Lemma jassoc_member (k : string) (x : value) (j : json) (ps : list (string * value)) :
  assoc k ps = Some x -> JSON_stringify x = Some j ->
  jassoc k (flat_map stringify_member ps) = Some j.
Proof.
  intros Ha Hj. induction ps as [|[k' v] ps IH]; [discriminate Ha|].
  simpl in Ha. cbn [flat_map stringify_member].
  destruct (k' =? k)%string eqn:E.
  - injection Ha as ->. rewrite Hj. simpl. now rewrite E.
  - destruct (JSON_stringify v); simpl; [rewrite E|]; auto.
Qed.

(** A key the object does not have is not written. *)
Lemma jassoc_no_member (k : string) (ps : list (string * value)) :
  assoc k ps = None -> jassoc k (flat_map stringify_member ps) = None.
Proof.
  induction ps as [|[k' v] ps IH]; [reflexivity|].
  simpl. destruct (k' =? k)%string eqn:E; [discriminate|]. intros Ha.
  destruct (JSON_stringify v); simpl; [rewrite E|]; auto.
Qed.

(** What a path reaches in a value, it reaches in the document written. *)
Lemma jpath_stringify (p : list step) (v x : value) (j : json) :
  vpath v p = Some x -> JSON_stringify x = Some j ->
  exists j0, JSON_stringify v = Some j0 /\ jpath j0 p = Some j.
Proof.
  revert v. induction p as [|[k|i] p IH]; intros v Hp Hj.
  - injection Hp as ->. now exists j.
  - destruct v as [| | | | | |ps]; try discriminate Hp. simpl in Hp.
    destruct (assoc k ps) as [y|] eqn:Ha; [|discriminate Hp].
    destruct (IH _ Hp Hj) as (j' & Hy & Hpath).
    rewrite JSON_stringify_obj. eexists. split; [reflexivity|].
    cbn [jpath]. now rewrite (jassoc_member _ _ _ _ Ha Hy).
  - destruct v as [| | | | |l ex|]; try discriminate Hp. simpl in Hp.
    destruct (nth_error l i) as [y|] eqn:Hn; [|discriminate Hp].
    destruct (IH _ Hp Hj) as (j' & Hy & Hpath).
    rewrite JSON_stringify_arr. eexists. split; [reflexivity|].
    cbn [jpath]. rewrite nth_error_map, Hn. cbn [option_map].
    unfold stringify_element. now rewrite Hy.
Qed.

(** A path that leaves the value at a key its object does not have leaves
    the document there too. *)
Lemma jpath_stringify_absent (p : list step) (k : string) (rest : list step)
    (v : value) (ps : list (string * value)) :
  vpath v p = Some (VObj ps) -> assoc k ps = None ->
  exists j0, JSON_stringify v = Some j0
             /\ jpath j0 (p ++ Key k :: rest)%list = None.
Proof.
  revert v. induction p as [|[k'|i] p IH]; intros v Hp Ha.
  - injection Hp as ->. rewrite JSON_stringify_obj. eexists. split; [reflexivity|].
    cbn [app jpath]. now rewrite (jassoc_no_member _ _ Ha).
  - destruct v as [| | | | | |qs]; try discriminate Hp. simpl in Hp.
    destruct (assoc k' qs) as [y|] eqn:Hq; [|discriminate Hp].
    destruct (IH _ Hp Ha) as (j' & Hy & Hpath).
    rewrite JSON_stringify_obj. eexists. split; [reflexivity|].
    cbn [app jpath]. now rewrite (jassoc_member _ _ _ _ Hq Hy).
  - destruct v as [| | | | |l ex|]; try discriminate Hp. simpl in Hp.
    destruct (nth_error l i) as [y|] eqn:Hn; [|discriminate Hp].
    destruct (IH _ Hp Ha) as (j' & Hy & Hpath).
    rewrite JSON_stringify_arr. eexists. split; [reflexivity|].
    cbn [app jpath]. rewrite nth_error_map, Hn. cbn [option_map].
    unfold stringify_element. now rewrite Hy.
Qed.

(** Reading a record by key. *)
Lemma vpath_key (v : value) (k : string) (rest : list step) :
  is_record v = true -> has_own v k = true ->
  vpath v (Key k :: rest) = vpath (v @ k) rest.
Proof.
  destruct v as [| | | | | |ps]; try discriminate. intros _. simpl.
  now destruct (assoc k ps).
Qed.

Lemma is_record_set_prop (o : value) (k : string) (x : value) :
  is_record (set_prop o k x) = is_record o.
Proof. now destruct o. Qed.

Lemma is_record_object (v : value) : is_record v = true -> is_object v = true.
Proof. now destruct v. Qed.

Lemma prop_set_same_record (o : value) (k : string) (x : value) :
  is_record o = true -> set_prop o k x @ k = x.
Proof.
  destruct o; try discriminate. intros _. simpl. now rewrite assoc_set_same.
Qed.

Lemma has_own_set_same_record (o : value) (k : string) (x : value) :
  is_record o = true -> has_own (set_prop o k x) k = true.
Proof.
  destruct o; try discriminate. intros _. simpl. now rewrite assoc_set_same.
Qed.

(** ** The video object *)

Lemma copy_all_record (mv : value) (l : list string) (v : value) :
  is_record (copy_all mv l v) = is_record v.
Proof.
  unfold copy_all. revert v. induction l as [|a l IH]; intros v; [reflexivity|].
  cbn [fold_left]. rewrite IH. destruct (has_own mv a); [|reflexivity].
  apply is_record_set_prop.
Qed.

(** A listed parameter the ad unit has is copied; every other property of
    the object under construction stays. *)
Lemma copy_all_prop (mv : value) (l : list string) (v : value) (k : string) :
  is_record v = true ->
  copy_all mv l v @ k
  = if existsb (String.eqb k) l && has_own mv k then mv @ k else v @ k.
Proof.
  unfold copy_all. revert v. induction l as [|a l IH]; intros v Hv; [reflexivity|].
  cbn [fold_left existsb].
  rewrite IH by (destruct (has_own mv a); [now rewrite is_record_set_prop|exact Hv]).
  destruct (k =? a)%string eqn:E.
  - apply String.eqb_eq in E. subst a. cbn [orb].
    destruct (has_own mv k) eqn:Hk.
    + rewrite andb_true_r. rewrite (prop_set_same_record _ _ _ Hv).
      now destruct (existsb (String.eqb k) l).
    + now rewrite !andb_false_r.
  - cbn [orb]. destruct (has_own mv a); [|reflexivity].
    rewrite prop_set_other; [reflexivity|].
    rewrite String.eqb_sym. exact E.
Qed.

Lemma copy_all_has_own (mv : value) (l : list string) (v : value) (k : string) :
  is_record v = true ->
  has_own (copy_all mv l v) k
  = (existsb (String.eqb k) l && has_own mv k) || has_own v k.
Proof.
  unfold copy_all. revert v. induction l as [|a l IH]; intros v Hv; [reflexivity|].
  cbn [fold_left existsb].
  rewrite IH by (destruct (has_own mv a); [now rewrite is_record_set_prop|exact Hv]).
  destruct (k =? a)%string eqn:E.
  - apply String.eqb_eq in E. subst a. cbn [orb].
    destruct (has_own mv k) eqn:Hk.
    + rewrite (has_own_set_same_record _ _ _ Hv). rewrite andb_true_r.
      now destruct (existsb (String.eqb k) l).
    + now rewrite !andb_false_r.
  - cbn [orb]. destruct (has_own mv a); [|reflexivity].
    rewrite has_own_set_other; [reflexivity|].
    rewrite String.eqb_sym. exact E.
Qed.

Lemma video_object_unfold (r : value) :
  video_object r =
    if is_str (r @ "params" @ "context") "instream"
    then instream_placement (default_placement (video_copied r))
    else default_placement (video_copied r).
Proof. reflexivity. Qed.

Lemma video_copied_record (r : value) : is_record (video_copied r) = true.
Proof. unfold video_copied. now rewrite copy_all_record. Qed.

Lemma video_object_record (r : value) : is_record (video_object r) = true.
Proof.
  rewrite video_object_unfold. unfold instream_placement, default_placement.
  destruct (is_str _ _); rewrite ?is_record_set_prop; apply video_copied_record.
Qed.

(** [w] and [h] are none of the copied parameters, and the placement rules
    do not write them. *)
Lemma video_object_size (r : value) (k : string) :
  (k =? "w")%string || (k =? "h")%string = true ->
  video_object r @ k = video_size r @ k /\ has_own (video_object r) k = true.
Proof.
  intros Hk.
  assert (Ho : existsb (String.eqb k) VIDEO_ORTB_PARAMS = false
               /\ ("placement" =? k)%string = false
               /\ ("startdelay" =? k)%string = false
               /\ has_own (video_size r) k = true).
  { apply orb_prop in Hk as [E|E]; apply String.eqb_eq in E; subst k;
      repeat split. }
  destruct Ho as (Hl & Hp & Hs & Hh).
  rewrite video_object_unfold. unfold instream_placement, default_placement.
  destruct (is_str _ _);
    rewrite ?prop_set_other, ?has_own_set_other by assumption;
    unfold video_copied;
    rewrite copy_all_prop, copy_all_has_own, Hl by reflexivity; auto.
Qed.

(** The placement rules. *)
Lemma video_object_placement (r : value) :
  has_own (video_object r) "placement" = true
  /\ (is_str (r @ "params" @ "context") "instream" = true ->
      video_object r @ "placement" = num 1)
  /\ (is_str (r @ "params" @ "context") "instream" = false ->
      has_own (r @ "mediaTypes" @ "video") "placement" = false ->
      video_object r @ "placement" = num 2).
Proof.
  rewrite video_object_unfold. unfold instream_placement, default_placement.
  pose proof (video_copied_record r) as Hrec.
  destruct (is_str _ _); repeat split; try discriminate.
  - apply has_own_set_same_record. now rewrite !is_record_set_prop.
  - intros _. apply prop_set_same_record. now rewrite !is_record_set_prop.
  - now apply has_own_set_same_record.
  - intros _ Hp. rewrite (prop_set_same_record _ _ _ Hrec).
    unfold video_copied. rewrite copy_all_prop by reflexivity. rewrite Hp.
    now rewrite andb_false_r.
Qed.

Lemma video_object_startdelay (r : value) :
  is_str (r @ "params" @ "context") "instream" = true ->
  has_own (video_object r) "startdelay" = true
  /\ (has_own (r @ "mediaTypes" @ "video") "startdelay" = false ->
      video_object r @ "startdelay" = num 0).
Proof.
  intros Hi. rewrite video_object_unfold, Hi. unfold instream_placement.
  set (V := default_placement (video_copied r)).
  assert (HV : is_record V = true).
  { unfold V, default_placement. rewrite is_record_set_prop.
    apply video_copied_record. }
  assert (HVs : V @ "startdelay" = video_copied r @ "startdelay").
  { unfold V, default_placement. now apply prop_set_other. }
  rewrite HVs.
  rewrite has_own_set_other by reflexivity.
  rewrite (prop_set_other _ "placement" "startdelay") by reflexivity. split.
  - now apply has_own_set_same_record.
  - intros Hs. rewrite (prop_set_same_record _ _ _ HV).
    unfold video_copied. rewrite copy_all_prop by reflexivity. rewrite Hs.
    now rewrite andb_false_r.
Qed.

(** ** The wire request *)

Lemma deepSetValue_set (o : value) (k : string) (p : list string) (x : value) :
  exists y, deepSetValue o (k :: p) x = set_prop o k y.
Proof. destruct p; simpl; eauto. Qed.

Lemma deepSetValue_other (o : value) (k : string) (p : list string) (x : value)
    (k' : string) :
  (k =? k')%string = false ->
  deepSetValue o (k :: p) x @ k' = o @ k'
  /\ has_own (deepSetValue o (k :: p) x) k' = has_own o k'.
Proof.
  intros Hk. destruct (deepSetValue_set o k p x) as [y ->].
  now rewrite prop_set_other, has_own_set_other.
Qed.

Lemma deepSetValue_record (o : value) (k : string) (p : list string) (x : value) :
  is_record (deepSetValue o (k :: p) x) = is_record o.
Proof.
  destruct (deepSetValue_set o k p x) as [y ->]. apply is_record_set_prop.
Qed.

Lemma wire_request_record (env : page) (getFloor : option floor_fn) (r : value) :
  is_record (wire_request env getFloor r) = true.
Proof.
  unfold wire_request, with_usp, with_gdpr, with_schain.
  destruct (truthy (r @ "uspConsent")), (truthy (r @ "gdprConsent")),
    (truthy (r @ "schain")); now rewrite ?deepSetValue_record.
Qed.

(** The extensions are written under [source], [user] and [regs]: what the
    literal holds under another key stays. *)
Lemma wire_request_other (env : page) (getFloor : option floor_fn) (r : value)
    (k : string) :
  ("source" =? k)%string = false -> ("user" =? k)%string = false ->
  ("regs" =? k)%string = false ->
  let literal := openrtb_literal env r (video_object r) (floor_data getFloor r) in
  wire_request env getFloor r @ k = literal @ k
  /\ has_own (wire_request env getFloor r) k = has_own literal k.
Proof.
  intros H1 H2 H3. cbv zeta. unfold wire_request, with_usp, with_gdpr, with_schain.
  destruct (truthy (r @ "uspConsent")), (truthy (r @ "gdprConsent")),
    (truthy (r @ "schain"));
    repeat match goal with
           | |- context [deepSetValue ?o (?a :: ?p) ?x @ k] =>
               rewrite (proj1 (deepSetValue_other o a p x k ltac:(assumption)))
           | |- context [has_own (deepSetValue ?o (?a :: ?p) ?x) k] =>
               rewrite (proj2 (deepSetValue_other o a p x k ltac:(assumption)))
           end; split; reflexivity.
Qed.

(** Paths into the video object of the one impression. *)
Lemma wire_request_video (env : page) (getFloor : option floor_fn) (r : value)
    (p : list step) :
  vpath (wire_request env getFloor r) (Key "imp" :: Idx 0 :: Key "video" :: p)
  = vpath (video_object r) p.
Proof.
  destruct (wire_request_other env getFloor r "imp") as [Hp Hh]; try reflexivity.
  rewrite vpath_key; [|apply wire_request_record|now rewrite Hh].
  rewrite Hp. reflexivity.
Qed.

Lemma body_video_field (env : page) (getFloor : option floor_fn) (r x : value)
    (k : string) (j : json) (m u : string) :
  has_own (video_object r) k = true -> video_object r @ k = x ->
  JSON_stringify x = Some j ->
  body_path (mkDescriptor m u (JSON_stringify (wire_request env getFloor r)))
    [Key "imp"; Idx 0; Key "video"; Key k] = Some j.
Proof.
  intros Hh Hx Hj.
  assert (Hv : vpath (wire_request env getFloor r)
                 [Key "imp"; Idx 0; Key "video"; Key k] = Some x).
  { rewrite wire_request_video.
    rewrite vpath_key by (apply video_object_record || exact Hh).
    now rewrite Hx. }
  destruct (jpath_stringify _ _ _ _ Hv Hj) as (j0 & H0 & Hpath).
  unfold body_path. cbn [data]. now rewrite H0.
Qed.

(** ** When the builder returns *)

Lemma after_build_no_test (r : value) :
  truthy (e2etest r) = false -> after_build r = r.
Proof. unfold after_build. now intros ->. Qed.

Lemma after_build_test (r : value) :
  truthy (e2etest r) = true -> is_object (r @ "mediaTypes" @ "video") = true ->
  after_build r = override r.
Proof. unfold after_build. now intros -> ->. Qed.

Lemma e2etest_params (r : value) :
  truthy (e2etest r) = true -> nullish (r @ "params") = false.
Proof.
  intros H. apply truthy_not_nullish in H. unfold e2etest in H.
  now apply prop_not_nullish, prop_not_nullish in H.
Qed.

(** [mediaTypes.video] after the test-mode writes. *)
Lemma override_video (r : value) :
  is_object (r @ "mediaTypes" @ "video") = true ->
  override r @ "mediaTypes" @ "video"
  = set_prop (set_prop (r @ "mediaTypes" @ "video") "playerSize" TEST_PLAYER_SIZE)
      "conext" (VStr "instream").
Proof.
  intros Hv. pose proof (is_object_not_nullish _ Hv) as Hn.
  assert (Hm : is_object (r @ "mediaTypes") = true)
    by (now apply (plain_prop_is_object _ "video")).
  assert (Hr : is_object r = true).
  { apply (plain_prop_is_object _ "mediaTypes"); [reflexivity|].
    now apply is_object_not_nullish. }
  unfold override. cbv zeta.
  rewrite (prop_set_same _ "mediaTypes") by (assumption || reflexivity).
  now rewrite (prop_set_same _ "video") by (assumption || reflexivity).
Qed.

Lemma override_playerSize (r : value) :
  is_object (r @ "mediaTypes" @ "video") = true ->
  override r @ "mediaTypes" @ "video" @ "playerSize" = TEST_PLAYER_SIZE.
Proof.
  intros Hv. rewrite (override_video _ Hv).
  rewrite prop_set_other by reflexivity.
  now rewrite prop_set_same by (assumption || reflexivity).
Qed.

Lemma override_video_other (r : value) (k : string) :
  is_object (r @ "mediaTypes" @ "video") = true ->
  ("playerSize" =? k)%string = false -> ("conext" =? k)%string = false ->
  override r @ "mediaTypes" @ "video" @ k = r @ "mediaTypes" @ "video" @ k
  /\ has_own (override r @ "mediaTypes" @ "video") k
     = has_own (r @ "mediaTypes" @ "video") k.
Proof.
  intros Hv H1 H2. rewrite (override_video _ Hv).
  now rewrite !prop_set_other, !has_own_set_other by assumption.
Qed.

Lemma sizes_printable_test_mode (r : value) :
  is_object (r @ "mediaTypes" @ "video") = true -> sizes_printable (override r) = true.
Proof.
  intros Hv. unfold sizes_printable. cbv zeta. now rewrite (override_playerSize _ Hv).
Qed.

(** In test mode the builder returns exactly when [mediaTypes.video] is an
    object with no [hasOwnProperty] of its own and the floor source is
    there. *)
Lemma buildable_test_mode (getFloor : option floor_fn) (r : value) :
  truthy (e2etest r) = true ->
  buildable getFloor r
  = is_object (r @ "mediaTypes" @ "video")
    && negb (has_own (r @ "mediaTypes" @ "video") "hasOwnProperty")
    && negb (nullish (floor_data getFloor (override r))).
Proof.
  intros He. unfold buildable, body_buildable, publisher_of.
  rewrite (e2etest_params _ He), He.
  cbn [printable negb orb andb].
  destruct (is_object (r @ "mediaTypes" @ "video")) eqn:Hv; [|reflexivity].
  rewrite (after_build_test _ He Hv), (override_playerSize _ Hv).
  rewrite (sizes_printable_test_mode _ Hv).
  rewrite (proj2 (override_video_other r "hasOwnProperty" Hv eq_refl eq_refl)).
  reflexivity.
Qed.

(** Outside test mode the builder returns exactly when the publisher id can
    be converted to a string, [params], the first player size and the floor
    source are there, the two sizes can be converted to strings, and
    [mediaTypes.video] has no [hasOwnProperty] of its own. *)
Lemma buildable_no_test (getFloor : option floor_fn) (r : value) :
  truthy (e2etest r) = false ->
  buildable getFloor r
  = printable (r @ "params" @ "publisherId")
    && (negb (nullish (r @ "params"))
        && negb (nullish (r @ "mediaTypes" @ "video" @ "playerSize" @ "0"))
        && sizes_printable r
        && negb (has_own (r @ "mediaTypes" @ "video") "hasOwnProperty")
        && negb (nullish (floor_data getFloor r))).
Proof.
  intros He. unfold buildable, body_buildable, publisher_of.
  rewrite (after_build_no_test _ He), He.
  cbn [negb orb]. now rewrite andb_true_r.
Qed.

Lemma buildRequest_returns (env : page) (getFloor : option floor_fn) (st : state) :
  buildable getFloor (bidReq st) = true ->
  fst (buildRequest env getFloor st)
  = Ok (mkDescriptor "POST"
          (ENDPOINT_URL ++ "/" ++ to_string (publisher_of (bidReq st)))
          (JSON_stringify (wire_request env getFloor (after_build (bidReq st))))).
Proof. intros H. rewrite buildRequest_eq. cbv zeta. now rewrite H. Qed.

Lemma buildRequest_bid (env : page) (getFloor : option floor_fn) (st : state) :
  bidReq (snd (buildRequest env getFloor st)) = after_build (bidReq st).
Proof. now rewrite buildRequest_eq. Qed.

Lemma interpretResponse_keeps_bid (serverResponse bidRequest : value) (st : state) :
  bidReq (snd (interpretResponse serverResponse bidRequest st)) = bidReq st.
Proof.
  rewrite interpretResponse_eq. cbv zeta.
  repeat match goal with
         | |- context [if ?c then _ else _] => destruct c
         end; reflexivity.
Qed.

(** ** parseInt on the decimal form of an integer *)

Lemma parse_digits_uint (d : Decimal.uint) (acc : option Z) :
  parse_digits acc (NilEmpty.string_of_uint d)
  = match d with
    | Decimal.Nil => acc
    | _ => Some (uint_value d (acc_value acc))
    end.
Proof.
  revert acc. induction d; intros acc; [reflexivity| ..];
    cbn [NilEmpty.string_of_uint parse_digits];
    match goal with
    | |- context [digit_of ?c] =>
        let v := eval vm_compute in (digit_of c) in
        change (digit_of c) with v
    end;
    cbv beta iota; rewrite IHd; fold (acc_value acc);
    cbn [uint_value acc_value]; rewrite ?Z.add_0_r; destruct d; reflexivity.
Qed.

Lemma uint_value_pos (d : Decimal.uint) (a : positive) :
  uint_value d (Zpos a) = Zpos (Pos.of_uint_acc d a).
Proof.
  revert a. induction d; intros a; cbn [uint_value Pos.of_uint_acc];
    [reflexivity| ..]; rewrite <- IHd; f_equal; lia.
Qed.

Lemma uint_value_0 (d : Decimal.uint) : uint_value d 0 = Z.of_N (Pos.of_uint d).
Proof.
  induction d; cbn [uint_value Pos.of_uint]; try exact IHd; try reflexivity;
    cbn [Z.mul Z.add Z.of_N]; apply uint_value_pos.
Qed.

Lemma parse_digits_positive (p : positive) :
  parse_digits None (NilEmpty.string_of_uint (Pos.to_uint p)) = Some (Zpos p).
Proof.
  rewrite parse_digits_uint. cbn [acc_value].
  rewrite uint_value_0, DecimalPos.Unsigned.of_to.
  pose proof (DecimalPos.Unsigned.to_uint_nonnil p) as H.
  now destruct (Pos.to_uint p).
Qed.

(** A safe integer is printed and read back as itself. *)
Lemma parseInt_num (z : Z) : safe_integer z = true -> parseInt (num z) = Int z.
Proof.
  unfold safe_integer, parseInt, num. cbn [to_string]. intros Hs.
  destruct z as [|p|p]; [reflexivity| |]; cbn [Z.abs] in Hs.
  - cbn [Z.to_int NilZero.string_of_int]. unfold NilZero.string_of_uint.
    pose proof (parse_digits_positive p) as H.
    pose proof (DecimalPos.Unsigned.to_uint_nonnil p) as Hn.
    destruct (Pos.to_uint p); try (now elim Hn);
      cbn [NilEmpty.string_of_uint] in *; unfold parse_int;
      cbn [skip_spaces]; cbv beta iota;
      match goal with
      | |- context [is_space ?c] =>
          let v := eval vm_compute in (is_space c) in change (is_space c) with v
      end; cbv beta iota; rewrite H; unfold number_of_digits; now rewrite Hs.
  - cbn [Z.to_int NilZero.string_of_int]. unfold NilZero.string_of_uint.
    pose proof (parse_digits_positive p) as H.
    pose proof (DecimalPos.Unsigned.to_uint_nonnil p) as Hn.
    destruct (Pos.to_uint p); try (now elim Hn);
      unfold parse_int; cbn [skip_spaces];
      match goal with
      | |- context [is_space ?c] =>
          let v := eval vm_compute in (is_space c) in change (is_space c) with v
      end; cbv beta iota; rewrite H; unfold number_of_digits; now rewrite Hs.
Qed.

(** ** The claims about the request builder *)

(** C1 (as amended).  Take a bid request without the test-mode flag that
    the validator accepts, whose [mediaTypes.video] has no [placement] of
    its own, and on which the builder returns: the first player size is
    there, its two entries and the publisher id are values ToString returns
    on (no object or array among them has a [toString] of its own), the
    floor source is there, and [mediaTypes.video] has no [hasOwnProperty] of
    its own.  If [params.context] is ["instream"], the wire body has
    [imp[0].video.placement] 1 and, when [mediaTypes.video] has no
    [startdelay], [imp[0].video.startdelay] 0; if [params.context] is not
    ["instream"], it has [imp[0].video.placement] 2. *)
Theorem build_placement (env : page) (getFloor : option floor_fn) (st : state) :
  let r := bidReq st in
  let mv := r @ "mediaTypes" @ "video" in
  fst (isBidRequestValid st) = Ok true ->
  truthy (e2etest r) = false ->
  has_own mv "placement" = false ->
  nullish (mv @ "playerSize" @ "0") = false ->
  sizes_printable r = true ->
  printable (r @ "params" @ "publisherId") = true ->
  has_own mv "hasOwnProperty" = false ->
  nullish (floor_data getFloor r) = false ->
  exists d,
    fst (buildRequest env getFloor st) = Ok d
    /\ (is_str (r @ "params" @ "context") "instream" = true ->
        body_path d PLACEMENT = Some (JNum 1)
        /\ (has_own mv "startdelay" = false ->
            body_path d STARTDELAY = Some (JNum 0)))
    /\ (is_str (r @ "params" @ "context") "instream" = false ->
        body_path d PLACEMENT = Some (JNum 2)).
Proof.
  cbv zeta. intros Hvalid He Hpl H0 Hsz Hpub Hs Hf.
  apply validateVideo_true in Hvalid. cbv zeta in Hvalid.
  destruct Hvalid as [Ht | (Hp & _)]; [congruence|].
  assert (Hb : buildable getFloor (bidReq st) = true).
  { rewrite (buildable_no_test _ _ He), Hpub, Hp, H0, Hsz, Hs, Hf. reflexivity. }
  eexists. split; [apply (buildRequest_returns _ _ _ Hb)|].
  rewrite (after_build_no_test _ He).
  destruct (video_object_placement (bidReq st)) as (Hown & H1 & H2).
  split.
  - intros Hi. split.
    + apply (body_video_field _ _ _ (num 1)); auto.
    + intros Hsd. destruct (video_object_startdelay _ Hi) as [Hown' Hval].
      apply (body_video_field _ _ _ (num 0)); auto.
  - intros Hi. apply (body_video_field _ _ _ (num 2)); auto.
Qed.

(** C1, witness. *)
Lemma build_placement_witness :
  exists d,
    fst (buildRequest example_page None
           (mkState (instream_request (arr [arr [num 640; num 480]])) [])) = Ok d
    /\ body_path d PLACEMENT = Some (JNum 1)
    /\ body_path d STARTDELAY = Some (JNum 0).
Proof.
  destruct (build_placement example_page None
              (mkState (instream_request (arr [arr [num 640; num 480]])) [])
              eq_refl eq_refl eq_refl eq_refl eq_refl eq_refl eq_refl eq_refl)
    as (d & Hd & Hin & _).
  exists d. split; [exact Hd|].
  destruct (Hin eq_refl) as [Hp Hs]. split; [exact Hp|exact (Hs eq_refl)].
Defined.

(** C1, counterexample.  Both requests pass the validator, carry no
    test-mode flag and no [placement]; their [mediaTypes.video.context] is
    ["instream"].  On the first, whose [playerSize] is the empty array (and
    whose [params.context] is ["instream"] too), the builder throws: there
    is no wire body.  On the second, which has no [params.context], the
    builder returns placement 2, not 1: the placement rule reads
    [params.context], which the validator does not look at. *)
Lemma build_placement_counterexample :
  let r1 := instream_request (arr []) in
  let r2 := plain_request (arr [arr [num 640; num 480]]) in
  (fst (isBidRequestValid (mkState r1 [])) = Ok true
   /\ truthy (e2etest r1) = false
   /\ has_own (r1 @ "mediaTypes" @ "video") "placement" = false
   /\ is_str (r1 @ "mediaTypes" @ "video" @ "context") "instream" = true
   /\ is_str (r1 @ "params" @ "context") "instream" = true
   /\ fst (buildRequest example_page None (mkState r1 [])) = Throw)
  /\ (fst (isBidRequestValid (mkState r2 [])) = Ok true
      /\ truthy (e2etest r2) = false
      /\ has_own (r2 @ "mediaTypes" @ "video") "placement" = false
      /\ is_str (r2 @ "mediaTypes" @ "video" @ "context") "instream" = true
      /\ exists d, fst (buildRequest example_page None (mkState r2 [])) = Ok d
                   /\ body_path d PLACEMENT = Some (JNum 2)).
Proof.
  cbv zeta. repeat split. eexists. split; reflexivity.
Qed.

Lemma video_size_test_mode (r : value) :
  is_object (r @ "mediaTypes" @ "video") = true ->
  video_size (override r) = VObj [("w", num 640); ("h", num 480)].
Proof.
  intros Hv. unfold video_size. cbv zeta. now rewrite (override_playerSize _ Hv).
Qed.

(** C2 (as amended).  With [params.video.e2etest] truthy the validator
    returns [true] whatever else the bid request holds, and writes nothing.
    When moreover [mediaTypes.video] is an object (with no [hasOwnProperty]
    of its own) and the floor source is there, the builder returns a POST to
    the endpoint's path [/e2etest] whose body has [imp[0].video.w] 640 and
    [imp[0].video.h] 480. *)
Theorem test_mode_request (env : page) (getFloor : option floor_fn) (st : state) :
  let r := bidReq st in
  truthy (e2etest r) = true ->
  isBidRequestValid st = (Ok true, st)
  /\ (is_object (r @ "mediaTypes" @ "video") = true ->
      has_own (r @ "mediaTypes" @ "video") "hasOwnProperty" = false ->
      nullish (floor_data getFloor (override r)) = false ->
      exists d,
        fst (buildRequest env getFloor st) = Ok d
        /\ method d = "POST"
        /\ url d = "https://x.videobyte.com/ortb/e2etest"
        /\ body_path d WIDTH = Some (JNum 640)
        /\ body_path d HEIGHT = Some (JNum 480)).
Proof.
  cbv zeta. intros He. split.
  - unfold isBidRequestValid. rewrite validateVideo_eq. cbv zeta. rewrite He.
    pose proof (prop_not_nullish _ _ (e2etest_params _ He)) as Hr. now rewrite Hr.
  - intros Hv Hs Hf.
    assert (Hb : buildable getFloor (bidReq st) = true).
    { rewrite (buildable_test_mode _ _ He), Hv, Hs, Hf. reflexivity. }
    eexists. split; [apply (buildRequest_returns _ _ _ Hb)|].
    rewrite (after_build_test _ He Hv). unfold publisher_of. rewrite He.
    cbn [method url]. repeat split.
    + destruct (video_object_size (override (bidReq st)) "w" eq_refl) as [Hw Hown].
      apply (body_video_field _ _ _ (num 640)); auto.
      rewrite Hw. now rewrite (video_size_test_mode _ Hv).
    + destruct (video_object_size (override (bidReq st)) "h" eq_refl) as [Hh Hown].
      apply (body_video_field _ _ _ (num 480)); auto.
      rewrite Hh. now rewrite (video_size_test_mode _ Hv).
Qed.

(** C2, witness. *)
Lemma test_mode_request_witness :
  let st := mkState (test_request (arr [arr [num 1920; num 1080]])) [] in
  isBidRequestValid st = (Ok true, st)
  /\ exists d,
       fst (buildRequest example_page None st) = Ok d
       /\ method d = "POST"
       /\ url d = "https://x.videobyte.com/ortb/e2etest"
       /\ body_path d WIDTH = Some (JNum 640)
       /\ body_path d HEIGHT = Some (JNum 480).
Proof.
  cbv zeta.
  destruct (test_mode_request example_page None
              (mkState (test_request (arr [arr [num 1920; num 1080]])) []) eq_refl)
    as [Hvalid Hbuild].
  split; [exact Hvalid|]. exact (Hbuild eq_refl eq_refl eq_refl).
Defined.

(** C2, counterexample.  The test-mode flag on a bid request with no
    [mediaTypes.video]: the validator accepts it, and the builder throws on
    the assignment to [mediaTypes.video.playerSize]. *)
Lemma test_mode_without_video_throws :
  let st := mkState test_request_without_video [] in
  truthy (e2etest (bidReq st)) = true
  /\ fst (isBidRequestValid st) = Ok true
  /\ fst (buildRequest example_page None st) = Throw
  /\ fst (buildRequests example_page
            (Some [mkBidRequest test_request_without_video None]) [])
     = Throw.
Proof. cbv zeta. repeat split. Qed.

(** C9 (as amended).  Without the test-mode flag, on every bid request on
    which the builder returns, a [playerSize] of [[w, h]] with safe integers
    [w] and [h] gives them back as [imp[0].video.w] and [imp[0].video.h]; one
    of [[1920, 1080]] gives [w] 1920 and [h] 1080.  In general [w] and [h]
    are [parseInt(x, 10)] of the two entries [x] of the first player size,
    written [null] when that is [NaN] or infinite; this is stated of the
    entries whose strings are ASCII and whose numbers are safe integers. *)
Theorem build_player_size (env : page) (getFloor : option floor_fn) (st : state) :
  let r := bidReq st in
  let first := r @ "mediaTypes" @ "video" @ "playerSize" @ "0" in
  buildable getFloor r = true ->
  truthy (e2etest r) = false ->
  exists d,
    fst (buildRequest env getFloor st) = Ok d
    /\ (plain_value (first @ "0") = true ->
        body_path d WIDTH = JSON_stringify (VNum (parseInt (first @ "0"))))
    /\ (plain_value (first @ "1") = true ->
        body_path d HEIGHT = JSON_stringify (VNum (parseInt (first @ "1"))))
    /\ (forall w h,
          safe_integer w = true -> safe_integer h = true ->
          r @ "mediaTypes" @ "video" @ "playerSize" = arr [arr [num w; num h]] ->
          body_path d WIDTH = Some (JNum w) /\ body_path d HEIGHT = Some (JNum h))
    /\ (r @ "mediaTypes" @ "video" @ "playerSize" = arr [arr [num 1920; num 1080]] ->
        body_path d WIDTH = Some (JNum 1920)
        /\ body_path d HEIGHT = Some (JNum 1080)).
Proof.
  cbv zeta. intros Hb He.
  eexists. split; [apply (buildRequest_returns _ _ _ Hb)|].
  rewrite (after_build_no_test _ He).
  destruct (video_object_size (bidReq st) "w" eq_refl) as [Hw Hwo].
  destruct (video_object_size (bidReq st) "h" eq_refl) as [Hh Hho].
  unfold video_size in Hw, Hh. cbv zeta in Hw, Hh.
  cbn [prop assoc String.eqb Ascii.eqb Bool.eqb or_undefined] in Hw, Hh.
  assert (Hwidth : body_path
                     (mkDescriptor "POST"
                        (ENDPOINT_URL ++ "/" ++ to_string (publisher_of (bidReq st)))
                        (JSON_stringify (wire_request env getFloor (bidReq st))))
                     WIDTH
                   = JSON_stringify
                       (VNum (parseInt (bidReq st @ "mediaTypes" @ "video"
                                        @ "playerSize" @ "0" @ "0")))).
  { destruct (stringify_number
                (parseInt (bidReq st @ "mediaTypes" @ "video" @ "playerSize"
                           @ "0" @ "0"))) as [j Hj].
    rewrite Hj. exact (body_video_field _ _ _ _ _ _ _ _ Hwo Hw Hj). }
  assert (Hheight : body_path
                      (mkDescriptor "POST"
                         (ENDPOINT_URL ++ "/" ++ to_string (publisher_of (bidReq st)))
                         (JSON_stringify (wire_request env getFloor (bidReq st))))
                      HEIGHT
                    = JSON_stringify
                        (VNum (parseInt (bidReq st @ "mediaTypes" @ "video"
                                         @ "playerSize" @ "0" @ "1")))).
  { destruct (stringify_number
                (parseInt (bidReq st @ "mediaTypes" @ "video" @ "playerSize"
                           @ "0" @ "1"))) as [j Hj].
    rewrite Hj. exact (body_video_field _ _ _ _ _ _ _ _ Hho Hh Hj). }
  assert (Hints : forall w h,
             safe_integer w = true -> safe_integer h = true ->
             bidReq st @ "mediaTypes" @ "video" @ "playerSize"
             = arr [arr [num w; num h]] ->
             body_path (mkDescriptor "POST"
                          (ENDPOINT_URL ++ "/" ++ to_string (publisher_of (bidReq st)))
                          (JSON_stringify (wire_request env getFloor (bidReq st))))
               WIDTH = Some (JNum w)
             /\ body_path (mkDescriptor "POST"
                             (ENDPOINT_URL ++ "/" ++ to_string (publisher_of (bidReq st)))
                             (JSON_stringify (wire_request env getFloor (bidReq st))))
                  HEIGHT = Some (JNum h)).
  { intros w h Sw Sh Hps. rewrite Hwidth, Hheight, Hps.
    change (arr [arr [num w; num h]] @ "0" @ "0") with (num w).
    change (arr [arr [num w; num h]] @ "0" @ "1") with (num h).
    now rewrite (parseInt_num _ Sw), (parseInt_num _ Sh). }
  split; [intros _; exact Hwidth|]. split; [intros _; exact Hheight|].
  split; [exact Hints|]. now apply Hints.
Qed.

(** C9, witness. *)
Lemma build_player_size_witness :
  exists d,
    fst (buildRequest example_page None
           (mkState (instream_request (arr [arr [num 1920; num 1080]])) [])) = Ok d
    /\ body_path d WIDTH = Some (JNum 1920)
    /\ body_path d HEIGHT = Some (JNum 1080).
Proof.
  destruct (build_player_size example_page None
              (mkState (instream_request (arr [arr [num 1920; num 1080]])) [])
              eq_refl eq_refl)
    as (d & Hd & _ & _ & _ & H).
  exists d. split; [exact Hd|]. exact (H eq_refl).
Defined.

(** C9, counterexample.  A bid request whose [playerSize] is
    [[1920, 1080]] and which carries the test-mode flag: the builder writes
    640 and 480. *)
Lemma build_player_size_test_mode :
  let r := test_request (arr [arr [num 1920; num 1080]]) in
  r @ "mediaTypes" @ "video" @ "playerSize" = arr [arr [num 1920; num 1080]]
  /\ exists d,
       fst (buildRequest example_page None (mkState r [])) = Ok d
       /\ body_path d WIDTH = Some (JNum 640)
       /\ body_path d HEIGHT = Some (JNum 480).
Proof. cbv zeta. split; [reflexivity|]. eexists. repeat split. Qed.

(** C7 (as amended).  The bid request is the same object after
    [isBidRequestValid] and after [interpretResponse] as before; so it is
    after the builder, returning or throwing, when the request carries no
    test-mode flag (or carries it with no [mediaTypes.video] object to write
    to).  In test mode the builder writes to the request's own
    [mediaTypes.video]: afterwards its [playerSize] is [[640, 480]]; every
    other top-level property of the request, every other property of
    [mediaTypes] and every property of [mediaTypes.video] other than
    [playerSize] and [conext] is as before. *)
Theorem operations_on_bid_request (env : page) (getFloor : option floor_fn)
    (serverResponse request : value) (st : state) :
  let r := bidReq st in
  let r' := bidReq (snd (buildRequest env getFloor st)) in
  bidReq (snd (isBidRequestValid st)) = r
  /\ bidReq (snd (interpretResponse serverResponse request st)) = r
  /\ (truthy (e2etest r) = false -> r' = r)
  /\ (is_object (r @ "mediaTypes" @ "video") = false -> r' = r)
  /\ (truthy (e2etest r) = true ->
      is_object (r @ "mediaTypes" @ "video") = true ->
      r' @ "mediaTypes" @ "video" @ "playerSize" = TEST_PLAYER_SIZE
      /\ (forall k, ("mediaTypes" =? k)%string = false -> r' @ k = r @ k)
      /\ (forall k, ("video" =? k)%string = false ->
                    r' @ "mediaTypes" @ k = r @ "mediaTypes" @ k)
      /\ (forall k, ("playerSize" =? k)%string = false ->
                    ("conext" =? k)%string = false ->
                    r' @ "mediaTypes" @ "video" @ k = r @ "mediaTypes" @ "video" @ k)).
Proof.
  cbv zeta. rewrite buildRequest_bid. unfold isBidRequestValid.
  split; [apply validateVideo_keeps_bid|].
  split; [apply interpretResponse_keeps_bid|].
  split; [apply after_build_no_test|].
  split.
  { intros Hv. unfold after_build. rewrite Hv. now rewrite andb_false_r. }
  intros He Hv. rewrite (after_build_test _ He Hv).
  split; [now apply override_playerSize|].
  split; [intros k Hk; now apply override_params|].
  split.
  - intros k Hk.
    assert (Hm : is_object (bidReq st @ "mediaTypes") = true).
    { apply (plain_prop_is_object _ "video"); [reflexivity|].
      now apply is_object_not_nullish. }
    assert (Hr : is_object (bidReq st) = true).
    { apply (plain_prop_is_object _ "mediaTypes"); [reflexivity|].
      now apply is_object_not_nullish. }
    unfold override. cbv zeta.
    rewrite (prop_set_same _ "mediaTypes") by (assumption || reflexivity).
    now rewrite prop_set_other.
  - intros k H1 H2. now apply override_video_other.
Qed.

(** C7, witness. *)
Lemma operations_on_bid_request_witness :
  bidReq (snd (buildRequest example_page None
                 (mkState (instream_request (arr [arr [num 640; num 480]])) [])))
  = instream_request (arr [arr [num 640; num 480]])
  /\ bidReq (snd (buildRequest example_page None
                    (mkState (test_request (arr [arr [num 1920; num 1080]])) [])))
     @ "params"
     = test_request (arr [arr [num 1920; num 1080]]) @ "params".
Proof.
  split.
  - destruct (operations_on_bid_request example_page None VUndefined VUndefined
                (mkState (instream_request (arr [arr [num 640; num 480]])) []))
      as (_ & _ & H & _).
    exact (H eq_refl).
  - destruct (operations_on_bid_request example_page None VUndefined VUndefined
                (mkState (test_request (arr [arr [num 1920; num 1080]])) []))
      as (_ & _ & _ & _ & H).
    destruct (H eq_refl eq_refl) as (_ & Hk & _).
    exact (Hk "params" eq_refl).
Defined.

(** C7, counterexample.  The builder on a bid request in test mode whose
    [playerSize] is [[1920, 1080]]: it returns, and the bid request it was
    given now has the [playerSize] [[640, 480]] and a property [conext]. *)
Lemma build_overwrites_player_size :
  let st := mkState (test_request (arr [arr [num 1920; num 1080]])) [] in
  let r' := bidReq (snd (buildRequest example_page None st)) in
  bidReq st @ "mediaTypes" @ "video" @ "playerSize" = arr [arr [num 1920; num 1080]]
  /\ has_own (bidReq st @ "mediaTypes" @ "video") "conext" = false
  /\ (exists d, fst (buildRequest example_page None st) = Ok d)
  /\ r' @ "mediaTypes" @ "video" @ "playerSize" = arr [arr [num 640; num 480]]
  /\ r' @ "mediaTypes" @ "video" @ "conext" = VStr "instream".
Proof. cbv zeta. repeat split. eexists. reflexivity. Qed.

(** [buildRequests] on one bid request is the function it maps. *)
Lemma buildRequests_singleton (env : page) (getFloor : option floor_fn) (r : value)
    (con : list (level * string)) :
  fst (buildRequests env (Some [mkBidRequest r getFloor]) con)
  = match fst (buildRequest env getFloor (mkState r con)) with
    | Ok d => Ok (Some [d])
    | Throw => Throw
    end.
Proof.
  unfold buildRequests, map_bidRequests. cbn [request floor].
  now destruct (buildRequest env getFloor (mkState r con)) as [[d|] st'].
Qed.

(** C10.  The validator accepts bid requests on which the builder throws,
    whatever the page, the floor function and the console: one with the
    test-mode flag and no [mediaTypes.video], and one (valid by its fields)
    whose [playerSize] is the empty array. *)
Theorem valid_request_builder_throws (env : page) (getFloor : option floor_fn)
    (con : list (level * string)) :
  let r1 := test_request_without_video in
  let r2 := instream_request (arr []) in
  (truthy (e2etest r1) = true
   /\ r1 @ "mediaTypes" @ "video" = VUndefined
   /\ fst (isBidRequestValid (mkState r1 con)) = Ok true
   /\ fst (buildRequest env getFloor (mkState r1 con)) = Throw
   /\ fst (buildRequests env (Some [mkBidRequest r1 getFloor]) con) = Throw)
  /\ (truthy (e2etest r2) = false
      /\ r2 @ "mediaTypes" @ "video" @ "playerSize" = arr []
      /\ fst (isBidRequestValid (mkState r2 con)) = Ok true
      /\ fst (buildRequest env getFloor (mkState r2 con)) = Throw
      /\ fst (buildRequests env (Some [mkBidRequest r2 getFloor]) con) = Throw).
Proof.
  cbv zeta.
  assert (H1 : fst (buildRequest env getFloor (mkState test_request_without_video con))
               = Throw).
  { rewrite buildRequest_eq. cbv zeta. cbn [fst bidReq].
    now rewrite buildable_test_mode. }
  assert (H2 : fst (buildRequest env getFloor (mkState (instream_request (arr [])) con))
               = Throw).
  { rewrite buildRequest_eq. cbv zeta. cbn [fst bidReq].
    now rewrite buildable_no_test. }
  assert (H3 : fst (buildRequests env
                      (Some [mkBidRequest test_request_without_video getFloor]) con)
               = Throw)
    by (now rewrite buildRequests_singleton, H1).
  assert (H4 : fst (buildRequests env
                      (Some [mkBidRequest (instream_request (arr [])) getFloor]) con)
               = Throw)
    by (now rewrite buildRequests_singleton, H2).
  repeat split; assumption.
Qed.

(** ** The claims about the response interpreter *)

Lemma array_length_1 (l : list value) (ex : list (string * value)) :
  is_num (VArr l ex @ "length") 1 = (List.length l =? 1)%nat.
Proof.
  simpl. destruct (Nat.eqb_spec (List.length l) 1) as [->|H]; [reflexivity|].
  apply Z.eqb_neq. lia.
Qed.

Lemma interpretResponse_at_most_one (serverResponse bidRequest : value) (st : state)
    (l : list value) :
  fst (interpretResponse serverResponse bidRequest st) = Ok l ->
  (List.length l <= 1)%nat.
Proof.
  rewrite interpretResponse_eq. cbv zeta.
  repeat match goal with
         | |- context [if ?c then _ else _] => destruct c
         end; cbn [fst]; intros [= <-]; simpl; lia.
Qed.

(** Whenever [interpretResponse] returns, it returns the bid when the guard
    passes and the empty list when it does not. *)
Lemma interpretResponse_returns (serverResponse bidRequest : value) (st : state) :
  fst (interpretResponse serverResponse bidRequest st) <> Throw ->
  fst (interpretResponse serverResponse bidRequest st)
  = Ok (if one_seat_one_bid_guard serverResponse
        then [normalized_bid (body_of serverResponse) (accepted_bid serverResponse)]
        else []).
Proof.
  rewrite interpretResponse_eq. unfold one_seat_one_bid_guard, accepted_bid. cbv zeta.
  set (response := body_of serverResponse).
  destruct (truthy response && truthy (response @ "seatbid")
            && is_num (response @ "seatbid" @ "length") 1); [|reflexivity].
  destruct (nullish (response @ "seatbid" @ "0")); [intros H; now elim H|].
  cbn [andb].
  destruct (truthy (response @ "seatbid" @ "0" @ "bid")); [|reflexivity].
  destruct (is_num (response @ "seatbid" @ "0" @ "bid" @ "length") 1); [|reflexivity].
  cbn [andb].
  now destruct (nullish (response @ "seatbid" @ "0" @ "bid" @ "0"));
    [intros H; elim H|].
Qed.

(** One seat with one bid, in arrays, passes the guard. *)
Lemma single_bid_guard (serverResponse b : value) :
  single_bid serverResponse = Some b ->
  one_seat_one_bid_guard serverResponse = true
  /\ lists_are_arrays serverResponse = true
  /\ accepted_bid serverResponse = b.
Proof.
  unfold single_bid, one_seat_one_bid_guard, lists_are_arrays, accepted_bid.
  cbv zeta. set (response := body_of serverResponse).
  destruct (truthy response); [|discriminate].
  destruct (response @ "seatbid") as [| | | | |[|seat [|seat' seats]] ex|];
    try discriminate.
  change (VArr [seat] ex @ "0") with seat.
  destruct (seat @ "bid") as [| | | | |[|b0 [|b' bids]] ex'|]; try discriminate.
  intros [= ->]. repeat split.
Qed.

(** When the guard passes on arrays, they hold one seat with one bid. *)
Lemma guard_single_bid (serverResponse : value) :
  one_seat_one_bid_guard serverResponse = true ->
  lists_are_arrays serverResponse = true ->
  single_bid serverResponse = Some (accepted_bid serverResponse).
Proof.
  unfold single_bid, one_seat_one_bid_guard, lists_are_arrays, accepted_bid.
  cbv zeta. set (response := body_of serverResponse).
  intros Hg Ha.
  apply andb_prop in Hg as [Hg Hbl]. apply andb_prop in Hg as [Hg Hb].
  apply andb_prop in Hg as [Hg Hsl]. apply andb_prop in Hg as [Hr Hs].
  apply andb_prop in Ha as [Has Hab]. rewrite Hr.
  destruct (response @ "seatbid") as [| | | | |seats ex|]; try discriminate Has.
  rewrite array_length_1 in Hsl.
  destruct seats as [|seat [|seat' seats]]; try discriminate Hsl.
  change (VArr [seat] ex @ "0") with seat in *.
  destruct (seat @ "bid") as [| | | | |bids ex'|]; try discriminate Hab.
  rewrite array_length_1 in Hbl.
  now destruct bids as [|b [|b' bids]]; try discriminate Hbl.
Qed.

(** C3 (as amended).  On every response on which [interpretResponse] does
    not throw, it returns exactly one bid when the body exists, [seatbid] is
    there with length 1 and [seatbid[0].bid] is there with length 1, and the
    empty list in every other case (no body, no [seatbid], no seat, two seats
    or more, no [bid], no bid, two bids or more).  Stated of one seat holding
    one bid in arrays, this is true of exactly the responses on which
    [interpretResponse] does not throw and on which a [seatbid] and a [bid]
    that pass the length test are arrays.  On every response whatever, a list
    it returns has at most one element. *)
Theorem interpretResponse_single_bid (serverResponse bidRequest : value)
    (st : state) :
  let outcome := fst (interpretResponse serverResponse bidRequest st) in
  (outcome <> Throw ->
   outcome
   = Ok (if one_seat_one_bid_guard serverResponse
         then [normalized_bid (body_of serverResponse) (accepted_bid serverResponse)]
         else []))
  /\ (outcome = Ok (match single_bid serverResponse with
                    | Some b => [normalized_bid (body_of serverResponse) b]
                    | None => []
                    end)
      <-> outcome <> Throw
          /\ (one_seat_one_bid_guard serverResponse = true ->
              lists_are_arrays serverResponse = true))
  /\ (forall l, outcome = Ok l -> (List.length l <= 1)%nat).
Proof.
  cbv zeta. split; [apply interpretResponse_returns|].
  split; [|apply interpretResponse_at_most_one].
  split.
  - intros H.
    assert (Hn : fst (interpretResponse serverResponse bidRequest st) <> Throw)
      by (rewrite H; discriminate).
    split; [exact Hn|]. intros Hg.
    rewrite (interpretResponse_returns _ _ _ Hn), Hg in H.
    destruct (single_bid serverResponse) as [b|] eqn:Hs; [|discriminate H].
    now destruct (single_bid_guard _ _ Hs) as (_ & Ha & _).
  - intros [Hn Ha]. rewrite (interpretResponse_returns _ _ _ Hn).
    destruct (one_seat_one_bid_guard serverResponse) eqn:Hg.
    + now rewrite (guard_single_bid _ Hg (Ha eq_refl)).
    + destruct (single_bid serverResponse) as [b|] eqn:Hs; [|reflexivity].
      destruct (single_bid_guard _ _ Hs) as (Hg' & _). congruence.
Qed.

(** C3, witness. *)
Lemma interpretResponse_single_bid_witness :
  fst (interpretResponse (response_with (arr [VObj [("bid", arr [vast_bid])]]))
         VUndefined (mkState VUndefined []))
  = Ok [normalized_bid
          (body_of (response_with (arr [VObj [("bid", arr [vast_bid])]]))) vast_bid]
  /\ fst (interpretResponse
            (response_with (arr [VObj [("bid", arr [vast_bid])];
                                 VObj [("bid", arr [vast_bid])]]))
            VUndefined (mkState VUndefined []))
     = Ok [].
Proof.
  split.
  - apply (proj2 (proj1 (proj2 (interpretResponse_single_bid
                                  (response_with (arr [VObj [("bid", arr [vast_bid])]]))
                                  VUndefined (mkState VUndefined []))))).
    split; [discriminate|reflexivity].
  - apply (proj2 (proj1 (proj2 (interpretResponse_single_bid
                                  (response_with (arr [VObj [("bid", arr [vast_bid])];
                                                       VObj [("bid", arr [vast_bid])]]))
                                  VUndefined (mkState VUndefined []))))).
    split; [discriminate|discriminate].
Defined.

(** C3, counterexample.  A body whose one seat is [null], and a body whose
    one seat has the one bid entry [null]: on both [interpretResponse]
    throws, where the claim has it return the empty list on the first and
    one bid on the second. *)
Lemma interpretResponse_throws_on_null_entry :
  let r1 := response_with (arr [VNull]) in
  let r2 := response_with (arr [VObj [("bid", arr [VNull])]]) in
  (truthy (body_of r1) = true
   /\ body_of r1 @ "seatbid" = arr [VNull]
   /\ fst (interpretResponse r1 VUndefined (mkState VUndefined [])) = Throw)
  /\ (truthy (body_of r2) = true
      /\ body_of r2 @ "seatbid" = arr [VObj [("bid", arr [VNull])]]
      /\ fst (interpretResponse r2 VUndefined (mkState VUndefined [])) = Throw).
Proof. cbv zeta. repeat split. Qed.

(** The bid object of a response, [response.seatbid[0].bid[0]], follows the
    mapping. *)
Lemma normalized_bid_maps (response b : value) :
  maps_bid (normalized_bid response b) response b.
Proof.
  unfold maps_bid, normalized_bid. cbv zeta.
  destruct (truthy (b @ "adm")); repeat split; intros; try discriminate;
    reflexivity.
Qed.

(** C4.  Whenever [interpretResponse] accepts a response, that is returns a
    bid object, the object has [requestId] the body's [id] and, for the bid
    [b = response.seatbid[0].bid[0]], [cpm] [b.price], [width] [b.w],
    [height] [b.h], [ad] [b.adm], [ttl] 30, [creativeId] [b.crid],
    [netRevenue] [true], [currency] ["USD"], [mediaType] ["video"] and
    [meta.adomain] [b.adomain]; its [vastXml] is [b.adm] when [b.adm] is
    present (truthy: the test is [if (bid.adm)]), and it has no [vastXml]
    otherwise.  It does accept, and writes nothing to the console, every
    response whose body exists and has exactly one seat with exactly one
    bid. *)
Theorem interpretResponse_mapping (serverResponse bidRequest : value) (st : state) :
  (forall nb,
      fst (interpretResponse serverResponse bidRequest st) = Ok [nb] ->
      maps_bid nb (body_of serverResponse) (accepted_bid serverResponse))
  /\ (forall b,
         single_bid serverResponse = Some b -> nullish b = false ->
         accepted_bid serverResponse = b
         /\ interpretResponse serverResponse bidRequest st
            = (Ok [normalized_bid (body_of serverResponse) b], st)).
Proof.
  split.
  - intros nb. rewrite interpretResponse_eq. cbv zeta. unfold accepted_bid.
    repeat match goal with
           | |- context [if ?c then _ else _] => destruct c
           end; cbn [fst]; intros [= <-]. apply normalized_bid_maps.
  - unfold single_bid, accepted_bid. intros b Hs Hb.
    rewrite interpretResponse_eq. cbv zeta.
    set (response := body_of serverResponse) in *.
    destruct (truthy response); [|discriminate Hs].
    destruct (response @ "seatbid") as [| | | | |[|seat [|seat' seats]] ex|];
      try discriminate Hs.
    change (VArr [seat] ex @ "0") with seat.
    destruct (seat @ "bid") as [| | | | |[|b0 [|b' bids]] ex'|] eqn:Hbid;
      try discriminate Hs.
    injection Hs as ->.
    assert (Hseat : nullish seat = false).
    { destruct seat; try reflexivity; discriminate Hbid. }
    rewrite Hseat. change (VArr [b] ex' @ "0") with b. now rewrite Hb.
Qed.

(** C4, witness. *)
Lemma interpretResponse_mapping_witness :
  let sr := response_with (arr [VObj [("bid", arr [vast_bid])]]) in
  let st := mkState VUndefined [] in
  interpretResponse sr VUndefined st
  = (Ok [normalized_bid (body_of sr) vast_bid], st)
  /\ maps_bid (normalized_bid (body_of sr) vast_bid) (body_of sr) vast_bid
  /\ normalized_bid (body_of sr) vast_bid @ "vastXml" = VStr "<VAST/>".
Proof.
  cbv zeta.
  destruct (interpretResponse_mapping
              (response_with (arr [VObj [("bid", arr [vast_bid])]]))
              VUndefined (mkState VUndefined [])) as [Hmaps Hacc].
  destruct (Hacc vast_bid eq_refl eq_refl) as [Hb Hrun].
  split; [exact Hrun|]. split; [|reflexivity].
  apply (Hmaps (normalized_bid
                  (body_of (response_with (arr [VObj [("bid", arr [vast_bid])]])))
                  vast_bid)).
  now rewrite Hrun.
Defined.

(** ** The extensions *)

Lemma after_build_other (r : value) (k : string) :
  ("mediaTypes" =? k)%string = false -> after_build r @ k = r @ k.
Proof.
  intros H. unfold after_build.
  destruct (truthy (e2etest r) && is_object (r @ "mediaTypes" @ "video"));
    [now apply override_params|reflexivity].
Qed.

(** The extension paths of the document written for [wire_request]. *)
Lemma wire_request_extensions (env : page) (getFloor : option floor_fn) (r : value) :
  let body := JSON_stringify (wire_request env getFloor r) in
  let gdpr := r @ "gdprConsent" in
  opath body SCHAIN
  = (if truthy (r @ "schain") then JSON_stringify (r @ "schain") else None)
  /\ opath body CONSENT
     = (if truthy gdpr then JSON_stringify (gdpr @ "consentString") else None)
  /\ opath body GDPR
     = (if truthy gdpr
        then Some (JNum (if truthy (gdpr @ "gdprApplies") then 1 else 0))
        else None)
  /\ opath body US_PRIVACY
     = (if truthy (r @ "uspConsent") then JSON_stringify (r @ "uspConsent") else None)
  /\ (truthy (r @ "schain") = false -> opath body [Key "source"] = None)
  /\ (truthy gdpr = false -> opath body [Key "user"] = None)
  /\ (truthy gdpr = true -> exists j, opath body [Key "user"; Key "ext"] = Some j)
  /\ (truthy gdpr = false -> truthy (r @ "uspConsent") = false ->
      opath body [Key "regs"] = None).
Proof.
  cbv zeta.
  unfold wire_request, with_usp, with_gdpr, with_schain, openrtb_literal.
  generalize (r @ "bidId") as a.
  generalize (arr [VObj [("id", VStr "1"); ("video", video_object r);
                         ("secure", num (if isSecure env then 1 else 0));
                         ("bidfloor", floor_data getFloor r @ "floor");
                         ("bidfloorcur", floor_data getFloor r @ "currency")]]) as b.
  generalize (VObj [("domain", VStr (hostname env)); ("page", VStr (href env));
                    ("ref", referer_of r)]) as c.
  generalize (r @ "gdprConsent" @ "consentString") as cs.
  generalize (r @ "gdprConsent" @ "gdprApplies") as ga.
  generalize (r @ "gdprConsent") as g.
  generalize (r @ "schain") as s.
  generalize (r @ "uspConsent") as u.
  intros u s g ga cs c b a.
  unfold SCHAIN, CONSENT, GDPR, US_PRIVACY, opath.
  destruct (truthy s) eqn:Hs; [destruct (truthy_stringify s Hs) as [js Hjs]|];
    (destruct (truthy g) eqn:Hg);
    (destruct (truthy u) eqn:Hu; [destruct (truthy_stringify u Hu) as [ju Hju]|]);
    simpl; rewrite ?Hjs, ?Hju;
    destruct (JSON_stringify a), (JSON_stringify b), (JSON_stringify c),
      (JSON_stringify cs), (truthy ga);
    simpl; rewrite ?Hjs, ?Hju; simpl;
    repeat split; intros; try discriminate; eauto.
Qed.

(** The members of the wire body beside the extensions. *)
Lemma wire_request_members (env : page) (getFloor : option floor_fn) (r : value) :
  let body := JSON_stringify (wire_request env getFloor r) in
  let fd := floor_data getFloor r in
  opath body [Key "id"] = JSON_stringify (r @ "bidId")
  /\ (exists imp, opath body [Key "imp"] = Some (JArr [imp]))
  /\ opath body [Key "imp"; Idx 0; Key "id"] = Some (JStr "1")
  /\ opath body [Key "imp"; Idx 0; Key "secure"]
     = Some (JNum (if isSecure env then 1 else 0))
  /\ opath body [Key "imp"; Idx 0; Key "bidfloor"] = JSON_stringify (fd @ "floor")
  /\ opath body [Key "imp"; Idx 0; Key "bidfloorcur"]
     = JSON_stringify (fd @ "currency")
  /\ opath body [Key "site"; Key "domain"] = Some (JStr (hostname env))
  /\ opath body [Key "site"; Key "page"] = Some (JStr (href env))
  /\ opath body [Key "site"; Key "ref"]
     = Some (stringify_element (referer_of r)).
Proof.
  cbv zeta.
  unfold wire_request, with_usp, with_gdpr, with_schain, openrtb_literal.
  assert (Hvid : exists jv, JSON_stringify (video_object r) = Some jv).
  { pose proof (video_object_record r) as Hrec.
    destruct (video_object r); try discriminate Hrec. simpl. eauto. }
  destruct Hvid as [jv Hvid].
  assert (Href : exists jr, JSON_stringify (referer_of r) = Some jr
                            /\ stringify_element (referer_of r) = jr).
  { unfold referer_of, stringify_element.
    destruct (truthy (r @ "refererInfo")); [|now exists JNull].
    destruct (truthy (r @ "refererInfo" @ "referer")) eqn:E; [|now exists JNull].
    destruct (truthy_stringify _ E) as [j Hj]. exists j. now rewrite Hj. }
  destruct Href as (jr & Hjr & ->).
  generalize dependent (referer_of r). intros ref Hjr.
  generalize dependent (video_object r). intros video Hvid.
  generalize (r @ "bidId") as a.
  generalize (floor_data getFloor r @ "floor") as fl.
  generalize (floor_data getFloor r @ "currency") as fc.
  generalize (r @ "gdprConsent" @ "consentString") as cs.
  generalize (r @ "gdprConsent" @ "gdprApplies") as ga.
  generalize (r @ "gdprConsent") as g.
  generalize (r @ "schain") as s.
  generalize (r @ "uspConsent") as u.
  intros u s g ga cs fc fl a.
  unfold opath.
  destruct (truthy s), (truthy g), (truthy u);
    simpl; rewrite ?Hjr, ?Hvid;
    destruct (JSON_stringify a), (JSON_stringify fl), (JSON_stringify fc);
    simpl; rewrite ?Hjr, ?Hvid; simpl;
    repeat split; eauto.
Qed.

(** C8 (as amended).  On every bid request on which the builder returns:
    [source.ext.schain] is in the wire body exactly when [bidRequest.schain]
    is present (truthy), and is then what [JSON.stringify] writes for it;
    [regs.ext.gdpr] is there exactly when [bidRequest.gdprConsent] is
    present, 1 when [gdprApplies] is truthy and 0 otherwise; [user.ext] is
    there exactly when [gdprConsent] is present, and [user.ext.consent] is
    [gdprConsent.consentString] as [JSON.stringify] writes it, so it is left
    out when the consent string is [undefined]; [regs.ext.us_privacy] is
    there exactly when [bidRequest.uspConsent] is present.  With an input
    absent, so is its path: no [source], no [user], and no [regs] when both
    [gdprConsent] and [uspConsent] are absent.  The two writes under
    [regs.ext] keep each other's key. *)
Theorem build_extensions (env : page) (getFloor : option floor_fn) (st : state) :
  let r := bidReq st in
  let gdpr := r @ "gdprConsent" in
  buildable getFloor r = true ->
  exists d,
    fst (buildRequest env getFloor st) = Ok d
    /\ body_path d SCHAIN
       = (if truthy (r @ "schain") then JSON_stringify (r @ "schain") else None)
    /\ body_path d CONSENT
       = (if truthy gdpr then JSON_stringify (gdpr @ "consentString") else None)
    /\ body_path d GDPR
       = (if truthy gdpr
          then Some (JNum (if truthy (gdpr @ "gdprApplies") then 1 else 0))
          else None)
    /\ body_path d US_PRIVACY
       = (if truthy (r @ "uspConsent") then JSON_stringify (r @ "uspConsent")
          else None)
    /\ (truthy (r @ "schain") = false -> body_path d [Key "source"] = None)
    /\ (truthy gdpr = false -> body_path d [Key "user"] = None)
    /\ (truthy gdpr = true -> exists j, body_path d [Key "user"; Key "ext"] = Some j)
    /\ (truthy gdpr = false -> truthy (r @ "uspConsent") = false ->
        body_path d [Key "regs"] = None).
Proof.
  cbv zeta. intros Hb.
  eexists. split; [apply (buildRequest_returns _ _ _ Hb)|].
  pose proof (wire_request_extensions env getFloor (after_build (bidReq st))) as H.
  cbv zeta in H. rewrite !after_build_other in H by reflexivity. exact H.
Qed.

(** C8, witness. *)
Lemma build_extensions_witness :
  exists d,
    fst (buildRequest example_page None
           (mkState (consent_request
                       (VObj [("consentString", VStr "abc");
                              ("gdprApplies", VBool true)])
                       (VStr "1YNN")) [])) = Ok d
    /\ body_path d CONSENT = Some (JStr "abc")
    /\ body_path d GDPR = Some (JNum 1)
    /\ body_path d US_PRIVACY = Some (JStr "1YNN")
    /\ body_path d [Key "source"] = None.
Proof.
  destruct (build_extensions example_page None
              (mkState (consent_request
                          (VObj [("consentString", VStr "abc");
                                 ("gdprApplies", VBool true)])
                          (VStr "1YNN")) []) eq_refl)
    as (d & Hd & _ & Hc & Hg & Hu & Hs & _).
  exists d. repeat split; try assumption. exact (Hs eq_refl).
Defined.

(** C8, counterexample.  A bid request whose [gdprConsent] is present and
    has no [consentString] (what the host passes when the consent platform
    gave none): [regs.ext.gdpr] is in the wire body, [user.ext] is an empty
    object, and [user.ext.consent] is not there. *)
Lemma build_omits_undefined_consent :
  let r := consent_request (VObj [("gdprApplies", VBool true)]) VUndefined in
  truthy (r @ "gdprConsent") = true
  /\ exists d,
       fst (buildRequest example_page None (mkState r [])) = Ok d
       /\ body_path d GDPR = Some (JNum 1)
       /\ body_path d [Key "user"; Key "ext"] = Some (JObj [])
       /\ body_path d CONSENT = None.
Proof. cbv zeta. split; [reflexivity|]. eexists. repeat split. Qed.

(** ** Further properties *)

(** X1.  The validator accepts a bid request exactly when it carries the
    test-mode flag or has a publisher id, the context ["instream"] and an
    array as player size. *)
Theorem validateVideo_accepts_iff (st : state) :
  let r := bidReq st in
  fst (isBidRequestValid st) = Ok true
  <-> (truthy (e2etest r) = true
       \/ (truthy (r @ "params" @ "publisherId") = true
           /\ is_str (r @ "mediaTypes" @ "video" @ "context") "instream" = true
           /\ isArray (r @ "mediaTypes" @ "video" @ "playerSize") = true)).
Proof.
  cbv zeta. unfold isBidRequestValid. rewrite validateVideo_eq. cbv zeta. split.
  - destruct (nullish (bidReq st)); [discriminate|].
    destruct (truthy (e2etest (bidReq st))); [now left|].
    destruct (nullish (bidReq st @ "mediaTypes")); [discriminate|].
    destruct (is_undefined (bidReq st @ "mediaTypes" @ "video")); [discriminate|].
    destruct (nullish (bidReq st @ "params")); [discriminate|].
    destruct (truthy (bidReq st @ "params" @ "publisherId")); [|discriminate].
    cbn [negb].
    destruct (nullish (bidReq st @ "mediaTypes" @ "video")); [discriminate|].
    destruct (truthy (bidReq st @ "mediaTypes" @ "video" @ "context")); [|discriminate].
    cbn [negb].
    destruct (is_str (bidReq st @ "mediaTypes" @ "video" @ "context") "instream");
      [|discriminate].
    cbn [negb].
    destruct (is_undefined (bidReq st @ "mediaTypes" @ "video" @ "playerSize"));
      [discriminate|].
    destruct (isArray (bidReq st @ "mediaTypes" @ "video" @ "playerSize"));
      [|discriminate].
    intros _. right. repeat split; reflexivity.
  - intros [He | (Hp & Hc & Ha)].
    + rewrite He. pose proof (prop_not_nullish _ _ (e2etest_params _ He)) as Hr.
      now rewrite Hr.
    + assert (Hct : truthy (bidReq st @ "mediaTypes" @ "video" @ "context") = true).
      { destruct (bidReq st @ "mediaTypes" @ "video" @ "context");
          try discriminate Hc. simpl in Hc. apply String.eqb_eq in Hc. now subst. }
      pose proof (prop_not_nullish _ _ (truthy_not_nullish _ Hct)) as Hv.
      pose proof (prop_not_nullish _ _ Hv) as Hm.
      pose proof (prop_not_nullish _ _ Hm) as Hr.
      pose proof (prop_not_nullish _ _ (truthy_not_nullish _ Hp)) as Hpn.
      assert (Hvu : is_undefined (bidReq st @ "mediaTypes" @ "video") = false).
      { now destruct (bidReq st @ "mediaTypes" @ "video"). }
      assert (Hau : is_undefined (bidReq st @ "mediaTypes" @ "video" @ "playerSize")
                    = false).
      { now destruct (bidReq st @ "mediaTypes" @ "video" @ "playerSize"). }
      rewrite Hr, Hm, Hvu, Hpn, Hp, Hv, Hct, Hc, Hau, Ha.
      now destruct (truthy (e2etest (bidReq st))).
Qed.

(** X2.  The builder returns a request descriptor exactly on the bid
    requests [buildable] describes, and throws on every other. *)
Theorem buildRequest_domain (env : page) (getFloor : option floor_fn) (st : state) :
  ((exists d, fst (buildRequest env getFloor st) = Ok d)
   <-> buildable getFloor (bidReq st) = true)
  /\ (fst (buildRequest env getFloor st) = Throw
      <-> buildable getFloor (bidReq st) = false).
Proof.
  rewrite buildRequest_eq. cbv zeta. cbn [fst].
  destruct (buildable getFloor (bidReq st)); repeat split; eauto;
    try discriminate.
  intros [d H]. discriminate H.
Qed.

(** X3.  [parseInt(z, 10)] of a safe integer [z], and of the string of its
    decimal digits, is [z]. *)
Theorem parseInt_integer (z : Z) :
  safe_integer z = true ->
  parseInt (num z) = Int z /\ parseInt (VStr (to_string (num z))) = Int z.
Proof. intros H. split; now apply parseInt_num. Qed.

(** X3, witness. *)
Lemma parseInt_integer_witness :
  parseInt (num 1080) = Int 1080
  /\ parseInt (VStr (to_string (num 1080))) = Int 1080.
Proof. exact (parseInt_integer 1080 eq_refl). Defined.

(** X4.  On every bid request on which the builder returns, the descriptor
    is a POST, to the endpoint's path of the publisher id as ToString prints
    it (stated where its numbers are safe integers), and its body has
    the bid id as [id], exactly one impression, with [id] ["1"], [secure] 1
    on an https page and 0 otherwise and the floor data's [floor] and
    [currency] as [bidfloor] and [bidfloorcur], and a [site] with the page's
    hostname and address and, as [ref], the referer or [null]. *)
Theorem build_single_impression (env : page) (getFloor : option floor_fn)
    (st : state) :
  let r := bidReq st in
  let fd := floor_data getFloor (after_build r) in
  buildable getFloor r = true ->
  exists d,
    fst (buildRequest env getFloor st) = Ok d
    /\ method d = "POST"
    /\ (safe_numbers (publisher_of r) = true ->
        url d = (ENDPOINT_URL ++ "/" ++ to_string (publisher_of r))%string)
    /\ body_path d [Key "id"] = JSON_stringify (r @ "bidId")
    /\ (exists imp, body_path d [Key "imp"] = Some (JArr [imp]))
    /\ body_path d [Key "imp"; Idx 0; Key "id"] = Some (JStr "1")
    /\ body_path d [Key "imp"; Idx 0; Key "secure"]
       = Some (JNum (if isSecure env then 1 else 0))
    /\ body_path d [Key "imp"; Idx 0; Key "bidfloor"] = JSON_stringify (fd @ "floor")
    /\ body_path d [Key "imp"; Idx 0; Key "bidfloorcur"]
       = JSON_stringify (fd @ "currency")
    /\ body_path d [Key "site"; Key "domain"] = Some (JStr (hostname env))
    /\ body_path d [Key "site"; Key "page"] = Some (JStr (href env))
    /\ body_path d [Key "site"; Key "ref"] = Some (stringify_element (referer_of r)).
Proof.
  cbv zeta. intros Hb.
  eexists. split; [apply (buildRequest_returns _ _ _ Hb)|].
  split; [reflexivity|]. split; [reflexivity|].
  pose proof (wire_request_members env getFloor (after_build (bidReq st))) as H.
  cbv zeta in H. unfold referer_of in H |- *.
  rewrite !after_build_other in H by reflexivity. exact H.
Qed.

(** X4, witness. *)
Lemma build_single_impression_witness :
  exists d,
    fst (buildRequest example_page None
           (mkState (instream_request (arr [arr [num 640; num 480]])) [])) = Ok d
    /\ url d = "https://x.videobyte.com/ortb/pub"
    /\ body_path d [Key "id"] = Some (JStr "b1")
    /\ body_path d [Key "imp"; Idx 0; Key "secure"] = Some (JNum 1)
    /\ body_path d [Key "site"; Key "ref"] = Some JNull.
Proof.
  destruct (build_single_impression example_page None
              (mkState (instream_request (arr [arr [num 640; num 480]])) []) eq_refl)
    as (d & Hd & _ & Hu & Hi & _ & _ & Hs & _ & _ & _ & _ & Hr).
  exists d. repeat split; try assumption. exact (Hu eq_refl).
Defined.

(** X5.  Whenever [interpretResponse] returns, it either returns one bid
    and writes nothing to the console, or returns the empty list and has
    logged the error ["invalid server response received"]. *)
Theorem interpretResponse_logs_rejection (serverResponse bidRequest : value)
    (st st' : state) (l : list value) :
  interpretResponse serverResponse bidRequest st = (Ok l, st') ->
  (l = [normalized_bid (body_of serverResponse) (accepted_bid serverResponse)]
   /\ st' = st)
  \/ (l = [] /\ st' = logged Error "invalid server response received" st).
Proof.
  rewrite interpretResponse_eq. cbv zeta. unfold accepted_bid.
  repeat match goal with
         | |- context [if ?c then _ else _] => destruct c
         end; intros [= <- <-]; auto.
Qed.

(** X5, witness. *)
Lemma interpretResponse_logs_rejection_witness :
  console (snd (interpretResponse (response_with (arr [])) VUndefined
                  (mkState VUndefined [])))
  = [(Error, "invalid server response received")].
Proof.
  destruct (interpretResponse_logs_rejection (response_with (arr [])) VUndefined
              (mkState VUndefined [])
              (logged Error "invalid server response received"
                 (mkState VUndefined [])) [] eq_refl)
    as [[H _] | [_ H]]; [discriminate H|reflexivity].
Defined.

(** ** When the operations throw, and what they log *)

(** X6.  The validator throws exactly when the bid request itself is
    missing, or, without the test-mode flag, when [mediaTypes] is missing,
    when [mediaTypes.video] is there and [params] is missing, or when
    [mediaTypes.video] is [null] and the publisher id is there.  A throw
    leaves the console as it was. *)
Theorem validateVideo_throws_iff (st : state) :
  let r := bidReq st in
  let mv := r @ "mediaTypes" @ "video" in
  (fst (isBidRequestValid st) = Throw
   <-> (nullish r = true
        \/ (truthy (e2etest r) = false
            /\ (nullish (r @ "mediaTypes") = true
                \/ (is_undefined mv = false
                    /\ (nullish (r @ "params") = true
                        \/ (truthy (r @ "params" @ "publisherId") = true
                            /\ mv = VNull)))))))
  /\ (fst (isBidRequestValid st) = Throw -> snd (isBidRequestValid st) = st).
Proof.
  cbv zeta. unfold isBidRequestValid. rewrite validateVideo_eq. cbv zeta.
  destruct (nullish (bidReq st)) eqn:Hr.
  { cbn [fst snd]. repeat split; auto. }
  destruct (truthy (e2etest (bidReq st))) eqn:He.
  { cbn [fst snd]. repeat split; try discriminate.
    intros [H | (H & _)]; discriminate H. }
  destruct (nullish (bidReq st @ "mediaTypes")) eqn:Hm.
  { cbn [fst snd]. repeat split; auto. }
  destruct (is_undefined (bidReq st @ "mediaTypes" @ "video")) eqn:Hu.
  { cbn [fst snd]. repeat split; try discriminate.
    intros [H | (_ & [H | (H & _)])]; discriminate H. }
  destruct (nullish (bidReq st @ "params")) eqn:Hp.
  { cbn [fst snd]. repeat split; auto 6. }
  destruct (truthy (bidReq st @ "params" @ "publisherId")) eqn:Hpub; cbn [negb].
  2:{ cbn [fst snd]. repeat split; try discriminate.
      intros [H | (_ & [H | (_ & [H | (H & _)])])]; discriminate H. }
  destruct (bidReq st @ "mediaTypes" @ "video") as [| |b|n|s|l ex|ps] eqn:Hv;
    try discriminate Hu; cbn [nullish].
  { cbn [fst snd]. repeat split; auto 8. }
  all: repeat match goal with
         | |- context [if ?c then _ else _] => destruct c
         end; cbn [fst snd]; repeat split; try discriminate;
    intros [H | (_ & [H | (_ & [H | (_ & H)])])]; discriminate H.
Qed.

(** X7.  What the validator writes to the console.  Accepting writes
    nothing; so does rejecting a bid request without [mediaTypes.video].
    Every other rejection logs exactly one error, that of the first rule
    that fails: the publisher id, then the context being there, then the
    context being ["instream"], then the player size being an array. *)
Theorem validateVideo_console (st st' : state) (b : bool) :
  let r := bidReq st in
  let mv := r @ "mediaTypes" @ "video" in
  let publisherId := r @ "params" @ "publisherId" in
  isBidRequestValid st = (Ok b, st') ->
  (b = true -> st' = st)
  /\ (b = false ->
      (is_undefined mv = true /\ st' = st)
      \/ (truthy publisherId = false
          /\ st' = logged Error "failed validation: publisher id not declared" st)
      \/ (truthy publisherId = true /\ truthy (mv @ "context") = false
          /\ st' = logged Error "failed validation: context id not declared" st)
      \/ (truthy publisherId = true /\ truthy (mv @ "context") = true
          /\ is_str (mv @ "context") "instream" = false
          /\ st' = logged Error
                     "failed validation: only context instream is supported " st)
      \/ (truthy publisherId = true /\ is_str (mv @ "context") "instream" = true
          /\ isArray (mv @ "playerSize") = false
          /\ st' = logged Error "failed validation: player size not declared" st)).
Proof.
  cbv zeta. unfold isBidRequestValid. rewrite validateVideo_eq. cbv zeta.
  destruct (nullish (bidReq st)); [discriminate|].
  destruct (truthy (e2etest (bidReq st))).
  { intros [= <- <-]. split; [reflexivity|discriminate]. }
  destruct (nullish (bidReq st @ "mediaTypes")); [discriminate|].
  destruct (is_undefined (bidReq st @ "mediaTypes" @ "video")) eqn:Hu.
  { intros [= <- <-]. split; [discriminate|]. auto. }
  destruct (nullish (bidReq st @ "params")); [discriminate|].
  destruct (truthy (bidReq st @ "params" @ "publisherId")) eqn:Hpub; cbn [negb].
  2:{ intros [= <- <-]. split; [discriminate|]. auto. }
  destruct (nullish (bidReq st @ "mediaTypes" @ "video")); [discriminate|].
  destruct (truthy (bidReq st @ "mediaTypes" @ "video" @ "context")) eqn:Hc;
    cbn [negb].
  2:{ intros [= <- <-]. split; [discriminate|]. auto 6. }
  destruct (is_str (bidReq st @ "mediaTypes" @ "video" @ "context") "instream")
    eqn:Hi; cbn [negb].
  2:{ intros [= <- <-]. split; [discriminate|]. auto 8. }
  destruct (is_undefined (bidReq st @ "mediaTypes" @ "video" @ "playerSize")) eqn:Hpu.
  { intros [= <- <-]. split; [discriminate|]. intros _.
    do 4 right. repeat split.
    now destruct (bidReq st @ "mediaTypes" @ "video" @ "playerSize"). }
  destruct (isArray (bidReq st @ "mediaTypes" @ "video" @ "playerSize")) eqn:Ha;
    cbn [negb].
  - intros [= <- <-]. split; [reflexivity|discriminate].
  - intros [= <- <-]. split; [discriminate|]. intros _. do 4 right. auto.
Qed.

(** X7, witness. *)
Lemma validateVideo_console_witness :
  let st := mkState outstream_request [] in
  isBidRequestValid st
  = (Ok false,
     logged Error "failed validation: only context instream is supported " st)
  /\ console (logged Error "failed validation: only context instream is supported " st)
     = [(Error, "failed validation: only context instream is supported ")].
Proof.
  cbv zeta. split; [reflexivity|].
  destruct (validateVideo_console (mkState outstream_request [])
              (logged Error "failed validation: only context instream is supported "
                 (mkState outstream_request []))
              false eq_refl) as [_ H].
  destruct (H eq_refl) as [[H1 _] | [[H1 _] | [(_ & H1 & _) | [(_ & _ & _ & H1) | H1]]]];
    try discriminate H1.
  - reflexivity.
  - destruct H1 as (_ & _ & H1 & _). discriminate H1.
Defined.

(** X8.  [interpretResponse] throws exactly when the body has a [seatbid]
    of length 1 whose one seat is [null] or [undefined], or whose one seat
    has a [bid] of length 1 whose one entry is; it then has written nothing
    to the console. *)
Theorem interpretResponse_throws_iff (serverResponse bidRequest : value)
    (st : state) :
  let response := body_of serverResponse in
  let seatbid := response @ "seatbid" in
  let bids := seatbid @ "0" @ "bid" in
  (fst (interpretResponse serverResponse bidRequest st) = Throw
   <-> (truthy response = true /\ truthy seatbid = true
        /\ is_num (seatbid @ "length") 1 = true
        /\ (nullish (seatbid @ "0") = true
            \/ (truthy bids = true /\ is_num (bids @ "length") 1 = true
                /\ nullish (bids @ "0") = true))))
  /\ (fst (interpretResponse serverResponse bidRequest st) = Throw ->
      snd (interpretResponse serverResponse bidRequest st) = st).
Proof.
  cbv zeta. rewrite interpretResponse_eq. cbv zeta.
  set (response := body_of serverResponse).
  destruct (truthy response); cbn [andb].
  2:{ cbn [fst snd]. repeat split; try discriminate. intros (H & _). discriminate H. }
  destruct (truthy (response @ "seatbid")); cbn [andb].
  2:{ cbn [fst snd]. repeat split; try discriminate.
      intros (_ & H & _). discriminate H. }
  destruct (is_num (response @ "seatbid" @ "length") 1).
  2:{ cbn [fst snd]. repeat split; try discriminate.
      intros (_ & _ & H & _). discriminate H. }
  destruct (nullish (response @ "seatbid" @ "0")) eqn:H0.
  { cbn [fst snd]. repeat split; auto. }
  destruct (truthy (response @ "seatbid" @ "0" @ "bid")); cbn [andb].
  2:{ cbn [fst snd]. repeat split; try discriminate.
      intros (_ & _ & _ & [H | (H & _)]); discriminate H. }
  destruct (is_num (response @ "seatbid" @ "0" @ "bid" @ "length") 1).
  2:{ cbn [fst snd]. repeat split; try discriminate.
      intros (_ & _ & _ & [H | (_ & H & _)]); discriminate H. }
  destruct (nullish (response @ "seatbid" @ "0" @ "bid" @ "0")).
  { cbn [fst snd]. repeat split; auto. }
  cbn [fst snd]. repeat split; try discriminate.
  intros (_ & _ & _ & [H | (_ & _ & H)]); discriminate H.
Qed.

(** ** The builder's console, batches, and building twice *)

Lemma test_mode_flag (r : value) :
  negb (nullish (r @ "params")) && truthy (e2etest r) = truthy (e2etest r).
Proof.
  destruct (truthy (e2etest r)) eqn:He; [|apply andb_false_r].
  now rewrite (e2etest_params _ He).
Qed.

(** X9.  The builder writes the line ["E2E test mode enabled"] exactly when
    [params.video.e2etest] is truthy, before it builds the body: the line is
    there also when the builder then throws.  It writes nothing else. *)
Theorem buildRequest_console (env : page) (getFloor : option floor_fn) (st : state) :
  console (snd (buildRequest env getFloor st))
  = if truthy (e2etest (bidReq st)) then TEST_MODE_LINE :: console st
    else console st.
Proof.
  rewrite buildRequest_eq. cbv zeta. cbn [snd console].
  now rewrite test_mode_flag.
Qed.

Lemma repeat_middle {A : Type} (x : A) (n : nat) (l : list A) :
  (repeat x n ++ x :: l = x :: repeat x n ++ l)%list.
Proof. induction n as [|n IH]; simpl; [reflexivity|now rewrite IH]. Qed.

Lemma map_bidRequests_eq (env : page) (brs : list bid_request)
    (con : list (level * string)) :
  forallb builds brs = true ->
  map_bidRequests env brs con
  = (Ok (map (descriptor_of env) brs),
     (map (fun br => after_build (request br)) brs,
      (repeat TEST_MODE_LINE (List.length (filter test_mode brs)) ++ con)%list)).
Proof.
  revert con. induction brs as [|br brs IH]; intros con H; [reflexivity|].
  cbn [forallb] in H. apply andb_prop in H as [Hb Hrest].
  cbn [map_bidRequests]. rewrite buildRequest_eq. cbv zeta. cbn [bidReq console].
  unfold builds in Hb. rewrite Hb, test_mode_flag.
  rewrite (IH _ Hrest). cbn [map filter]. unfold test_mode at 2, descriptor_of at 2.
  destruct (truthy (e2etest (request br))); cbn [List.length repeat];
    [now rewrite repeat_middle|reflexivity].
Qed.

Lemma map_bidRequests_throws (env : page) (brs : list bid_request)
    (con : list (level * string)) :
  forallb builds brs = false -> fst (map_bidRequests env brs con) = Throw.
Proof.
  revert con. induction brs as [|br brs IH]; intros con H; [discriminate H|].
  cbn [forallb] in H. cbn [map_bidRequests]. rewrite buildRequest_eq. cbv zeta.
  unfold builds in H at 1. cbn [bidReq console].
  destruct (buildable (floor br) (request br)); [|reflexivity].
  cbn [andb] in H.
  specialize (IH (if negb (nullish (request br @ "params"))
                       && truthy (e2etest (request br))
                  then (Message, "E2E test mode enabled") :: con else con) H).
  now destruct (map_bidRequests env brs _) as [[ds|] [bs con']].
Qed.

Lemma built_alone_eq (env : page) (br : bid_request) :
  built_alone env br = if builds br then Some (descriptor_of env br) else None.
Proof.
  unfold built_alone, builds, descriptor_of. rewrite buildRequest_eq. cbv zeta.
  cbn [fst bidReq]. now destruct (buildable (floor br) (request br)).
Qed.

Lemma all_built_alone (env : page) (brs : list bid_request) :
  all_some (map (built_alone env) brs)
  = if forallb builds brs then Some (map (descriptor_of env) brs) else None.
Proof.
  induction brs as [|br brs IH]; [reflexivity|].
  cbn [map all_some forallb]. rewrite built_alone_eq, IH.
  destruct (builds br); [|reflexivity]. now destruct (forallb builds brs).
Qed.

(** X10.  [buildRequests] returns [undefined] on a falsy argument.  On a
    list it returns one descriptor for each bid request, in order, each the
    one the builder returns on that bid request taken alone, when the builder
    returns on every one of them, and throws, returning no descriptor at all,
    as soon as it throws on one.  When it returns, every bid request is left
    as a build leaves it and the console has one line for each bid request in
    test mode. *)
Theorem buildRequests_batch (env : page) (brs : list bid_request)
    (con : list (level * string)) :
  buildRequests env None con = (Ok None, ([], con))
  /\ fst (buildRequests env (Some brs) con)
     = match all_some (map (built_alone env) brs) with
       | Some ds => Ok (Some ds)
       | None => Throw
       end
  /\ (forallb builds brs = true <->
      exists ds, fst (buildRequests env (Some brs) con) = Ok (Some ds))
  /\ (forallb builds brs = true ->
      snd (buildRequests env (Some brs) con)
      = (map (fun br => after_build (request br)) brs,
         (repeat TEST_MODE_LINE (List.length (filter test_mode brs)) ++ con)%list)).
Proof.
  split; [reflexivity|].
  assert (H : fst (buildRequests env (Some brs) con)
              = if forallb builds brs
                then Ok (Some (map (descriptor_of env) brs)) else Throw).
  { unfold buildRequests. destruct (forallb builds brs) eqn:H.
    - now rewrite (map_bidRequests_eq _ _ _ H).
    - pose proof (map_bidRequests_throws env brs con H) as Ht.
      destruct (map_bidRequests env brs con) as [[ds|] out]; [discriminate Ht|].
      reflexivity. }
  split; [|split].
  - rewrite H, all_built_alone. now destruct (forallb builds brs).
  - rewrite H. destruct (forallb builds brs); split; eauto; try discriminate.
    intros [ds Hd]. discriminate Hd.
  - intros Hb. unfold buildRequests. now rewrite (map_bidRequests_eq _ _ _ Hb).
Qed.

(** X10, witness. *)
Lemma buildRequests_batch_witness :
  let brs := [mkBidRequest (instream_request (arr [arr [num 640; num 480]])) None;
              mkBidRequest (test_request (arr [arr [num 1920; num 1080]])) None] in
  snd (buildRequests example_page (Some brs) [])
  = ([instream_request (arr [arr [num 640; num 480]]);
      override (test_request (arr [arr [num 1920; num 1080]]))],
     [TEST_MODE_LINE]).
Proof.
  cbv zeta.
  exact (proj2 (proj2 (proj2 (buildRequests_batch example_page
                                [mkBidRequest
                                   (instream_request (arr [arr [num 640; num 480]]))
                                   None;
                                 mkBidRequest
                                   (test_request (arr [arr [num 1920; num 1080]]))
                                   None] [])))
           eq_refl).
Defined.

(** *** Building twice *)

Lemma assoc_set_id (k : string) (x : value) (ps : list (string * value)) :
  assoc k ps = Some x -> assoc_set k x ps = ps.
Proof.
  induction ps as [|[k' v] ps IH]; [discriminate|]. simpl.
  destruct (k' =? k)%string eqn:E.
  - now intros [= ->].
  - intros H. now rewrite IH.
Qed.

(** Writing the two test-mode properties a second time changes nothing. *)
Lemma test_writes_idempotent (v : value) :
  let V := set_prop (set_prop v "playerSize" TEST_PLAYER_SIZE) "conext" (VStr "instream") in
  set_prop (set_prop V "playerSize" TEST_PLAYER_SIZE) "conext" (VStr "instream") = V.
Proof.
  cbv zeta. destruct v as [| | | | |l ex|ps]; try reflexivity; cbn [set_prop].
  - rewrite (assoc_set_id "playerSize")
      by (rewrite assoc_set_other by reflexivity; apply assoc_set_same).
    now rewrite assoc_set_twice.
  - rewrite (assoc_set_id "playerSize")
      by (rewrite assoc_set_other by reflexivity; apply assoc_set_same).
    now rewrite assoc_set_twice.
Qed.

Lemma override_idempotent (r : value) :
  is_object (r @ "mediaTypes" @ "video") = true -> override (override r) = override r.
Proof.
  intros Hv. pose proof (is_object_not_nullish _ Hv) as Hn.
  assert (Hm : is_object (r @ "mediaTypes") = true)
    by (now apply (plain_prop_is_object _ "video")).
  assert (Hr : is_object r = true).
  { apply (plain_prop_is_object _ "mediaTypes"); [reflexivity|].
    now apply is_object_not_nullish. }
  unfold override at 1. cbv zeta. rewrite (override_video _ Hv).
  rewrite test_writes_idempotent.
  unfold override. cbv zeta.
  rewrite (prop_set_same _ "mediaTypes") by (assumption || reflexivity).
  now rewrite !set_prop_twice.
Qed.

Lemma after_build_e2etest (r : value) : e2etest (after_build r) = e2etest r.
Proof. unfold e2etest. now rewrite after_build_other. Qed.

Lemma after_build_idempotent (r : value) : after_build (after_build r) = after_build r.
Proof.
  destruct (truthy (e2etest r)) eqn:He.
  - destruct (is_object (r @ "mediaTypes" @ "video")) eqn:Hv.
    + rewrite (after_build_test _ He Hv).
      rewrite after_build_test; [now apply override_idempotent| |].
      * unfold e2etest. rewrite override_params by reflexivity. exact He.
      * rewrite (override_video _ Hv). now rewrite !is_object_set_prop.
    + assert (H : after_build r = r)
        by (unfold after_build; now rewrite Hv, andb_false_r).
      now rewrite !H.
  - now rewrite !(after_build_no_test _ He).
Qed.

Lemma publisher_of_after_build (r : value) :
  publisher_of (after_build r) = publisher_of r.
Proof.
  unfold publisher_of. rewrite after_build_e2etest.
  now rewrite (after_build_other r "params") by reflexivity.
Qed.

Lemma buildable_after_build (getFloor : option floor_fn) (r : value) :
  buildable getFloor (after_build r) = buildable getFloor r.
Proof.
  unfold buildable, body_buildable.
  rewrite publisher_of_after_build, after_build_idempotent, after_build_e2etest.
  rewrite (after_build_other r "params") by reflexivity.
  do 5 f_equal. f_equal.
  destruct (truthy (e2etest r)) eqn:He; [|reflexivity]. cbn [negb orb].
  destruct (is_object (r @ "mediaTypes" @ "video")) eqn:Hv.
  - rewrite (after_build_test _ He Hv), (override_video _ Hv).
    now rewrite !is_object_set_prop.
  - unfold after_build. now rewrite Hv, andb_false_r.
Qed.

Lemma validateVideo_after_build (st : state) (con : list (level * string)) :
  fst (validateVideo (mkState (after_build (bidReq st)) con)) = fst (validateVideo st).
Proof.
  destruct (truthy (e2etest (bidReq st))) eqn:He.
  - rewrite !validateVideo_eq. cbv zeta. cbn [bidReq].
    rewrite after_build_e2etest, He.
    pose proof (prop_not_nullish _ _ (e2etest_params _ He)) as Hr. rewrite Hr.
    assert (Hr' : nullish (after_build (bidReq st)) = false).
    { apply (prop_not_nullish _ "params").
      rewrite after_build_other by reflexivity. now apply e2etest_params. }
    now rewrite Hr'.
  - rewrite (after_build_no_test _ He). rewrite !validateVideo_eq. cbv zeta.
    cbn [bidReq].
    repeat match goal with
           | |- context [if ?c then _ else _] => destruct c
           end; reflexivity.
Qed.

(** X11.  Building is repeatable.  A second build on the bid request a
    first build has left gives what the first gave, the same descriptor or
    the same exception, and leaves the bid request as the first build left
    it; and the validator's verdict on a bid request is the same after a
    build as before. *)
Theorem buildRequest_twice (env : page) (getFloor : option floor_fn) (st : state) :
  let st1 := snd (buildRequest env getFloor st) in
  fst (buildRequest env getFloor st1) = fst (buildRequest env getFloor st)
  /\ bidReq (snd (buildRequest env getFloor st1)) = bidReq st1
  /\ fst (isBidRequestValid st1) = fst (isBidRequestValid st).
Proof.
  cbv zeta. split; [|split].
  - rewrite !buildRequest_eq. cbv zeta. cbn [fst snd bidReq].
    now rewrite buildable_after_build, after_build_idempotent,
      publisher_of_after_build.
  - rewrite !buildRequest_bid. apply after_build_idempotent.
  - unfold isBidRequestValid. rewrite buildRequest_eq. cbv zeta. cbn [snd].
    apply validateVideo_after_build.
Qed.

(** ** The members of the wire body *)

Lemma jpath_app (j : json) (p q : list step) :
  jpath j (p ++ q)
  = match jpath j p with Some j' => jpath j' q | None => None end.
Proof.
  revert j. induction p as [|[k|i] p IH]; intros j; [reflexivity| |]; cbn [app jpath].
  - destruct j; try reflexivity. destruct (jassoc k members); [apply IH|reflexivity].
  - destruct j; try reflexivity. destruct (nth_error items i); [apply IH|reflexivity].
Qed.

Lemma assoc_keys (k : string) (ps : list (string * value)) :
  In k (map fst ps) <-> assoc k ps <> None.
Proof.
  induction ps as [|[k' v] ps IH]; simpl; [tauto|].
  destruct (String.eqb_spec k' k) as [->|Hne].
  - split; [discriminate|auto].
  - rewrite <- IH. tauto.
Qed.

Lemma has_own_keys (v : value) (k : string) :
  is_record v = true -> has_own v k = true <-> In k (keys v).
Proof.
  destruct v as [| | | | | |ps]; try discriminate. intros _. cbn [has_own keys].
  rewrite assoc_keys. destruct (assoc k ps); split; congruence.
Qed.

(** A member that is written has a key of the object. *)
Lemma jassoc_keys (k : string) (ps : list (string * value)) (j : json) :
  jassoc k (flat_map stringify_member ps) = Some j -> In k (map fst ps).
Proof.
  induction ps as [|[k' v] ps IH]; [discriminate|].
  cbn [flat_map stringify_member map fst].
  destruct (JSON_stringify v); cbn [app jassoc]; [|intros H; right; auto].
  destruct (String.eqb_spec k' k); [now left|intros H; right; auto].
Qed.

(** An object whose keys are distinct is written member by member. *)
Lemma jassoc_nodup (k : string) (ps : list (string * value)) :
  NoDup (map fst ps) ->
  jassoc k (flat_map stringify_member ps)
  = match assoc k ps with Some x => JSON_stringify x | None => None end.
Proof.
  induction ps as [|[k' v] ps IH]; [reflexivity|].
  cbn [map fst]. intros H. inversion H as [|? ? Hnotin Hnd]; subst.
  cbn [flat_map stringify_member assoc].
  destruct (String.eqb_spec k' k) as [->|Hne].
  - destruct (JSON_stringify v) eqn:Hj; cbn [app jassoc].
    + now rewrite String.eqb_refl.
    + apply jassoc_no_member. destruct (assoc k ps) eqn:Ha; [|reflexivity].
      elim Hnotin. apply assoc_keys. congruence.
  - destruct (JSON_stringify v); cbn [app jassoc]; [|now apply IH].
    destruct (String.eqb_spec k' k); [contradiction|now apply IH].
Qed.

Lemma assoc_set_keys (k : string) (x : value) (ps : list (string * value))
    (k' : string) :
  In k' (map fst (assoc_set k x ps)) <-> k' = k \/ In k' (map fst ps).
Proof.
  induction ps as [|[k0 v] ps IH]; simpl; [intuition|].
  destruct (String.eqb_spec k0 k) as [->|Hne]; simpl; [intuition|].
  rewrite IH. intuition.
Qed.

Lemma assoc_set_nodup (k : string) (x : value) (ps : list (string * value)) :
  NoDup (map fst ps) -> NoDup (map fst (assoc_set k x ps)).
Proof.
  induction ps as [|[k0 v] ps IH]; simpl.
  - intros _. constructor; [auto|constructor].
  - intros H. inversion H as [|? ? Hnotin Hnd]; subst.
    destruct (String.eqb_spec k0 k) as [->|Hne]; simpl.
    + now constructor.
    + constructor; [|now apply IH].
      rewrite assoc_set_keys. intros [E | Hin]; [now subst|contradiction].
Qed.

Lemma set_prop_nodup (o : value) (k : string) (x : value) :
  NoDup (keys o) -> NoDup (keys (set_prop o k x)).
Proof.
  destruct o; cbn [set_prop keys]; auto. apply assoc_set_nodup.
Qed.

Lemma copy_all_nodup (mv : value) (l : list string) (v : value) :
  NoDup (keys v) -> NoDup (keys (copy_all mv l v)).
Proof.
  unfold copy_all. revert v. induction l as [|a l IH]; intros v Hv; [exact Hv|].
  cbn [fold_left]. apply IH. destruct (has_own mv a); [|exact Hv].
  now apply set_prop_nodup.
Qed.

Lemma video_object_nodup (r : value) : NoDup (keys (video_object r)).
Proof.
  rewrite video_object_unfold. unfold instream_placement, default_placement.
  assert (H : NoDup (keys (video_copied r))).
  { unfold video_copied. apply copy_all_nodup. unfold video_size. cbn [keys map fst].
    constructor; [|constructor; [|constructor]]; simpl; intuition discriminate. }
  destruct (is_str _ _); now repeat apply set_prop_nodup.
Qed.

(** Reading a member of the document written for a record. *)
Lemma record_member (v : value) (k : string) :
  is_record v = true -> NoDup (keys v) ->
  opath (JSON_stringify v) [Key k]
  = if has_own v k then JSON_stringify (v @ k) else None.
Proof.
  destruct v as [| | | | | |ps]; try discriminate. intros _ Hnd.
  rewrite JSON_stringify_obj. cbn [opath jpath keys has_own prop] in *.
  rewrite (jassoc_nodup _ _ Hnd).
  destruct (assoc k ps) as [x|]; [|reflexivity]. cbn [or_undefined].
  now destruct (JSON_stringify x).
Qed.

(** Every member of [imp[0].video] in the wire body is the member of the
    [video] object, as [JSON.stringify] writes it. *)
Lemma body_video_value (env : page) (getFloor : option floor_fn) (r : value)
    (k : string) (m u : string) :
  body_path (mkDescriptor m u (JSON_stringify (wire_request env getFloor r)))
    (VIDEO_FIELD k)
  = if has_own (video_object r) k then JSON_stringify (video_object r @ k) else None.
Proof.
  pose proof (video_object_record r) as Hrec.
  assert (Hv : vpath (wire_request env getFloor r) [Key "imp"; Idx 0; Key "video"]
               = Some (video_object r)) by apply wire_request_video.
  rewrite <- (record_member _ _ Hrec (video_object_nodup r)).
  destruct (video_object r) as [| | | | | |ps] eqn:E; try discriminate Hrec.
  destruct (jpath_stringify _ _ _ _ Hv (JSON_stringify_obj ps)) as (j0 & H0 & Hp).
  unfold body_path. cbn [data]. rewrite H0.
  change (VIDEO_FIELD k) with ([Key "imp"; Idx 0; Key "video"] ++ [Key k])%list.
  rewrite jpath_app, Hp. now rewrite JSON_stringify_obj.
Qed.

Lemma In_listed (k : string) (l : list string) :
  In k l <-> existsb (String.eqb k) l = true.
Proof.
  rewrite existsb_exists. split.
  - intros H. exists k. split; [exact H|apply String.eqb_refl].
  - intros (x & Hx & E). apply String.eqb_eq in E. now subst.
Qed.

Lemma video_copied_has_own (r : value) (k : string) :
  has_own (video_copied r) k
  = (existsb (String.eqb k) VIDEO_ORTB_PARAMS
     && has_own (r @ "mediaTypes" @ "video") k)
    || ((k =? "w")%string || (k =? "h")%string).
Proof.
  unfold video_copied. rewrite copy_all_has_own by reflexivity. f_equal.
  unfold video_size. cbn [has_own assoc].
  rewrite (String.eqb_sym k "w"), (String.eqb_sym k "h").
  destruct ("w" =? k)%string; [reflexivity|].
  now destruct ("h" =? k)%string.
Qed.

Lemma video_object_has_own_other (r : value) (k : string) :
  ("placement" =? k)%string = false -> ("startdelay" =? k)%string = false ->
  has_own (video_object r) k = has_own (video_copied r) k.
Proof.
  intros Hp Hs. rewrite video_object_unfold.
  unfold instream_placement, default_placement.
  destruct (is_str _ _); now rewrite ?has_own_set_other by assumption.
Qed.

(** The [video] object has the two sizes and listed parameters, nothing
    else. *)
Lemma video_object_has_own (r : value) (k : string) :
  has_own (video_object r) k = true -> In k ("w" :: "h" :: VIDEO_ORTB_PARAMS).
Proof.
  intros H. apply In_listed.
  destruct (String.eqb_spec "placement" k) as [<-|Hp]; [reflexivity|].
  destruct (String.eqb_spec "startdelay" k) as [<-|Hs]; [reflexivity|].
  apply String.eqb_neq in Hp, Hs.
  rewrite (video_object_has_own_other _ _ Hp Hs), video_copied_has_own in H.
  cbn [existsb].
  destruct (k =? "w")%string; [reflexivity|].
  destruct (k =? "h")%string; [reflexivity|]. cbn [orb] in H |- *.
  rewrite orb_false_r in H. now apply andb_prop in H as [H _].
Qed.

(** A listed parameter other than the two the placement rules write is in
    the [video] object exactly when the ad unit has it, with its value. *)
Lemma video_object_param (r : value) (k : string) :
  In k VIDEO_ORTB_PARAMS -> k <> "placement" -> k <> "startdelay" ->
  let mv := r @ "mediaTypes" @ "video" in
  has_own (video_object r) k = has_own mv k
  /\ (has_own mv k = true -> video_object r @ k = mv @ k).
Proof.
  intros Hin Hp Hs. cbv zeta.
  assert (Hl : existsb (String.eqb k) VIDEO_ORTB_PARAMS = true) by (now apply In_listed).
  assert (Hwh : has_own (video_size r) k = false).
  { simpl in Hin. repeat destruct Hin as [<- | Hin]; try reflexivity; contradiction. }
  assert (Hp' : ("placement" =? k)%string = false) by (apply String.eqb_neq; congruence).
  assert (Hs' : ("startdelay" =? k)%string = false) by (apply String.eqb_neq; congruence).
  rewrite video_object_unfold. unfold instream_placement, default_placement.
  destruct (is_str _ _);
    rewrite ?has_own_set_other, ?prop_set_other by assumption;
    unfold video_copied; rewrite copy_all_has_own, copy_all_prop by reflexivity;
    rewrite Hl, Hwh; cbn [andb]; rewrite orb_false_r; split; try reflexivity;
    now intros ->.
Qed.

(** What the test-mode override leaves of [mediaTypes.video]. *)
Lemma after_build_video_other (r : value) (k : string) :
  ("playerSize" =? k)%string = false -> ("conext" =? k)%string = false ->
  after_build r @ "mediaTypes" @ "video" @ k = r @ "mediaTypes" @ "video" @ k
  /\ has_own (after_build r @ "mediaTypes" @ "video") k
     = has_own (r @ "mediaTypes" @ "video") k.
Proof.
  intros H1 H2. unfold after_build.
  destruct (truthy (e2etest r)); cbn [andb]; [|auto].
  destruct (is_object (r @ "mediaTypes" @ "video")) eqn:Hv; [|auto].
  now apply override_video_other.
Qed.

(** X12.  Of the ad unit's [mediaTypes.video], the builder forwards the
    OpenRTB parameters of its list and nothing else: a listed parameter
    (other than [placement] and [startdelay], which the placement rules
    write) is in [imp[0].video] exactly when the ad unit has it as its own
    property, with its value as [JSON.stringify] writes it; and
    [imp[0].video] has no member beside [w], [h] and the listed names
    ([context], [playerSize] and the like are never sent). *)
Theorem build_video_parameters (env : page) (getFloor : option floor_fn)
    (st : state) :
  let r := bidReq st in
  let mv := r @ "mediaTypes" @ "video" in
  buildable getFloor r = true ->
  exists d,
    fst (buildRequest env getFloor st) = Ok d
    /\ (forall k,
          In k VIDEO_ORTB_PARAMS -> k <> "placement" -> k <> "startdelay" ->
          body_path d (VIDEO_FIELD k)
          = if has_own mv k then JSON_stringify (mv @ k) else None)
    /\ (forall k,
          ~ In k ("w" :: "h" :: VIDEO_ORTB_PARAMS) ->
          body_path d (VIDEO_FIELD k) = None).
Proof.
  cbv zeta. intros Hb.
  eexists. split; [apply (buildRequest_returns _ _ _ Hb)|]. split.
  - intros k Hin Hp Hs. rewrite body_video_value.
    destruct (video_object_param (after_build (bidReq st)) k Hin Hp Hs) as [Hown Hval].
    assert (Hk : ("playerSize" =? k)%string = false /\ ("conext" =? k)%string = false).
    { simpl in Hin. repeat destruct Hin as [<- | Hin]; try (split; reflexivity);
        contradiction. }
    destruct Hk as [Hk1 Hk2].
    destruct (after_build_video_other (bidReq st) k Hk1 Hk2) as [Hv Ho].
    rewrite Hown, Ho.
    destruct (has_own (bidReq st @ "mediaTypes" @ "video") k) eqn:E; [|reflexivity].
    rewrite Hval by (now rewrite Ho). now rewrite Hv.
  - intros k Hk. rewrite body_video_value.
    destruct (has_own (video_object (after_build (bidReq st))) k) eqn:E;
      [|reflexivity].
    elim Hk. now apply video_object_has_own in E.
Qed.

(** X12, witness. *)
Lemma build_video_parameters_witness :
  exists d,
    fst (buildRequest example_page None (mkState (tuned_request VUndefined) [])) = Ok d
    /\ body_path d (VIDEO_FIELD "skip") = Some (JNum 1)
    /\ body_path d (VIDEO_FIELD "mimes") = Some (JArr [JStr "video/mp4"])
    /\ body_path d (VIDEO_FIELD "api") = None
    /\ body_path d (VIDEO_FIELD "context") = None
    /\ body_path d (VIDEO_FIELD "playerSize") = None.
Proof.
  destruct (build_video_parameters example_page None
              (mkState (tuned_request VUndefined) []) eq_refl)
    as (d & Hd & Hlisted & Hother).
  exists d. split; [exact Hd|].
  split; [apply (Hlisted "skip"); [simpl; tauto|discriminate|discriminate]|].
  split; [apply (Hlisted "mimes"); [simpl; tauto|discriminate|discriminate]|].
  split; [apply (Hlisted "api"); [simpl; tauto|discriminate|discriminate]|].
  split; apply Hother; simpl; intuition discriminate.
Defined.

(** The placement and the start delay of the [video] object. *)
Lemma video_object_placement_value (r : value) :
  let mv := r @ "mediaTypes" @ "video" in
  video_object r @ "placement"
  = if is_str (r @ "params" @ "context") "instream" then num 1
    else if has_own mv "placement" && truthy (mv @ "placement")
         then mv @ "placement" else num 2.
Proof.
  cbv zeta. rewrite video_object_unfold. unfold instream_placement, default_placement.
  pose proof (video_copied_record r) as Hrec.
  destruct (is_str _ _).
  - apply prop_set_same_record. now rewrite !is_record_set_prop.
  - rewrite (prop_set_same_record _ _ _ Hrec).
    unfold video_copied. rewrite copy_all_prop by reflexivity.
    change (existsb (String.eqb "placement") VIDEO_ORTB_PARAMS) with true.
    cbn [andb].
    destruct (has_own (r @ "mediaTypes" @ "video") "placement"); [reflexivity|].
    reflexivity.
Qed.

Lemma video_object_startdelay_value (r : value) :
  let mv := r @ "mediaTypes" @ "video" in
  (if has_own (video_object r) "startdelay"
   then JSON_stringify (video_object r @ "startdelay") else None)
  = if is_str (r @ "params" @ "context") "instream"
    then JSON_stringify (if has_own mv "startdelay" && truthy (mv @ "startdelay")
                         then mv @ "startdelay" else num 0)
    else if has_own mv "startdelay" then JSON_stringify (mv @ "startdelay") else None.
Proof.
  cbv zeta. rewrite video_object_unfold. unfold instream_placement.
  set (V := default_placement (video_copied r)).
  assert (HV : is_record V = true).
  { unfold V, default_placement. rewrite is_record_set_prop.
    apply video_copied_record. }
  assert (Hval : V @ "startdelay"
                 = if has_own (r @ "mediaTypes" @ "video") "startdelay"
                   then r @ "mediaTypes" @ "video" @ "startdelay" else VUndefined).
  { unfold V, default_placement. rewrite prop_set_other by reflexivity.
    unfold video_copied. rewrite copy_all_prop by reflexivity.
    now change (existsb (String.eqb "startdelay") VIDEO_ORTB_PARAMS) with true. }
  assert (Hown : has_own V "startdelay"
                 = has_own (r @ "mediaTypes" @ "video") "startdelay").
  { unfold V, default_placement. rewrite has_own_set_other by reflexivity.
    unfold video_copied. rewrite copy_all_has_own by reflexivity.
    change (existsb (String.eqb "startdelay") VIDEO_ORTB_PARAMS) with true.
    cbn [andb]. apply orb_false_r. }
  destruct (is_str _ _).
  - rewrite has_own_set_other by reflexivity.
    rewrite (prop_set_other _ "placement" "startdelay") by reflexivity.
    rewrite (has_own_set_same_record _ _ _ HV), (prop_set_same_record _ _ _ HV).
    rewrite Hval.
    now destruct (has_own (r @ "mediaTypes" @ "video") "startdelay").
  - rewrite Hown, Hval.
    now destruct (has_own (r @ "mediaTypes" @ "video") "startdelay").
Qed.

(** X13.  The placement rules in full.  [imp[0].video.placement] is 1 when
    [params.context] is ["instream"]; otherwise it is the ad unit's own
    [placement] when that is truthy, and 2 when the ad unit has none or a
    falsy one (0 included).  [imp[0].video.startdelay] is, when
    [params.context] is ["instream"], the ad unit's own [startdelay] when that
    is truthy and 0 otherwise; for another context it is sent as the ad unit
    has it, and left out when the ad unit has none. *)
Theorem placement_table (env : page) (getFloor : option floor_fn)
    (st : state) :
  let r := bidReq st in
  let mv := r @ "mediaTypes" @ "video" in
  let instream := is_str (r @ "params" @ "context") "instream" in
  buildable getFloor r = true ->
  exists d,
    fst (buildRequest env getFloor st) = Ok d
    /\ body_path d PLACEMENT
       = JSON_stringify
           (if instream then num 1
            else if has_own mv "placement" && truthy (mv @ "placement")
                 then mv @ "placement" else num 2)
    /\ body_path d STARTDELAY
       = (if instream
          then JSON_stringify
                 (if has_own mv "startdelay" && truthy (mv @ "startdelay")
                  then mv @ "startdelay" else num 0)
          else if has_own mv "startdelay" then JSON_stringify (mv @ "startdelay")
               else None).
Proof.
  cbv zeta. intros Hb.
  eexists. split; [apply (buildRequest_returns _ _ _ Hb)|].
  set (r' := after_build (bidReq st)).
  destruct (after_build_video_other (bidReq st) "placement" eq_refl eq_refl)
    as [Hpv Hpo].
  destruct (after_build_video_other (bidReq st) "startdelay" eq_refl eq_refl)
    as [Hsv Hso].
  assert (Hc : r' @ "params" = bidReq st @ "params")
    by (now apply after_build_other).
  split.
  - change PLACEMENT with (VIDEO_FIELD "placement"). rewrite body_video_value.
    rewrite (proj1 (video_object_placement r')).
    rewrite video_object_placement_value. cbv zeta.
    fold r' in Hpv, Hpo. now rewrite Hc, Hpv, Hpo.
  - change STARTDELAY with (VIDEO_FIELD "startdelay"). rewrite body_video_value.
    rewrite video_object_startdelay_value. cbv zeta.
    fold r' in Hsv, Hso. now rewrite Hc, Hsv, Hso.
Qed.

(** X13, witness. *)
Lemma placement_table_witness :
  (exists d,
     fst (buildRequest example_page None (mkState (tuned_request VUndefined) [])) = Ok d
     /\ body_path d PLACEMENT = Some (JNum 3)
     /\ body_path d STARTDELAY = Some (JNum 5))
  /\ (exists d,
        fst (buildRequest example_page None
               (mkState (tuned_request (VStr "instream")) [])) = Ok d
        /\ body_path d PLACEMENT = Some (JNum 1)
        /\ body_path d STARTDELAY = Some (JNum 5)).
Proof.
  split.
  - exact (placement_table example_page None
             (mkState (tuned_request VUndefined) []) eq_refl).
  - exact (placement_table example_page None
             (mkState (tuned_request (VStr "instream")) []) eq_refl).
Defined.

(** The sizes of the wire body. *)
Lemma body_size (env : page) (getFloor : option floor_fn) (r : value) (m u : string) :
  let first := r @ "mediaTypes" @ "video" @ "playerSize" @ "0" in
  body_path (mkDescriptor m u (JSON_stringify (wire_request env getFloor r))) WIDTH
  = JSON_stringify (VNum (parseInt (first @ "0")))
  /\ body_path (mkDescriptor m u (JSON_stringify (wire_request env getFloor r))) HEIGHT
     = JSON_stringify (VNum (parseInt (first @ "1"))).
Proof.
  cbv zeta.
  change WIDTH with (VIDEO_FIELD "w"). change HEIGHT with (VIDEO_FIELD "h").
  rewrite !body_video_value.
  destruct (video_object_size r "w" eq_refl) as [-> ->].
  destruct (video_object_size r "h" eq_refl) as [-> ->].
  split; reflexivity.
Qed.

(** X14.  The player size forms the builder takes, without the test-mode
    flag.  Sizes given as the strings of decimal digits of safe integers are
    sent as these numbers.  A
    flat [playerSize], [[w, h]] written without the outer array (a form the
    validator accepts, as it only asks for an array), gives
    [imp[0].video.w] and [imp[0].video.h] [null]: the builder reads
    [playerSize[0][0]] and [playerSize[0][1]] of a number. *)
Theorem player_size_forms (env : page) (getFloor : option floor_fn)
    (st : state) :
  let r := bidReq st in
  let playerSize := r @ "mediaTypes" @ "video" @ "playerSize" in
  buildable getFloor r = true ->
  truthy (e2etest r) = false ->
  exists d,
    fst (buildRequest env getFloor st) = Ok d
    /\ (forall w h,
          safe_integer w = true -> safe_integer h = true ->
          playerSize = arr [arr [VStr (to_string (num w)); VStr (to_string (num h))]] ->
          body_path d WIDTH = Some (JNum w) /\ body_path d HEIGHT = Some (JNum h))
    /\ (forall a rest ex,
          playerSize = VArr (VNum a :: rest) ex ->
          isArray playerSize = true
          /\ body_path d WIDTH = Some JNull /\ body_path d HEIGHT = Some JNull).
Proof.
  cbv zeta. intros Hb He.
  eexists. split; [apply (buildRequest_returns _ _ _ Hb)|].
  rewrite (after_build_no_test _ He).
  destruct (body_size env getFloor (bidReq st) "POST"
              (ENDPOINT_URL ++ "/" ++ to_string (publisher_of (bidReq st))))
    as [Hw Hh].
  cbv zeta in Hw, Hh. rewrite Hw, Hh. split.
  - intros w h Sw Sh ->.
    change (arr [arr [VStr (to_string (num w)); VStr (to_string (num h))]] @ "0" @ "0")
      with (VStr (to_string (num w))).
    change (arr [arr [VStr (to_string (num w)); VStr (to_string (num h))]] @ "0" @ "1")
      with (VStr (to_string (num h))).
    change (parseInt (VStr (to_string (num w)))) with (parseInt (num w)).
    change (parseInt (VStr (to_string (num h)))) with (parseInt (num h)).
    now rewrite (parseInt_num _ Sw), (parseInt_num _ Sh).
  - intros a rest ex ->. repeat split.
Qed.

(** X14, witness. *)
Lemma player_size_forms_witness :
  (exists d,
     fst (buildRequest example_page None
            (mkState (instream_request (arr [arr [VStr "640"; VStr "480"]])) [])) = Ok d
     /\ body_path d WIDTH = Some (JNum 640) /\ body_path d HEIGHT = Some (JNum 480))
  /\ (exists d,
        fst (buildRequest example_page None
               (mkState (instream_request (arr [num 640; num 480])) [])) = Ok d
        /\ body_path d WIDTH = Some JNull /\ body_path d HEIGHT = Some JNull).
Proof.
  split.
  - destruct (player_size_forms example_page None
                (mkState (instream_request (arr [arr [VStr "640"; VStr "480"]])) [])
                eq_refl eq_refl) as (d & Hd & Hs & _).
    exists d. split; [exact Hd|]. exact (Hs 640 480 eq_refl eq_refl eq_refl).
  - destruct (player_size_forms example_page None
                (mkState (instream_request (arr [num 640; num 480])) [])
                eq_refl eq_refl) as (d & Hd & _ & Hf).
    exists d. split; [exact Hd|]. exact (proj2 (Hf (Int 640) [num 480] [] eq_refl)).
Defined.

(** *** The vocabulary of the wire body *)

(** A member the document has under a record has one of the record's
    keys. *)
Lemma jpath_member_key (v : value) (p : list step) (ps : list (string * value))
    (k : string) (j : json) :
  vpath v p = Some (VObj ps) ->
  opath (JSON_stringify v) (p ++ [Key k])%list = Some j ->
  In k (map fst ps).
Proof.
  intros Hv.
  destruct (jpath_stringify _ _ _ _ Hv (JSON_stringify_obj ps)) as (j0 & H0 & Hp).
  rewrite H0. cbn [opath]. rewrite jpath_app, Hp. cbn [jpath].
  destruct (jassoc k (flat_map stringify_member ps)) eqn:E; [|discriminate].
  intros _. now apply jassoc_keys in E.
Qed.

Lemma wire_request_has_own (env : page) (getFloor : option floor_fn) (r : value)
    (k : string) :
  has_own (wire_request env getFloor r) k = true ->
  In k ["id"; "imp"; "site"; "source"; "user"; "regs"].
Proof.
  intros H. apply In_listed.
  destruct (String.eqb_spec "source" k) as [<-|H1]; [reflexivity|].
  destruct (String.eqb_spec "user" k) as [<-|H2]; [reflexivity|].
  destruct (String.eqb_spec "regs" k) as [<-|H3]; [reflexivity|].
  apply String.eqb_neq in H1, H2, H3.
  rewrite (proj2 (wire_request_other env getFloor r k H1 H2 H3)) in H.
  unfold openrtb_literal in H. cbn [has_own assoc] in H. cbn [existsb].
  rewrite (String.eqb_sym k "id"), (String.eqb_sym k "imp"), (String.eqb_sym k "site").
  destruct ("id" =? k)%string; [reflexivity|].
  destruct ("imp" =? k)%string; [reflexivity|].
  destruct ("site" =? k)%string; [reflexivity|discriminate H].
Qed.

Lemma wire_request_imp (env : page) (getFloor : option floor_fn) (r : value) :
  vpath (wire_request env getFloor r) [Key "imp"; Idx 0]
  = Some (VObj [("id", VStr "1"); ("video", video_object r);
                ("secure", num (if isSecure env then 1 else 0));
                ("bidfloor", floor_data getFloor r @ "floor");
                ("bidfloorcur", floor_data getFloor r @ "currency")]).
Proof.
  destruct (wire_request_other env getFloor r "imp") as [Hp Hh]; try reflexivity.
  rewrite vpath_key; [|apply wire_request_record|now rewrite Hh].
  now rewrite Hp.
Qed.

Lemma wire_request_site (env : page) (getFloor : option floor_fn) (r : value) :
  vpath (wire_request env getFloor r) [Key "site"]
  = Some (VObj [("domain", VStr (hostname env)); ("page", VStr (href env));
                ("ref", referer_of r)]).
Proof.
  destruct (wire_request_other env getFloor r "site") as [Hp Hh]; try reflexivity.
  rewrite vpath_key; [|apply wire_request_record|now rewrite Hh].
  now rewrite Hp.
Qed.

(** X15.  What the builder never sends.  The wire body has no member beside
    [id], [imp], [site], [source], [user] and [regs] (no [test] flag in test
    mode, no [device], no [tmax]); its one impression has none beside [id],
    [video], [secure], [bidfloor] and [bidfloorcur]; its [site] none beside
    [domain], [page] and [ref]. *)
Theorem build_body_keys (env : page) (getFloor : option floor_fn) (st : state)
    (d : descriptor) :
  fst (buildRequest env getFloor st) = Ok d ->
  (forall k j, body_path d [Key k] = Some j ->
               In k ["id"; "imp"; "site"; "source"; "user"; "regs"])
  /\ (forall k j, body_path d [Key "imp"; Idx 0; Key k] = Some j ->
                  In k ["id"; "video"; "secure"; "bidfloor"; "bidfloorcur"])
  /\ (forall k j, body_path d [Key "site"; Key k] = Some j ->
                  In k ["domain"; "page"; "ref"]).
Proof.
  rewrite buildRequest_eq. cbv zeta. cbn [fst].
  destruct (buildable getFloor (bidReq st)); [|discriminate].
  intros [= <-]. unfold body_path. cbn [data].
  set (r' := after_build (bidReq st)).
  fold (opath (JSON_stringify (wire_request env getFloor r'))).
  split; [|split].
  - intros k j H.
    pose proof (wire_request_record env getFloor r') as Hrec.
    destruct (wire_request env getFloor r') as [| | | | | |ps] eqn:E;
      try discriminate Hrec.
    apply (jpath_member_key (VObj ps) [] ps k j eq_refl) in H.
    apply wire_request_has_own with (env := env) (getFloor := getFloor) (r := r').
    rewrite E. now apply (has_own_keys (VObj ps)).
  - intros k j H.
    now apply (jpath_member_key _ [Key "imp"; Idx 0] _ k j
                 (wire_request_imp env getFloor r')) in H.
  - intros k j H.
    now apply (jpath_member_key _ [Key "site"] _ k j
                 (wire_request_site env getFloor r')) in H.
Qed.

(** X15, witness. *)
Lemma build_body_keys_witness :
  let d := descriptor_of example_page
             (mkBidRequest (test_request (arr [arr [num 640; num 480]])) None) in
  body_path d [Key "test"] = None
  /\ body_path d [Key "imp"; Idx 0; Key "banner"] = None.
Proof.
  cbv zeta.
  destruct (build_body_keys example_page None
              (mkState (test_request (arr [arr [num 640; num 480]])) [])
              _ eq_refl) as (Htop & Himp & _).
  split.
  - destruct (body_path _ [Key "test"]) as [j|] eqn:E; [|reflexivity].
    apply Htop in E. simpl in E. exfalso. intuition discriminate.
  - destruct (body_path _ [Key "imp"; Idx 0; Key "banner"]) as [j|] eqn:E;
      [|reflexivity].
    apply Himp in E. simpl in E. exfalso. intuition discriminate.
Defined.

(** *** The bid floor *)

(** X16.  The bid floor.  When the bid request has a floor function, the
    builder calls it, on the bid request as the test-mode override has left
    it, with the floor request [{currency: params.cur || 'USD', mediaType:
    'video', size: '*'}], and sends the [floor] and [currency] of what it
    returns as [bidfloor] and [bidfloorcur]; without one it sends
    [params.floor] and [params.currency].  A member that is [undefined] is
    left out of the wire body.  A floor function that returns [null] or
    [undefined] makes the builder throw. *)
Theorem build_floor (env : page) (getFloor : option floor_fn) (st : state) :
  let r := bidReq st in
  let floorRequest :=
    VObj [("currency",
           if truthy (r @ "params" @ "cur") then r @ "params" @ "cur" else VStr "USD");
          ("mediaType", VStr "video"); ("size", VStr "*")] in
  let floorData :=
    match getFloor with
    | Some f => f (after_build r) floorRequest
    | None => r @ "params"
    end in
  (buildable getFloor r = true ->
   exists d,
     fst (buildRequest env getFloor st) = Ok d
     /\ body_path d [Key "imp"; Idx 0; Key "bidfloor"]
        = JSON_stringify (floorData @ "floor")
     /\ body_path d [Key "imp"; Idx 0; Key "bidfloorcur"]
        = JSON_stringify (floorData @ "currency"))
  /\ (nullish floorData = true -> fst (buildRequest env getFloor st) = Throw).
Proof.
  cbv zeta.
  assert (Hfd : match getFloor with
                | Some f =>
                    f (after_build (bidReq st))
                      (VObj [("currency",
                              if truthy (bidReq st @ "params" @ "cur")
                              then bidReq st @ "params" @ "cur" else VStr "USD");
                             ("mediaType", VStr "video"); ("size", VStr "*")])
                | None => bidReq st @ "params"
                end = floor_data getFloor (after_build (bidReq st))).
  { unfold floor_data. rewrite (after_build_other _ "params") by reflexivity.
    reflexivity. }
  rewrite Hfd. split.
  - intros Hb. eexists. split; [apply (buildRequest_returns _ _ _ Hb)|].
    pose proof (wire_request_members env getFloor (after_build (bidReq st))) as H.
    cbv zeta in H. destruct H as (_ & _ & _ & _ & Hf & Hc & _). now split.
  - intros Hn. rewrite buildRequest_eq. cbv zeta. cbn [fst].
    unfold buildable, body_buildable. rewrite Hn. cbn [negb].
    now rewrite !andb_false_r.
Qed.

(** X16, witness. *)
Lemma build_floor_witness :
  let getFloor : floor_fn :=
    fun _ request => VObj [("floor", num 2); ("currency", request @ "currency")] in
  exists d,
    fst (buildRequest example_page (Some getFloor)
           (mkState (instream_request (arr [arr [num 640; num 480]])) [])) = Ok d
    /\ body_path d [Key "imp"; Idx 0; Key "bidfloor"] = Some (JNum 2)
    /\ body_path d [Key "imp"; Idx 0; Key "bidfloorcur"] = Some (JStr "USD").
Proof.
  cbv zeta.
  exact (proj1 (build_floor example_page
                  (Some (fun _ request =>
                           VObj [("floor", num 2); ("currency", request @ "currency")]))
                  (mkState (instream_request (arr [arr [num 640; num 480]])) []))
           eq_refl).
Defined.
